(** * Cloudstrate CLI: mapping pipeline and analyst query layer

    A shallow embedding of
      - [cloudstrate/mapper/phase1.py]  (class [Phase1Mapper]),
      - [cloudstrate/mapper/phase2.py]  (class [Phase2Server]),
      - [cloudstrate/analyst/query.py]  (class [AnalystQuery]),
      - [cloudstrate/cli/analyst.py]    (command [query]),
    together with the properties of the mapping-state workflow and of the
    query classifier that the specification states about them.

    Python objects are modelled by the type [value] of JSON/YAML documents
    (of the floating-point numbers only [nan] is there).  A Python [dict] keeps its
    insertion order, so it is an association list; Python's [==] on
    documents is [py_eq], which ignores the order of dictionary keys.
    Strings are ASCII text: [str.strip], [str.upper], [str.lower] act on the
    ASCII range.  A raised exception is a value of type [exn]; a function
    that can raise returns a [result]. *)

From Stdlib Require Import Ascii String DecimalString.
From stdpp Require Import gmap strings list fin_maps.

Set Warnings "-register-all".
Local Open Scope string_scope.
Local Open Scope Z_scope.

(** ** Python values *)

Module Py.

(** The documents [json.load] and [yaml.safe_load] return.  Of the floats
    only [float('nan')] is here, which [json.load] reads from the literal
    [NaN] and which is the one value unequal to itself; the other floats
    are left out (nothing in the modelled code computes with one). *)
Inductive value : Type :=
| VNone
| VBool (b : bool)
| VInt (n : Z)
| VStr (s : string)
| VList (items : list value)
| VDict (entries : list (string * value))
| VNaN.

(** Exception classes raised by the modelled code and by the runtime. *)
Inductive exn_class : Type :=
| KeyError
| TypeError
| AttributeError
| RuntimeError
| ImportError
| FileNotFoundError
| FileExistsError
| IsADirectoryError
| NotADirectoryError
| JSONDecodeError
| YAMLError
| DriverError.

Record exn : Type := Exception { exn_cls : exn_class; exn_msg : string }.

(** [str(e)] *)
Definition str_exn (e : exn) : string := exn_msg e.

Definition result (A : Type) : Type := exn + A.

Definition ok {A} (a : A) : result A := inr a.
Definition raise {A} (c : exn_class) (m : string) : result A :=
  inl (Exception c m).
Definition bind {A B} (r : result A) (k : A -> result B) : result B :=
  match r with
  | inl e => inl e
  | inr a => k a
  end.

Definition returns {A} (r : result A) : bool :=
  match r with inr _ => true | inl _ => false end.

End Py.

Export Py.

Declare Scope py_scope.
Delimit Scope py_scope with py.
Notation "'let*' x ':=' c1 'in' c2" := (bind c1 (fun x => c2))
  (at level 10, x name, c1 at level 100, c2 at level 200) : py_scope.
Local Open Scope py_scope.

(** Inversion of a [let*] that returned: its first part returned too. *)
Ltac bind_inv H :=
  let a := fresh "a" in
  let Ha := fresh "Ha" in
  let H' := fresh "H" in
  match type of H with
  | bind ?r ?k = ?rhs =>
      assert (exists x, r = ok x /\ k x = rhs) as (a & Ha & H')
        by (let y := fresh "y" in
            destruct r as [?|y];
            [discriminate H | exists y; split; [reflexivity|exact H]]);
      clear H; rename H' into H; cbv beta in H
  end.

(** ** String methods *)

Module Str.

Definition is_space (c : ascii) : bool :=
  let n := nat_of_ascii c in
  ((9 <=? n) && (n <=? 13) || (28 <=? n) && (n <=? 32))%nat.

Definition upper_char (c : ascii) : ascii :=
  let n := nat_of_ascii c in
  if ((97 <=? n) && (n <=? 122))%nat then ascii_of_nat (n - 32) else c.

Definition lower_char (c : ascii) : ascii :=
  let n := nat_of_ascii c in
  if ((65 <=? n) && (n <=? 90))%nat then ascii_of_nat (n + 32) else c.

Fixpoint map (f : ascii -> ascii) (s : string) : string :=
  match s with
  | EmptyString => EmptyString
  | String c r => String (f c) (map f r)
  end.

(** [s.upper()], [s.lower()] *)
Definition upper : string -> string := map upper_char.
Definition lower : string -> string := map lower_char.

Fixpoint lstrip (s : string) : string :=
  match s with
  | String c r => if is_space c then lstrip r else s
  | EmptyString => EmptyString
  end.

(** [rstrip] keeps a character when it is not a space or when something
    is left after it. *)
Fixpoint rstrip (s : string) : string :=
  match s with
  | EmptyString => EmptyString
  | String c r =>
      match rstrip r with
      | EmptyString => if is_space c then EmptyString else String c EmptyString
      | r' => String c r'
      end
  end.

(** [s.strip()] *)
Definition strip (s : string) : string := rstrip (lstrip s).

(** [s.startswith(p)] *)
Fixpoint startswith (p s : string) : bool :=
  match p, s with
  | EmptyString, _ => true
  | String a p', String b s' => Ascii.eqb a b && startswith p' s'
  | String _ _, EmptyString => false
  end.

(** [s.startswith(ps)] for a tuple [ps] of prefixes *)
Definition startswith_any (ps : list string) (s : string) : bool :=
  existsb (fun p => startswith p s) ps.

(** [p in s] *)
Fixpoint contains (p s : string) : bool :=
  startswith p s ||
  match s with
  | EmptyString => false
  | String _ r => contains p r
  end.

(** [s.replace(old, new)]: the occurrences of [old] are replaced from left
    to right without overlap; [skip] counts the characters of a matched
    occurrence that are still to be dropped. *)
Fixpoint replace_go (old new : string) (skip : nat) (s : string) : string :=
  match s with
  | EmptyString => EmptyString
  | String c r =>
      match skip with
      | S k => replace_go old new k r
      | O =>
          if startswith old s
          then new +:+ replace_go old new (Nat.pred (String.length old)) r
          else String c (replace_go old new O r)
      end
  end.

Fixpoint intersperse (new : string) (s : string) : string :=
  match s with
  | EmptyString => EmptyString
  | String c r => String c (new +:+ intersperse new r)
  end.

Definition replace (old new s : string) : string :=
  match old with
  | EmptyString => new +:+ intersperse new s
  | _ => replace_go old new O s
  end.

(** [str(n)] for an integer *)
Definition of_Z (n : Z) : string := NilZero.string_of_int (Z.to_int n).

(** [sep.join(ss)] *)
Fixpoint join (sep : string) (ss : list string) : string :=
  match ss with
  | [] => ""
  | [s] => s
  | s :: rest => s +:+ sep +:+ join sep rest
  end.

End Str.

(** ** Operations on Python objects *)

Module Obj.

(** Dictionaries: lookup finds the entry of a key, assignment replaces the
    value of an existing key in place and appends a new key at the end. *)
Fixpoint dict_lookup (d : list (string * value)) (k : string) : option value :=
  match d with
  | [] => None
  | (k', v) :: rest => if String.eqb k' k then Some v else dict_lookup rest k
  end.

Fixpoint dict_set (d : list (string * value)) (k : string) (v : value)
  : list (string * value) :=
  match d with
  | [] => [(k, v)]
  | (k', v') :: rest =>
      if String.eqb k' k then (k', v) :: rest else (k', v') :: dict_set rest k v
  end.

Definition dict_keys (d : list (string * value)) : list string := List.map fst d.

(** Two lists agree element by element under [f]. *)
Section All2.
Context {A : Type} (f : A -> A -> bool).

Fixpoint all2 (xs ys : list A) : bool :=
  match xs, ys with
  | [], [] => true
  | x :: xs', y :: ys' => f x y && all2 xs' ys'
  | _, _ => false
  end.

End All2.

(** [a == b] for two documents that share no object (a document and what
    was loaded from a file): numbers compare by value ([True == 1]), lists
    element by element, dictionaries by size and by the value under every
    key, and [nan] is equal to nothing, another [nan] included. *)
Fixpoint py_eq (a b : value) : bool :=
  match a, b with
  | VNone, VNone => true
  | VBool x, VBool y => Bool.eqb x y
  | VInt x, VInt y => x =? y
  | VBool x, VInt y => Z.b2z x =? y
  | VInt x, VBool y => x =? Z.b2z y
  | VStr x, VStr y => String.eqb x y
  | VList xs, VList ys => all2 py_eq xs ys
  | VDict d, VDict e =>
      (length d =? length e)%nat &&
      forallb (fun kv => match dict_lookup e (fst kv) with
                         | Some w => py_eq (snd kv) w
                         | None => false
                         end) d
  | _, _ => false
  end.

(** [bool(x)] *)
Definition truthy (x : value) : bool :=
  match x with
  | VNone => false
  | VBool b => b
  | VInt n => negb (n =? 0)
  | VStr s => negb (String.eqb s "")
  | VList l => match l with [] => false | _ => true end
  | VDict d => match d with [] => false | _ => true end
  | VNaN => true
  end.

Definition type_name (x : value) : string :=
  match x with
  | VNone => "NoneType"
  | VBool _ => "bool"
  | VInt _ => "int"
  | VStr _ => "str"
  | VList _ => "list"
  | VDict _ => "dict"
  | VNaN => "float"
  end.

(** [repr(s)] for a string: single quotes unless the text has a single
    quote and no double quote; the quote, the backslash and the control
    characters are escaped. *)
Definition dquote : ascii := ascii_of_nat 34.
Definition squote : ascii := ascii_of_nat 39.
Definition backslash : ascii := ascii_of_nat 92.

Definition hex_digit (n : nat) : ascii :=
  if (n <? 10)%nat then ascii_of_nat (48 + n) else ascii_of_nat (87 + n).

Definition repr_char (q c : ascii) : string :=
  let n := nat_of_ascii c in
  if Ascii.eqb c q || Ascii.eqb c backslash then String backslash (String c "")
  else if (n =? 9)%nat then String backslash "t"
  else if (n =? 10)%nat then String backslash "n"
  else if (n =? 13)%nat then String backslash "r"
  else if (n <? 32)%nat || (n =? 127)%nat
       then String backslash
              (String "x" (String (hex_digit (n / 16)) (String (hex_digit (n mod 16)) "")))
  else String c "".

Fixpoint repr_chars (q : ascii) (s : string) : string :=
  match s with
  | EmptyString => EmptyString
  | String c r => repr_char q c +:+ repr_chars q r
  end.

Definition repr_str (s : string) : string :=
  let q := if Str.contains (String squote "") s && negb (Str.contains (String dquote "") s)
           then dquote else squote in
  String q (repr_chars q s +:+ String q "").

(** [repr(x)] *)
Fixpoint py_repr (x : value) : string :=
  match x with
  | VNone => "None"
  | VBool true => "True"
  | VBool false => "False"
  | VInt n => Str.of_Z n
  | VStr s => repr_str s
  | VList l => "[" +:+ Str.join ", " (List.map py_repr l) +:+ "]"
  | VDict d =>
      "{" +:+ Str.join ", "
                (List.map (fun kv => repr_str (fst kv) +:+ ": " +:+ py_repr (snd kv)) d)
          +:+ "}"
  | VNaN => "nan"
  end.

(** [str(x)], which is also what an f-string field [{x}] renders *)
Definition py_str (x : value) : string :=
  match x with
  | VStr s => s
  | _ => py_repr x
  end.

(** [x.get(k, default)]: only a dict has the method *)
Definition py_get (x : value) (k : string) (default : value) : result value :=
  match x with
  | VDict d => ok (match dict_lookup d k with Some v => v | None => default end)
  | _ => raise AttributeError
           ("'" +:+ type_name x +:+ "' object has no attribute 'get'")
  end.

(** [x[k]] for a string key [k] *)
Definition py_getitem (x : value) (k : string) : result value :=
  match x with
  | VDict d =>
      match dict_lookup d k with
      | Some v => ok v
      | None => raise KeyError (repr_str k)
      end
  | VList _ => raise TypeError "list indices must be integers or slices, not str"
  | VStr _ => raise TypeError "string indices must be integers, not 'str'"
  | _ => raise TypeError ("'" +:+ type_name x +:+ "' object is not subscriptable")
  end.

(** [x[k] = v] for a string key [k] *)
Definition py_setitem (x : value) (k : string) (v : value) : result value :=
  match x with
  | VDict d => ok (VDict (dict_set d k v))
  | VList _ => raise TypeError "list indices must be integers or slices, not str"
  | _ => raise TypeError
           ("'" +:+ type_name x +:+ "' object does not support item assignment")
  end.

Fixpoint chars (s : string) : list value :=
  match s with
  | EmptyString => []
  | String c r => VStr (String c "") :: chars r
  end.

(** The items a [for] loop over [x] visits: the elements of a list, the
    characters of a string, the keys of a dict. *)
Definition py_iter (x : value) : result (list value) :=
  match x with
  | VList l => ok l
  | VStr s => ok (chars s)
  | VDict d => ok (List.map VStr (dict_keys d))
  | _ => raise TypeError ("'" +:+ type_name x +:+ "' object is not iterable")
  end.

(** [len(x)] *)
Definition py_len (x : value) : result Z :=
  match x with
  | VList l => ok (Z.of_nat (length l))
  | VStr s => ok (Z.of_nat (String.length s))
  | VDict d => ok (Z.of_nat (length d))
  | _ => raise TypeError ("object of type '" +:+ type_name x +:+ "' has no len()")
  end.

(** [[f(x) for x in xs]], stopping at the first exception *)
Fixpoint for_each {A B} (f : A -> result B) (xs : list A) : result (list B) :=
  match xs with
  | [] => ok []
  | x :: rest =>
      let* y := f x in
      let* ys := for_each f rest in
      ok (y :: ys)
  end.

End Obj.

Export Obj.

(** ** The file system

    A path is the list of its components with the innermost one first, so
    the parent directory of a path is its tail and the root is [[]].  The
    file system maps a path to the node found there; the root is a
    directory and has no entry. *)

Module FS.

Inductive node : Type :=
| Dir
| File (content : string).

Abbreviation path := (list string).
Abbreviation fs := (gmap (list string) node).

Definition parent (p : path) : path := tail p.

Definition is_dir (m : fs) (p : path) : bool :=
  match p with
  | [] => true
  | _ => match m !! p with Some Dir => true | _ => false end
  end.

Definition is_file_node (o : option node) : bool :=
  match o with Some (File _) => true | _ => false end.

(** Some proper ancestor of the path is a regular file. *)
Fixpoint under_file (m : fs) (p : path) : bool :=
  match p with
  | [] => false
  | _ :: q => is_file_node (m !! q) || under_file m q
  end.

(** A regular file is found at the path. *)
Definition is_file (m : fs) (p : path) : bool :=
  negb (under_file m p) && negb (is_dir m p) && is_file_node (m !! p).

(** A file can be created or overwritten at the path once its parent
    directories are there: no ancestor is a regular file and the path is
    not a directory. *)
Definition writable (m : fs) (p : path) : bool :=
  negb (under_file m p) && negb (is_dir m p).

(** [Path.exists()] *)
Definition exists_ (m : fs) (p : path) : bool :=
  match p with
  | [] => true
  | _ => negb (under_file m p) && bool_decide (is_Some (m !! p))
  end.

(** [open(p).read()] *)
Definition open_read (m : fs) (p : path) : result string :=
  if under_file m p then raise NotADirectoryError "Not a directory"
  else if is_dir m p then raise IsADirectoryError "Is a directory"
  else match m !! p with
       | Some (File c) => ok c
       | _ => raise FileNotFoundError "No such file or directory"
       end.

(** [open(p, "w")] followed by writing [content] and closing *)
Definition open_write (m : fs) (p : path) (content : string) : result fs :=
  if under_file m p then raise NotADirectoryError "Not a directory"
  else if is_dir m p then raise IsADirectoryError "Is a directory"
  else if is_file_node (m !! p) || is_dir m (parent p)
       then ok (<[p := File content]> m)
       else raise FileNotFoundError "No such file or directory".

(** [os.mkdir(p)] *)
Definition os_mkdir (m : fs) (p : path) : result fs :=
  if under_file m p then raise NotADirectoryError "Not a directory"
  else if exists_ m p then raise FileExistsError "File exists"
  else if is_dir m (parent p) then ok (<[p := Dir]> m)
  else raise FileNotFoundError "No such file or directory".

(** [Path.mkdir(parents=False, exist_ok=True)] *)
Definition mkdir_exist_ok (m : fs) (p : path) : result fs :=
  match os_mkdir m p with
  | inr m' => ok m'
  | inl e =>
      match exn_cls e with
      | FileNotFoundError => inl e
      | _ => if is_dir m p then ok m else inl e
      end
  end.

(** [Path.mkdir(parents=True, exist_ok=True)]: a missing parent is created
    first and the directory itself after it. *)
Fixpoint mkdir_parents (m : fs) (p : path) : result fs :=
  match os_mkdir m p with
  | inr m' => ok m'
  | inl e =>
      match exn_cls e with
      | FileNotFoundError =>
          match p with
          | [] => inl e
          | _ :: q =>
              let* m1 := mkdir_parents m q in
              mkdir_exist_ok m1 p
          end
      | _ => if is_dir m p then ok m else inl e
      end
  end.

(** [m1] is [m] with some missing ancestors of [q] (or [q] itself) made
    directories. *)
Definition grown (m m1 : fs) (q : path) : Prop :=
  forall r, m1 !! r = m !! r \/
            (m !! r = None /\ m1 !! r = Some Dir /\ r `suffix_of` q).

End FS.

Export FS.

(** ** Serialisation libraries

    [json.load], [yaml.safe_load] and [yaml.dump] belong to the Python
    runtime, not to the repository: they are an interface here. *)

Class Serialization : Type := {
  json_load : string -> result value;
  yaml_safe_load : string -> result value;
  yaml_dump : value -> string
}.

(** ** Well-formed inputs

    The scan result of the data model: the organizational units, the
    accounts and the VPCs are lists of records with an ["id"]; the id of
    an organizational unit is a string.  A missing list counts as empty,
    as [scan_data.get(key, [])] reads it. *)

Module Scan.

Definition entries (scan : value) (k : string) : option (list value) :=
  match scan with
  | VDict d =>
      match dict_lookup d k with
      | None => Some []
      | Some (VList l) => Some l
      | Some _ => None
      end
  | _ => None
  end.

Definition has_id (x : value) : bool :=
  match x with
  | VDict d => match dict_lookup d "id" with Some _ => true | None => false end
  | _ => false
  end.

Definition has_str_id (x : value) : bool :=
  match x with
  | VDict d => match dict_lookup d "id" with Some (VStr _) => true | _ => false end
  | _ => false
  end.

Definition id_of (x : value) : value :=
  match x with
  | VDict d => match dict_lookup d "id" with Some v => v | None => VNone end
  | _ => VNone
  end.

Definition all_in (scan : value) (k : string) (ok_item : value -> bool) : bool :=
  match entries scan k with
  | Some l => forallb ok_item l
  | None => false
  end.

Definition valid (scan : value) : bool :=
  all_in scan "organizational_units" has_str_id
  && all_in scan "accounts" has_id
  && all_in scan "vpcs" has_id.

End Scan.

(** The mapping state of the data model, as far as the review server reads
    it: a record whose ["proposals"], when present, is a list of records. *)

Module MappingState.

Definition is_record (x : value) : bool :=
  match x with VDict _ => true | _ => false end.

Definition proposals (st : value) : list value :=
  match st with
  | VDict d => match dict_lookup d "proposals" with Some (VList l) => l | _ => [] end
  | _ => []
  end.

Definition well_formed (st : value) : bool :=
  match Scan.entries st "proposals" with
  | Some l => forallb is_record l
  | None => false
  end.

(** The ["status"] and the ["id"] of a proposal *)
Definition status (p : value) : option value :=
  match p with VDict d => dict_lookup d "status" | _ => None end.

Definition has_proposal_id (proposal_id : string) (p : value) : bool :=
  match p with
  | VDict d =>
      match dict_lookup d "id" with
      | Some v => py_eq v (VStr proposal_id)
      | None => false
      end
  | _ => false
  end.

Definition has_type (ty : string) (p : value) : bool :=
  match p with
  | VDict d =>
      match dict_lookup d "type" with
      | Some v => py_eq v (VStr ty)
      | None => false
      end
  | _ => false
  end.

Definition count_type (ty : string) (ps : list value) : nat :=
  length (List.filter (has_type ty) ps).

(** The proposals of the default policy, in the specification's words: one
    [tenant_grouping] over all subtenant ids when there is more than one
    subtenant, one [network_domain] over all VPC ids when there is a VPC. *)
Definition tenant_grouping (subtenants : list value) : list value :=
  if (1 <? length subtenants)%nat then
    [VDict [("type", VStr "tenant_grouping");
            ("description", VStr "Group subtenants into logical tenants");
            ("subtenants", VList (List.map Scan.id_of subtenants));
            ("status", VStr "pending")]]
  else [].

Definition network_domain (vpcs : list value) : list value :=
  match vpcs with
  | [] => []
  | _ =>
      [VDict [("type", VStr "network_domain");
              ("description",
               VStr ("Create network domains from "
                     +:+ Str.of_Z (Z.of_nat (length vpcs)) +:+ " VPCs"));
              ("vpcs", VList (List.map Scan.id_of vpcs));
              ("status", VStr "pending")]]
  end.

(** A proposal after its ["status"] was assigned. *)
Definition set_status (status : string) (p : value) : value :=
  match p with
  | VDict d => VDict (dict_set d "status" (VStr status))
  | _ => p
  end.

(** The index of the first proposal with the given id. *)
Fixpoint index_of (proposal_id : string) (ps : list value) : option nat :=
  match ps with
  | [] => None
  | p :: rest =>
      if has_proposal_id proposal_id p then Some O
      else option_map S (index_of proposal_id rest)
  end.

(** The status of the i-th proposal of a state. *)
Definition status_at (st : value) (i : nat) : option value :=
  match proposals st !! i with
  | Some p => status p
  | None => None
  end.

Definition lacks_id (p : value) : bool :=
  match p with
  | VDict d => match dict_lookup d "id" with None => true | Some _ => false end
  | _ => false
  end.

(** The state [_map_basic] assembles from its three parts. *)
Definition assembled (zones subtenants proposals : list value) : value :=
  VDict [("security_zones", VList zones);
         ("tenants", VList []);
         ("subtenants", VList subtenants);
         ("network_domains", VList []);
         ("proposals", VList proposals)].

End MappingState.

(** ** Phase 1: [cloudstrate/mapper/phase1.py] *)

Module Phase1Mapper.

Record t : Type := {
  scan_file : path;
  decisions_file : option path;
  _state : option value
}.

Section WithSerialization.
Context `{Serialization}.

(** [Phase1Mapper.__init__] *)
Definition __init__ (m : fs) (scan : path) (decisions : option path) : result t :=
  let self := {| scan_file := scan; decisions_file := decisions; _state := None |} in
  if negb (exists_ m scan) then raise FileNotFoundError "Scan file not found"
  else match decisions with
       | Some d =>
           if negb (exists_ m d) then raise FileNotFoundError "Decisions file not found"
           else ok self
       | None => ok self
       end.

(** [self._state = state] *)
Definition set_state (self : t) (st : value) : t :=
  {| scan_file := scan_file self;
     decisions_file := decisions_file self;
     _state := Some st |}.

(** [ou['id'].replace(old, new)]: only a string has the method *)
Definition py_replace (x : value) (old new : string) : result string :=
  match x with
  | VStr s => ok (Str.replace old new s)
  | _ => raise AttributeError
           ("'" +:+ type_name x +:+ "' object has no attribute 'replace'")
  end.

(** The security zone built from one organizational unit
    (body of the first loop of [_map_basic]). *)
Definition zone_of_ou (ou : value) : result value :=
  let* id := py_getitem ou "id" in
  let* short := py_replace id "ou-" "" in
  let* name := py_get ou "name" id in
  ok (VDict [("id", VStr ("sz-" +:+ short));
             ("name", name);
             ("source_ou_id", id);
             ("description", VStr ("Security zone from OU: " +:+ py_str name))]).

(** The subtenant built from one account
    (body of the second loop of [_map_basic]). *)
Definition subtenant_of_account (account : value) : result value :=
  let* id := py_getitem account "id" in
  let* name := py_get account "name" id in
  ok (VDict [("id", VStr ("st-" +:+ py_str id));
             ("name", name);
             ("aws_accounts", VList [id]);
             ("description", VStr ("Subtenant for account: " +:+ py_str name))]).

(** [Phase1Mapper._generate_proposals] *)
Definition _generate_proposals (state scan_data : value) : result (list value) :=
  let proposals := [] in
  let* subtenants := py_getitem state "subtenants" in
  let* n := py_len subtenants in
  let* proposals :=
    if 1 <? n then
      let* items := py_iter subtenants in
      let* ids := for_each (fun st => py_getitem st "id") items in
      ok (proposals ++
          [VDict [("type", VStr "tenant_grouping");
                  ("description", VStr "Group subtenants into logical tenants");
                  ("subtenants", VList ids);
                  ("status", VStr "pending")]])%list
    else ok proposals in
  let* vpcs := py_get scan_data "vpcs" (VList []) in
  if truthy vpcs then
    let* k := py_len vpcs in
    let* items := py_iter vpcs in
    let* ids := for_each (fun vpc => py_getitem vpc "id") items in
    ok (proposals ++
        [VDict [("type", VStr "network_domain");
                ("description",
                 VStr ("Create network domains from " +:+ Str.of_Z k +:+ " VPCs"));
                ("vpcs", VList ids);
                ("status", VStr "pending")]])%list
  else ok proposals.

(** [Phase1Mapper._map_basic]: the state it returns is also stored in the
    mapper. *)
Definition _map_basic (self : t) (scan_data decisions : value) : result (value * t) :=
  let* ous := py_get scan_data "organizational_units" (VList []) in
  let* ou_items := py_iter ous in
  let* zones := for_each zone_of_ou ou_items in
  let* accounts := py_get scan_data "accounts" (VList []) in
  let* account_items := py_iter accounts in
  let* subtenants := for_each subtenant_of_account account_items in
  let state := [("security_zones", VList zones);
                ("tenants", VList []);
                ("subtenants", VList subtenants);
                ("network_domains", VList []);
                ("proposals", VList [])] in
  let* proposals := _generate_proposals (VDict state) scan_data in
  let state := VDict (dict_set state "proposals" (VList proposals)) in
  ok (state, set_state self state).

(** [json.load] of the scan file and [yaml.safe_load(f) or {}] of the
    decisions file, as [run] reads them. *)
Definition load_scan (self : t) (m : fs) : result value :=
  let* text := open_read m (scan_file self) in
  json_load text.

Definition load_decisions (self : t) (m : fs) : result value :=
  match decisions_file self with
  | Some d =>
      let* text := open_read m d in
      let* v := yaml_safe_load text in
      ok (if truthy v then v else VDict [])
  | None => ok (VDict [])
  end.

(** [Phase1Mapper.run].  The [foundation] package that [run] tries to
    import first is not part of the repository: the import raises
    [ImportError] and [run] continues with [_map_basic]. *)
Definition run (self : t) (m : fs) : result (value * t) :=
  let* scan_data := load_scan self m in
  let* decisions := load_decisions self m in
  _map_basic self scan_data decisions.

Definition header : string :=
  "# Cloudstrate Mapping State" +:+ String (ascii_of_nat 10) "" +:+
  "# Generated by Phase 1 Mapper" +:+ String (ascii_of_nat 10) (String (ascii_of_nat 10) "").

(** [Phase1Mapper.save_state]: the outcome and the file system it leaves *)
Definition save_state (self : t) (m : fs) (output_path : path) : result unit * fs :=
  match _state self with
  | None => (raise RuntimeError "No state to save. Run map() first.", m)
  | Some state =>
      match mkdir_parents m (parent output_path) with
      | inl e => (inl e, m)
      | inr m1 =>
          match open_write m1 output_path (header +:+ yaml_dump state) with
          | inl e => (inl e, m1)
          | inr m2 => (ok tt, m2)
          end
      end
  end.

End WithSerialization.

End Phase1Mapper.

(** ** Phase 2: [cloudstrate/mapper/phase2.py] *)

Module Phase2Server.

Record t : Type := {
  state_file : path;
  state : value
}.

(** What a route handler hands back to Flask: [jsonify(body)] with a status
    code.  An exception that leaves the handler is an [inl]. *)
Record response : Type := Response { status_code : Z; body : value }.

Definition response_ok : response :=
  Response 200 (VDict [("status", VStr "ok")]).
Definition response_not_found : response :=
  Response 404 (VDict [("error", VStr "Proposal not found")]).

(** The loop of [accept_proposal] / [reject_proposal] over the proposals:
    the first proposal whose ["id"] equals [proposal_id] gets the new
    status and the loop stops there.  [None] when the loop runs to its end.

    A state is a tree of values here.  In a state loaded from a document
    with YAML aliases one dict object sits in several places, and the
    assignment, which goes through that object, shows in all of them.  The
    numbered properties of the handlers (C3, C4, C10, X5, X6, X7) are
    stated so that they hold of such a state too: they speak of which
    proposal an id addresses, of the status that proposal ends with and of
    what is written where, and say nothing of the other places. *)
Fixpoint mark_first (proposal_id status : string) (proposals : list value)
  : result (option (list value)) :=
  match proposals with
  | [] => ok None
  | proposal :: rest =>
      let* id := py_get proposal "id" VNone in
      if py_eq id (VStr proposal_id) then
        let* proposal' := py_setitem proposal "status" (VStr status) in
        ok (Some (proposal' :: rest))
      else
        let* r := mark_first proposal_id status rest in
        ok (option_map (cons proposal) r)
  end.

(** The state after the proposals under its ["proposals"] key were updated
    in place. *)
Definition with_proposals (st : value) (proposals : list value) : value :=
  match st with
  | VDict d => VDict (dict_set d "proposals" (VList proposals))
  | _ => st
  end.

(** A request to one of the two mutating routes: the proposal it names and
    the status it asks for. *)
Inductive request : Type :=
| Accept (proposal_id : string)
| Reject (proposal_id : string).

Definition request_id (r : request) : string :=
  match r with Accept id | Reject id => id end.

Definition verdict (r : request) : string :=
  match r with Accept _ => "accepted" | Reject _ => "rejected" end.

Section WithSerialization.
Context `{Serialization}.

(** [Phase2Server.__init__] *)
Definition __init__ (m : fs) (file : path) : result t :=
  if negb (exists_ m file) then raise FileNotFoundError "State file not found"
  else
    let* text := open_read m file in
    let* st := yaml_safe_load text in
    ok {| state_file := file; state := st |}.

(** [Phase2Server._save_state] *)
Definition _save_state (self : t) (m : fs) : result unit * fs :=
  match open_write m (state_file self) (yaml_dump (state self)) with
  | inl e => (inl e, m)
  | inr m' => (ok tt, m')
  end.

(** The common body of the two handlers: the response (or the exception
    that escapes), the server and the file system afterwards. *)
Definition decide_proposal (status : string) (self : t) (m : fs) (proposal_id : string)
  : result response * t * fs :=
  match (let* proposals := py_get (state self) "proposals" (VList []) in
         let* items := py_iter proposals in
         mark_first proposal_id status items) with
  | inl e => (inl e, self, m)
  | inr None => (ok response_not_found, self, m)
  | inr (Some items') =>
      let self' := {| state_file := state_file self;
                      state := with_proposals (state self) items' |} in
      match _save_state self' m with
      | (inl e, m') => (inl e, self', m')
      | (inr _, m') => (ok response_ok, self', m')
      end
  end.

(** The server after the i-th proposal was given a status in place. *)
Definition decided (status : string) (self : t) (i : nat) : t :=
  {| state_file := state_file self;
     state := with_proposals (state self)
                (alter (MappingState.set_status status) i
                   (MappingState.proposals (state self))) |}.

(** What a handler does once its loop has run without raising, read off
    the first proposal with the id: it answers not-found and changes
    nothing, or it decides that proposal and writes the state file. *)
Definition handled (status : string) (self : t) (m : fs)
    (proposal_id : string) : Prop :=
  match MappingState.index_of proposal_id (MappingState.proposals (state self)) with
  | None =>
      decide_proposal status self m proposal_id =
      (ok response_not_found, self, m)
  | Some i =>
      let self' := decided status self i in
      (exists d, state self = VDict d) /\
      decide_proposal status self m proposal_id =
      match open_write m (state_file self)
              (yaml_dump (state self')) with
      | inl e => (inl e, self', m)
      | inr m' => (ok response_ok, self', m')
      end
  end.

(** [POST /api/proposals/<proposal_id>/accept] *)
Definition accept_proposal : t -> fs -> string -> result response * t * fs :=
  decide_proposal "accepted".

(** [POST /api/proposals/<proposal_id>/reject] *)
Definition reject_proposal : t -> fs -> string -> result response * t * fs :=
  decide_proposal "rejected".

(** [GET /api/state] and [GET /api/proposals] *)
Definition get_state (self : t) : value := state self.
Definition get_proposals (self : t) : result value :=
  py_get (state self) "proposals" (VList []).

(** The handler a request is routed to, and a run of requests. *)
Definition handle (r : request) (self : t) (m : fs) : result response * t * fs :=
  match r with
  | Accept id => accept_proposal self m id
  | Reject id => reject_proposal self m id
  end.

Fixpoint serve (rs : list request) (self : t) (m : fs) : t * fs :=
  match rs with
  | [] => (self, m)
  | r :: rest =>
      let '(_, self', m') := handle r self m in
      serve rest self' m'
  end.

End WithSerialization.

End Phase2Server.

(** ** The analyst: [cloudstrate/analyst/query.py] *)

Module AnalystQuery.

(** [config.llm.provider] of the configuration schema *)
Inductive llm_provider : Type := gemini | ollama | vllm | disabled.

Definition provider_eqb (a b : llm_provider) : bool :=
  match a, b with
  | gemini, gemini | ollama, ollama | vllm, vllm | disabled, disabled => true
  | _, _ => false
  end.

Inductive driver : Type := Driver (uri user : string) (password : option string).

Record t : Type := {
  neo4j_uri : string;
  neo4j_user : string;
  neo4j_password : option string;
  config : option llm_provider;
  _driver : option driver
}.

(** The graph database as the class sees it.  [GraphDatabase_driver] is
    [from neo4j import GraphDatabase] followed by [GraphDatabase.driver(uri,
    auth=(user, password))]; [session_run] is everything that happens inside
    the [with driver.session()] block for a query text: opening the session,
    [session.run], reading the records into dictionaries and closing the
    session.  Either can raise. *)
Record neo4j : Type := {
  GraphDatabase_driver : string -> string -> option string -> result driver;
  session_run : driver -> string -> result (list value)
}.

(** The calls made while a question is answered, in order. *)
Inductive event : Type :=
| Call_execute_cypher (cypher : string)
| Call_execute_natural_language (question : string)
| Call_translate_with_llm (question : string)
| Call_translate_basic (question : string)
| Call_session_run (cypher : string).

Record outcome : Type := Outcome {
  trace : list event;
  final : t;
  returned : result value
}.

(** [AnalystQuery.__init__] *)
Definition __init__ (uri user : string) (password : option string)
    (cfg : option llm_provider) : t :=
  {| neo4j_uri := uri; neo4j_user := user; neo4j_password := password;
     config := cfg; _driver := None |}.

Definition set_driver (self : t) (d : option driver) : t :=
  {| neo4j_uri := neo4j_uri self; neo4j_user := neo4j_user self;
     neo4j_password := neo4j_password self; config := config self;
     _driver := d |}.

(** [AnalystQuery._get_driver] *)
Definition _get_driver (db : neo4j) (self : t) : result driver * t :=
  match _driver self with
  | Some d => (ok d, self)
  | None =>
      match GraphDatabase_driver db (neo4j_uri self) (neo4j_user self)
              (neo4j_password self) with
      | inl e => (inl e, self)
      | inr d => (ok d, set_driver self (Some d))
      end
  end.

Definition cypher_keywords : list string :=
  ["MATCH"; "RETURN"; "CREATE"; "MERGE"; "DELETE"; "CALL"; "WITH"].

(** [AnalystQuery._is_cypher] *)
Definition _is_cypher (text : string) : bool :=
  Str.startswith_any cypher_keywords (Str.upper (Str.strip text)).

(** [AnalystQuery._execute_cypher] *)
Definition _execute_cypher (db : neo4j) (self : t) (cypher : string) : outcome :=
  match _get_driver db self with
  | (inl e, self') => Outcome [Call_execute_cypher cypher] self' (inl e)
  | (inr d, self') =>
      Outcome [Call_execute_cypher cypher; Call_session_run cypher] self'
        (match session_run db d cypher with
         | inr records =>
             ok (VDict [("cypher", VStr cypher);
                        ("data", VList records);
                        ("explanation",
                         VStr ("Executed Cypher query, returned "
                               +:+ Str.of_Z (Z.of_nat (length records))
                               +:+ " results."))])
         | inl e =>
             ok (VDict [("cypher", VStr cypher);
                        ("data", VList []);
                        ("error", VStr (str_exn e))])
         end)
  end.

(** [AnalystQuery._translate_with_llm] *)
Definition _translate_with_llm (question : string) : option string := None.

Definition patterns : list (list string * string) :=
  [ (["accounts"; "aws accounts"; "all accounts"],
     "MATCH (a:AWSAccount) RETURN a.name as name, a.id as id LIMIT 50");
    (["production"; "prod accounts"],
     "MATCH (a:AWSAccount) WHERE a.name CONTAINS 'prod' OR a.name CONTAINS 'production' RETURN a.name as name, a.id as id");
    (["vpcs"; "virtual private clouds"; "networks"],
     "MATCH (v:VPC) RETURN v.id as id, v.cidr as cidr LIMIT 50");
    (["iam roles"; "roles"],
     "MATCH (r:IAMRole) RETURN r.name as name, r.arn as arn LIMIT 50");
    (["cross-account"; "cross account"; "trust relationships"],
     "MATCH (r:IAMRole)-[:TRUSTS]->(a:AWSAccount) RETURN r.name as role, a.name as trusted_account LIMIT 50");
    (["security groups"; "sgs"],
     "MATCH (sg:SecurityGroup) RETURN sg.name as name, sg.id as id LIMIT 50");
    (["subnets"],
     "MATCH (s:Subnet) RETURN s.id as id, s.cidr as cidr, s.availability_zone as az LIMIT 50") ].

Fixpoint first_match (question_lower : string) (table : list (list string * string))
  : option string :=
  match table with
  | [] => None
  | (keywords, cypher) :: rest =>
      if existsb (fun kw => Str.contains kw question_lower) keywords
      then Some cypher
      else first_match question_lower rest
  end.

(** [AnalystQuery._translate_basic] *)
Definition _translate_basic (question : string) : option string :=
  first_match (Str.lower question) patterns.

(** [if cypher:] for an optional string *)
Definition nonempty (c : option string) : option string :=
  match c with
  | Some s => if String.eqb s "" then None else Some s
  | None => None
  end.

(** [result["original_question"] = question] on the dictionary a call of
    [_execute_cypher] returned *)
Definition with_question (question : string) (o : outcome) : outcome :=
  Outcome (trace o) (final o)
    (let* r := returned o in py_setitem r "original_question" (VStr question)).

Definition prepend (evs : list event) (o : outcome) : outcome :=
  Outcome (evs ++ trace o)%list (final o) (returned o).

Definition llm_enabled (self : t) : bool :=
  match config self with
  | Some p => negb (provider_eqb p disabled)
  | None => false
  end.

(** The part of [_execute_natural_language] after the [try] block *)
Definition fallback (db : neo4j) (self : t) (question : string) : outcome :=
  prepend [Call_translate_basic question]
    match nonempty (_translate_basic question) with
    | Some cypher => with_question question (_execute_cypher db self cypher)
    | None =>
        Outcome [] self
          (ok (VDict [("cypher", VNone);
                      ("data", VList []);
                      ("error",
                       VStr ("Could not translate question to Cypher. "
                             +:+ "LLM integration required for natural language queries."));
                      ("original_question", VStr question)]))
    end.

(** [AnalystQuery._execute_natural_language] *)
Definition _execute_natural_language (db : neo4j) (self : t) (question : string)
  : outcome :=
  if llm_enabled self then
    prepend [Call_translate_with_llm question]
      match nonempty (_translate_with_llm question) with
      | Some cypher =>
          let o := with_question question (_execute_cypher db self cypher) in
          match returned o with
          | inl (Exception ImportError _) =>
              prepend (trace o) (fallback db (final o) question)
          | _ => o
          end
      | None => fallback db self question
      end
  else fallback db self question.

(** [AnalystQuery.execute] *)
Definition execute (db : neo4j) (self : t) (question : string) : outcome :=
  if _is_cypher question then _execute_cypher db self question
  else prepend [Call_execute_natural_language question]
         (_execute_natural_language db self question).

(** The shape of a result: the query text or [None] under ["cypher"], a
    list under ["data"], and a text under ["explanation"] or ["error"]. *)
Definition shaped (r : value) : Prop :=
  (exists c, py_getitem r "cypher" = ok c /\ (c = VNone \/ exists q, c = VStr q)) /\
  (exists rows, py_getitem r "data" = ok (VList rows)) /\
  ((exists s, py_getitem r "explanation" = ok (VStr s)) \/
   (exists s, py_getitem r "error" = ok (VStr s))).

End AnalystQuery.

(** ** A reference implementation of the serialisation interface

    A compact prefix notation for documents: [~] is [None], [T] and [F] the
    booleans, [i<digits>;] an integer, [s<length>:<text>] a string,
    [[...]] a list and [{...}] a dictionary whose keys are written
    [<length>:<text>].  The loader for state files skips comment lines and
    blank lines before the document, as a YAML loader does.  It stands for
    the runtime's libraries wherever a property is evaluated on concrete
    files. *)

Module Compact.

Definition newline : ascii := ascii_of_nat 10.

Definition encode_text (s : string) : string :=
  Str.of_Z (Z.of_nat (String.length s)) +:+ ":" +:+ s.

Fixpoint encode (v : value) : string :=
  match v with
  | VNone => "~"
  | VBool true => "T"
  | VBool false => "F"
  | VInt n => "i" +:+ Str.of_Z n +:+ ";"
  | VStr s => "s" +:+ encode_text s
  | VList l => "[" +:+ String.concat "" (List.map encode l) +:+ "]"
  | VDict d =>
      "{" +:+ String.concat ""
                (List.map (fun kv => encode_text (fst kv) +:+ encode (snd kv)) d)
          +:+ "}"
  | VNaN => "N"
  end.

Definition digit (c : ascii) : option Z :=
  let n := nat_of_ascii c in
  if ((48 <=? n) && (n <=? 57))%nat then Some (Z.of_nat (n - 48)) else None.

(** Digits up to the terminator [stop]; the rest follows the terminator. *)
Fixpoint read_digits (stop : ascii) (acc : Z) (s : string) : option (Z * string) :=
  match s with
  | EmptyString => None
  | String c r =>
      if Ascii.eqb c stop then Some (acc, r)
      else match digit c with
           | Some k => read_digits stop (10 * acc + k) r
           | None => None
           end
  end.

Definition read_int (stop : ascii) (s : string) : option (Z * string) :=
  match s with
  | String "-" r =>
      match read_digits stop 0 r with
      | Some (n, r') => Some (- n, r')
      | None => None
      end
  | _ => read_digits stop 0 s
  end.

Fixpoint take (n : nat) (s : string) : option (string * string) :=
  match n, s with
  | O, _ => Some (EmptyString, s)
  | S k, String c r =>
      match take k r with
      | Some (t, r') => Some (String c t, r')
      | None => None
      end
  | S _, EmptyString => None
  end.

Definition read_text (s : string) : option (string * string) :=
  match read_digits ":" 0 s with
  | Some (n, r) => take (Z.to_nat n) r
  | None => None
  end.

Fixpoint decode (fuel : nat) (s : string) : option (value * string) :=
  match fuel with
  | O => None
  | S f =>
      match s with
      | String "~" r => Some (VNone, r)
      | String "T" r => Some (VBool true, r)
      | String "F" r => Some (VBool false, r)
      | String "N" r => Some (VNaN, r)
      | String "i" r =>
          match read_int ";" r with
          | Some (n, r') => Some (VInt n, r')
          | None => None
          end
      | String "s" r =>
          match read_text r with
          | Some (t, r') => Some (VStr t, r')
          | None => None
          end
      | String "[" r =>
          match decode_items f r with
          | Some (l, r') => Some (VList l, r')
          | None => None
          end
      | String "{" r =>
          match decode_entries f r with
          | Some (d, r') => Some (VDict d, r')
          | None => None
          end
      | _ => None
      end
  end
with decode_items (fuel : nat) (s : string) : option (list value * string) :=
  match fuel with
  | O => None
  | S f =>
      match s with
      | String "]" r => Some ([], r)
      | _ =>
          match decode f s with
          | Some (v, r) =>
              match decode_items f r with
              | Some (l, r') => Some (v :: l, r')
              | None => None
              end
          | None => None
          end
      end
  end
with decode_entries (fuel : nat) (s : string) : option (list (string * value) * string) :=
  match fuel with
  | O => None
  | S f =>
      match s with
      | String "}" r => Some ([], r)
      | _ =>
          match read_text s with
          | Some (k, r) =>
              match decode f r with
              | Some (v, r') =>
                  match decode_entries f r' with
                  | Some (d, r'') => Some ((k, v) :: d, r'')
                  | None => None
                  end
              | None => None
              end
          | None => None
          end
      end
  end.

(** The text after the leading comment lines and blank lines. *)
Fixpoint skip_comments (in_comment : bool) (s : string) : string :=
  match s with
  | EmptyString => EmptyString
  | String c r =>
      if in_comment then skip_comments (negb (Ascii.eqb c newline)) r
      else if Ascii.eqb c "#" then skip_comments true r
      else if Ascii.eqb c newline then skip_comments false r
      else s
  end.

Definition loads (cls : exn_class) (s : string) : result value :=
  match decode (S (String.length s)) s with
  | Some (v, EmptyString) => ok v
  | _ => raise cls "malformed document"
  end.

#[global] Instance codec : Serialization := {|
  json_load := loads JSONDecodeError;
  yaml_safe_load := fun s => loads YAMLError (skip_comments false s);
  yaml_dump := encode
|}.

End Compact.

(** ** Concrete inputs

    The scenario of the specification: two organizational units, two
    accounts and one VPC, stored as a scan file; a state file under review
    with two identified proposals; two graph databases. *)

Module Demo.

Definition ous : list value :=
  [VDict [("id", VStr "ou-1"); ("name", VStr "Prod")];
   VDict [("id", VStr "ou-2"); ("name", VStr "Dev")]].

Definition accounts : list value :=
  [VDict [("id", VStr "111"); ("name", VStr "A")];
   VDict [("id", VStr "222"); ("name", VStr "B")]].

Definition vpcs : list value := [VDict [("id", VStr "vpc-9")]].

Definition scan : value :=
  VDict [("organization", VDict [("id", VStr "o-123")]);
         ("accounts", VList accounts);
         ("organizational_units", VList ous);
         ("vpcs", VList vpcs)].

Definition scan_path : path := ["scan.json"; "work"].
Definition state_path : path := ["state.yaml"; "out"; "work"].

Definition disk : fs :=
  {[ ["work"] := Dir; scan_path := File (Compact.encode scan) ]}.

Definition mapper : Phase1Mapper.t :=
  {| Phase1Mapper.scan_file := scan_path;
     Phase1Mapper.decisions_file := None;
     Phase1Mapper._state := None |}.

Definition subtenants : list value :=
  [VDict [("id", VStr "st-111"); ("name", VStr "A");
          ("aws_accounts", VList [VStr "111"]);
          ("description", VStr "Subtenant for account: A")];
   VDict [("id", VStr "st-222"); ("name", VStr "B");
          ("aws_accounts", VList [VStr "222"]);
          ("description", VStr "Subtenant for account: B")]].

(** The state [_map_basic] returns on the scan. *)
Definition state : value :=
  Eval vm_compute in
    match Phase1Mapper._map_basic mapper scan (VDict []) with
    | inr (st, _) => st
    | inl _ => VNone
    end.

(** The same state as a YAML dump lists it and a loader reads it back:
    the keys of every record in sorted order. *)
Definition state_sorted : value :=
  VDict [("network_domains", VList []);
         ("proposals",
          VList [VDict [("description", VStr "Group subtenants into logical tenants");
                        ("status", VStr "pending");
                        ("subtenants", VList [VStr "st-111"; VStr "st-222"]);
                        ("type", VStr "tenant_grouping")];
                 VDict [("description", VStr "Create network domains from 1 VPCs");
                        ("status", VStr "pending");
                        ("type", VStr "network_domain");
                        ("vpcs", VList [VStr "vpc-9"])]]);
         ("security_zones",
          VList [VDict [("description", VStr "Security zone from OU: Prod");
                        ("id", VStr "sz-1"); ("name", VStr "Prod");
                        ("source_ou_id", VStr "ou-1")];
                 VDict [("description", VStr "Security zone from OU: Dev");
                        ("id", VStr "sz-2"); ("name", VStr "Dev");
                        ("source_ou_id", VStr "ou-2")]]);
         ("subtenants",
          VList [VDict [("aws_accounts", VList [VStr "111"]);
                        ("description", VStr "Subtenant for account: A");
                        ("id", VStr "st-111"); ("name", VStr "A")];
                 VDict [("aws_accounts", VList [VStr "222"]);
                        ("description", VStr "Subtenant for account: B");
                        ("id", VStr "st-222"); ("name", VStr "B")]]);
         ("tenants", VList [])].

Definition proposal (id status : string) : value :=
  VDict [("id", VStr id); ("type", VStr "tenant_grouping"); ("status", VStr status)].

Definition review (status1 status2 : string) : value :=
  VDict [("security_zones", VList []);
         ("proposals", VList [proposal "p1" status1; proposal "p2" status2])].

Definition review_path : path := ["review.yaml"].

Definition review_disk : fs :=
  {[ review_path := File (Compact.encode (review "pending" "pending")) ]}.

Definition server : Phase2Server.t :=
  {| Phase2Server.state_file := review_path;
     Phase2Server.state := review "pending" "pending" |}.

Definition analyst : AnalystQuery.t :=
  AnalystQuery.__init__ "bolt://localhost:7687" "neo4j" (Some "secret") None.

(** A database that answers every query with one record. *)
Definition db_up : AnalystQuery.neo4j :=
  {| AnalystQuery.GraphDatabase_driver :=
       fun uri user password => ok (AnalystQuery.Driver uri user password);
     AnalystQuery.session_run :=
       fun _ _ => ok [VDict [("name", VStr "prod-account"); ("id", VStr "111")]] |}.

(** A database whose session raises on every query. *)
Definition db_failing : AnalystQuery.neo4j :=
  {| AnalystQuery.GraphDatabase_driver :=
       fun uri user password => ok (AnalystQuery.Driver uri user password);
     AnalystQuery.session_run :=
       fun _ _ => raise DriverError "Query failed" |}.

(** An installation where creating the driver raises. *)
Definition db_unreachable : AnalystQuery.neo4j :=
  {| AnalystQuery.GraphDatabase_driver :=
       fun _ _ _ => raise DriverError "URI scheme is not supported";
     AnalystQuery.session_run := fun _ _ => ok [] |}.

End Demo.

(** A scan in which the name of an account is [NaN], which [json.load]
    accepts, and the state [_map_basic] returns on it. *)
Module NanDemo.

Definition scan : value :=
  VDict [("accounts", VList [VDict [("id", VStr "111"); ("name", VNaN)]])].

Definition disk : fs :=
  {[ ["work"] := Dir; Demo.scan_path := File (Compact.encode scan) ]}.

Definition state : value :=
  Eval vm_compute in
    match Phase1Mapper._map_basic Demo.mapper scan (VDict []) with
    | inr (st, _) => st
    | inl _ => VNone
    end.

End NanDemo.

(** ** What the review server leaves alone *)

Module Phase2Invariant.

(** The server [self'] and the file system [m'] compared with [self] and
    [m]: the same state file, as many proposals, every proposal in its
    place answering to the same id as before, and every file other than the
    state file as it was. *)
Definition preserved (self self' : Phase2Server.t) (m m' : fs) : Prop :=
  Phase2Server.state_file self' = Phase2Server.state_file self /\
  length (MappingState.proposals (Phase2Server.state self')) =
    length (MappingState.proposals (Phase2Server.state self)) /\
  (forall i p', MappingState.proposals (Phase2Server.state self') !! i = Some p' ->
     exists p, MappingState.proposals (Phase2Server.state self) !! i = Some p /\
               forall proposal_id,
                 MappingState.has_proposal_id proposal_id p' =
                 MappingState.has_proposal_id proposal_id p) /\
  (forall p, p <> Phase2Server.state_file self -> m' !! p = m !! p).

End Phase2Invariant.

(** ** The command line: [cloudstrate/cli]

    A command echoes lines on standard output and on standard error and
    ends with an exit code.  Every [click.echo] is one entry of the list,
    without the line end that [echo] adds. *)

Module Cli.

Definition nl : string := String (ascii_of_nat 10) "".

Inductive stderr_line : Type :=
| Message (text : string)
| Traceback (e : exn).

Record output : Type := Output {
  stdout : list string;
  stderr : list stderr_line;
  exit_code : Z
}.

(** What a block of statements has echoed when it has run to its end or
    has raised. *)
Definition printed : Type := list string * option exn.

Definition skip : printed := ([], None).
Definition echo (s : string) : printed := ([s], None).

Definition then_ (a b : printed) : printed :=
  match a with
  | (out, None) => ((out ++ fst b)%list, snd b)
  | (_, Some _) => a
  end.

Definition eval {A} (r : result A) (k : A -> printed) : printed :=
  match r with
  | inl e => ([], Some e)
  | inr a => k a
  end.

Fixpoint for_rows (body : value -> printed) (rows : list value) : printed :=
  match rows with
  | [] => skip
  | row :: rest => then_ (body row) (for_rows body rest)
  end.

(** The text [click.echo(x)] writes: nothing for [None], the string
    itself, [str(x)] for anything else. *)
Definition echo_text (x : value) : string :=
  match x with
  | VNone => ""
  | _ => py_str x
  end.

(** [x[:n]].  A dict has no slices: the [TypeError] below is what Python
    raises before version 3.12 (a [KeyError] from then on). *)
Definition py_slice_to (x : value) (n : nat) : result value :=
  match x with
  | VList l => ok (VList (firstn n l))
  | VStr s => ok (VStr (substring 0 n s))
  | VDict _ => raise TypeError "unhashable type: 'slice'"
  | _ => raise TypeError ("'" +:+ type_name x +:+ "' object is not subscriptable")
  end.

(** The two [except] clauses every command ends with: [ImportError] first,
    any other exception after it; both exit with code 1. *)
Definition on_error (unavailable failed : string) (verbose : bool)
    (out : list string) (e : exn) : output :=
  match exn_cls e with
  | ImportError => Output out [Message (unavailable +:+ str_exn e)] 1
  | _ =>
      Output out
        (Message (failed +:+ str_exn e) :: if verbose then [Traceback e] else []) 1
  end.

End Cli.

(** *** [cloudstrate analyst query]: [cloudstrate/cli/analyst.py] *)

Module AnalystCli.

Import Cli.

Inductive format : Type := text | json | table.

(** [if result.get(key): body] *)
Definition when (result : value) (key : string) (body : printed) : printed :=
  eval (py_get result key VNone) (fun v => if truthy v then body else skip).

(** The [table] branch *)
Definition render_table (result : value) : printed :=
  when result "data"
    (eval (py_getitem result "data") (fun data =>
     eval (py_iter data) (for_rows (fun row => echo (echo_text row))))).

(** The [text] branch *)
Definition render_text (result : value) : printed :=
  then_
    (when result "explanation"
       (eval (py_getitem result "explanation") (fun v => echo (echo_text v))))
    (then_
       (when result "cypher"
          (eval (py_getitem result "cypher") (fun v =>
           echo (nl +:+ "Cypher query: " +:+ py_str v))))
       (when result "data"
          (then_
             (eval (py_getitem result "data") (fun data =>
              eval (py_len data) (fun n =>
              echo (nl +:+ "Results: " +:+ Str.of_Z n +:+ " rows"))))
             (then_
                (eval (py_getitem result "data") (fun data =>
                 eval (py_slice_to data 10) (fun first =>
                 eval (py_iter first)
                   (for_rows (fun row => echo ("  " +:+ py_str row))))))
                (eval (py_getitem result "data") (fun data =>
                 eval (py_len data) (fun n =>
                 if 10 <? n then
                   eval (py_getitem result "data") (fun data' =>
                   eval (py_len data') (fun n' =>
                   echo ("  ... and " +:+ Str.of_Z (n' - 10) +:+ " more")))
                 else skip))))))).

Section WithJson.

(** [json.dumps(result, indent=2, default=str)] *)
Variable json_dumps : value -> string.

Definition render (fmt : format) (result : value) : printed :=
  match fmt with
  | json => echo (json_dumps result)
  | table => render_table result
  | text => render_text result
  end.

(** The command [query]: [verbose] and [cfg] are what the root command
    left in [ctx.obj]. *)
Definition query (db : AnalystQuery.neo4j) (verbose : bool)
    (cfg : option AnalystQuery.llm_provider)
    (question neo4j_uri neo4j_user neo4j_password : string) (fmt : format) : output :=
  let first := ["Query: " +:+ question +:+ nl] in
  let fail := on_error "Error: Analyst module not available: "
                "Error executing query: " verbose in
  let analyst_query :=
    AnalystQuery.__init__ neo4j_uri neo4j_user (Some neo4j_password) cfg in
  match AnalystQuery.returned (AnalystQuery.execute db analyst_query question) with
  | inl e => fail first e
  | inr result =>
      match render fmt result with
      | (lines, None) => Output (first ++ lines)%list [] 0
      | (lines, Some e) => fail (first ++ lines)%list e
      end
  end.

End WithJson.

(** The query text [execute] runs for a question, if any: the question
    itself when it counts as Cypher, the template found for it otherwise. *)
Definition chosen (question : string) : option string :=
  if AnalystQuery._is_cypher question then Some question
  else AnalystQuery.nonempty (AnalystQuery._translate_basic question).

End AnalystCli.

(** * Properties *)

(** ** Evaluation on small inputs *)

Example replace_prefix : Str.replace "ou-" "" "ou-root-prod" = "root-prod".
Proof. reflexivity. Qed.

Example replace_every_occurrence : Str.replace "ou-" "" "ou-you-ou-x" = "yx".
Proof. reflexivity. Qed.

Example replace_without_overlap : Str.replace "aa" "b" "aaa" = "ba".
Proof. reflexivity. Qed.

Example strip_both_ends : Str.strip "  match (n)  " = "match (n)".
Proof. reflexivity. Qed.

Example repr_nested :
  py_repr (VDict [("a", VList [VInt 1; VStr "x"; VNone; VBool true])]) =
  "{'a': [1, 'x', None, True]}".
Proof. reflexivity. Qed.

Example eq_ignores_key_order :
  py_eq (VDict [("a", VInt 1); ("b", VNone)]) (VDict [("b", VNone); ("a", VInt 1)]) = true.
Proof. reflexivity. Qed.

Example is_cypher_lowercase : AnalystQuery._is_cypher "  match (n) return n" = true.
Proof. reflexivity. Qed.

Example is_cypher_question : AnalystQuery._is_cypher "Show all accounts" = false.
Proof. reflexivity. Qed.

Example translate_accounts :
  AnalystQuery._translate_basic "Show all accounts" =
  Some "MATCH (a:AWSAccount) RETURN a.name as name, a.id as id LIMIT 50".
Proof. reflexivity. Qed.

Example translate_unknown : AnalystQuery._translate_basic "Something random" = None.
Proof. reflexivity. Qed.

(** ** The result monad and comprehensions *)

Lemma bind_ok {A B} (r : result A) (k : A -> result B) (b : B) :
  bind r k = ok b -> exists a, r = ok a /\ k a = ok b.
Proof.
  destruct r as [e|a]; simpl; [discriminate|].
  intros Hk. exists a. split; [reflexivity|exact Hk].
Qed.

Lemma for_each_Forall2 {A B} (f : A -> result B) (xs : list A) (ys : list B) :
  for_each f xs = ok ys -> Forall2 (fun x y => f x = ok y) xs ys.
Proof.
  revert ys. induction xs as [|x xs IH]; intros ys Hys; simpl in Hys.
  - injection Hys as <-. constructor.
  - bind_inv Hys. bind_inv Hys. injection Hys as <-.
    constructor; [assumption|]. apply IH. assumption.
Qed.

Lemma Forall2_for_each {A B} (f : A -> result B) (xs : list A) (ys : list B) :
  Forall2 (fun x y => f x = ok y) xs ys -> for_each f xs = ok ys.
Proof.
  induction 1 as [|x y xs ys Hxy _ IH]; simpl; [reflexivity|].
  rewrite Hxy. simpl. rewrite IH. reflexivity.
Qed.

Lemma for_each_total {A B} (f : A -> result B) (g : A -> B) (xs : list A) :
  Forall (fun x => f x = ok (g x)) xs -> for_each f xs = ok (List.map g xs).
Proof.
  induction 1 as [|x xs Hx _ IH]; simpl; [reflexivity|].
  rewrite Hx. simpl. rewrite IH. reflexivity.
Qed.

Lemma for_each_returns {A B} (f : A -> result B) (xs : list A) :
  Forall (fun x => exists y, f x = ok y) xs -> exists ys, for_each f xs = ok ys.
Proof.
  induction 1 as [|x xs [y Hy] _ [ys IH]]; simpl.
  - exists []. reflexivity.
  - exists (y :: ys). rewrite Hy. simpl. rewrite IH. reflexivity.
Qed.

(** ** Phase 1 *)

Lemma entries_get_iter (scan : value) (k : string) (l : list value) :
  Scan.entries scan k = Some l ->
  (let* v := py_get scan k (VList []) in py_iter v) = ok l.
Proof.
  unfold Scan.entries. destruct scan as [| | | |?|d|]; try discriminate.
  simpl. destruct (dict_lookup d k) as [[| | | |items| |]|]; try discriminate;
    intros [= <-]; reflexivity.
Qed.

Lemma entries_get (scan : value) (k : string) (l : list value) :
  Scan.entries scan k = Some l ->
  exists v, py_get scan k (VList []) = ok v /\ py_iter v = ok l /\ v = VList l.
Proof.
  unfold Scan.entries. destruct scan as [| | | |?|d|]; try discriminate.
  simpl. destruct (dict_lookup d k) as [[| | | |items| |]|]; try discriminate;
    intros [= <-]; eexists; repeat split.
Qed.

Lemma has_id_getitem (x : value) :
  Scan.has_id x = true -> py_getitem x "id" = ok (Scan.id_of x).
Proof.
  destruct x as [| | | | |d|]; try discriminate. simpl.
  destruct (dict_lookup d "id"); [reflexivity|discriminate].
Qed.

Lemma has_str_id_has_id (x : value) :
  Scan.has_str_id x = true -> Scan.has_id x = true.
Proof.
  destruct x as [| | | | |d|]; try discriminate. simpl.
  destruct (dict_lookup d "id") as [[]|]; try discriminate; reflexivity.
Qed.

Lemma zone_of_ou_returns (ou : value) :
  Scan.has_str_id ou = true -> exists z, Phase1Mapper.zone_of_ou ou = ok z.
Proof.
  intros Hou. unfold Phase1Mapper.zone_of_ou.
  rewrite (has_id_getitem ou (has_str_id_has_id ou Hou)).
  destruct ou as [| | | | |d|]; try discriminate. simpl in *.
  destruct (dict_lookup d "id") as [[| | |s| | |]|]; try discriminate.
  simpl. eexists. reflexivity.
Qed.

Lemma subtenant_of_account_returns (account : value) :
  Scan.has_id account = true ->
  exists s, Phase1Mapper.subtenant_of_account account = ok s
            /\ Scan.has_id s = true
            /\ Scan.id_of s = VStr ("st-" +:+ py_str (Scan.id_of account)).
Proof.
  intros Ha. unfold Phase1Mapper.subtenant_of_account.
  rewrite (has_id_getitem account Ha).
  destruct account as [| | | | |d|]; try discriminate. simpl.
  eexists. split; [reflexivity|]. split; reflexivity.
Qed.

Lemma ids_of_records (xs : list value) :
  forallb Scan.has_id xs = true ->
  for_each (fun x => py_getitem x "id") xs = ok (List.map Scan.id_of xs).
Proof.
  intros Hxs. apply for_each_total.
  apply Forall_forall. intros x Hx. apply has_id_getitem.
  rewrite forallb_forall in Hxs. apply Hxs. apply list_elem_of_In. exact Hx.
Qed.

Lemma truthy_list (l : list value) :
  truthy (VList l) = match l with [] => false | _ => true end.
Proof. reflexivity. Qed.

(** What [_generate_proposals] returns on a state with well-formed
    subtenants and a scan with well-formed VPCs. *)
Lemma generate_proposals_spec (state scan : value) (subtenants vpcs : list value) :
  py_getitem state "subtenants" = ok (VList subtenants) ->
  forallb Scan.has_id subtenants = true ->
  Scan.entries scan "vpcs" = Some vpcs ->
  forallb Scan.has_id vpcs = true ->
  Phase1Mapper._generate_proposals state scan =
  ok (MappingState.tenant_grouping subtenants ++ MappingState.network_domain vpcs)%list.
Proof.
  intros Hsub Hids Hvpcs Hvids.
  unfold Phase1Mapper._generate_proposals.
  rewrite Hsub. cbn [bind py_len ok].
  destruct (entries_get _ _ _ Hvpcs) as (v & Hget & _ & ->).
  unfold MappingState.tenant_grouping.
  replace (1 <? Z.of_nat (length subtenants)) with (1 <? length subtenants)%nat
    by (destruct (Nat.ltb_spec 1 (length subtenants));
        destruct (Z.ltb_spec 1 (Z.of_nat (length subtenants))); lia).
  destruct (1 <? length subtenants)%nat.
  - cbn [py_iter bind ok]. rewrite (ids_of_records _ Hids). cbn [bind ok].
    rewrite Hget. cbn [bind ok]. rewrite truthy_list.
    destruct vpcs as [|vpc vpcs]; [reflexivity|].
    cbn [py_len py_iter bind ok]. rewrite (ids_of_records _ Hvids). reflexivity.
  - cbn [bind ok]. rewrite Hget. cbn [bind ok]. rewrite truthy_list.
    destruct vpcs as [|vpc vpcs]; [reflexivity|].
    cbn [py_len py_iter bind ok]. rewrite (ids_of_records _ Hvids). reflexivity.
Qed.

Lemma subtenant_has_id (account s : value) :
  Phase1Mapper.subtenant_of_account account = ok s -> Scan.has_id s = true.
Proof.
  unfold Phase1Mapper.subtenant_of_account. intros Hs.
  bind_inv Hs. bind_inv Hs. injection Hs as <-. reflexivity.
Qed.

Lemma subtenants_have_ids (accounts subtenants : list value) :
  for_each Phase1Mapper.subtenant_of_account accounts = ok subtenants ->
  forallb Scan.has_id subtenants = true.
Proof.
  intros Hs. apply for_each_Forall2 in Hs.
  induction Hs as [|a s accounts subtenants Has _ IH]; simpl; [reflexivity|].
  rewrite (subtenant_has_id _ _ Has). exact IH.
Qed.

Lemma forallb_returns {A B} (f : A -> result B) (p : A -> bool) (xs : list A) :
  (forall x, p x = true -> exists y, f x = ok y) ->
  forallb p xs = true -> exists ys, for_each f xs = ok ys.
Proof.
  intros Hf Hxs. apply for_each_returns. apply Forall_forall. intros x Hx.
  apply Hf. rewrite forallb_forall in Hxs. apply Hxs. apply list_elem_of_In. exact Hx.
Qed.

(** [_map_basic] on a well-formed scan: it returns, and the state it
    returns is assembled from the zones of the organizational units, the
    subtenants of the accounts and the proposals of the default policy. *)
Lemma map_basic_spec (self : Phase1Mapper.t) (scan decisions : value)
    (ous accounts vpcs : list value) :
  Scan.entries scan "organizational_units" = Some ous ->
  Scan.entries scan "accounts" = Some accounts ->
  Scan.entries scan "vpcs" = Some vpcs ->
  forallb Scan.has_str_id ous = true ->
  forallb Scan.has_id accounts = true ->
  forallb Scan.has_id vpcs = true ->
  exists zones subtenants,
    for_each Phase1Mapper.zone_of_ou ous = ok zones /\
    for_each Phase1Mapper.subtenant_of_account accounts = ok subtenants /\
    let st := MappingState.assembled zones subtenants
                (MappingState.tenant_grouping subtenants
                 ++ MappingState.network_domain vpcs)%list in
    Phase1Mapper._map_basic self scan decisions = ok (st, Phase1Mapper.set_state self st).
Proof.
  intros Hous Haccounts Hvpcs Vous Vaccounts Vvpcs.
  destruct (forallb_returns Phase1Mapper.zone_of_ou _ ous zone_of_ou_returns Vous)
    as [zones Hzones].
  destruct (forallb_returns Phase1Mapper.subtenant_of_account Scan.has_id accounts)
    as [subtenants Hsubtenants]; [|exact Vaccounts|].
  { intros a Ha. destruct (subtenant_of_account_returns a Ha) as (s & Hs & _).
    exists s. exact Hs. }
  exists zones, subtenants. split; [exact Hzones|]. split; [exact Hsubtenants|].
  cbv zeta. unfold Phase1Mapper._map_basic.
  destruct (entries_get _ _ _ Hous) as (v1 & -> & _ & ->). cbn [bind ok py_iter].
  rewrite Hzones. cbn [bind ok].
  destruct (entries_get _ _ _ Haccounts) as (v2 & -> & _ & ->). cbn [bind ok py_iter].
  rewrite Hsubtenants. cbn [bind ok].
  rewrite (generate_proposals_spec _ scan subtenants vpcs);
    [reflexivity|reflexivity| |exact Hvpcs|exact Vvpcs].
  exact (subtenants_have_ids _ _ Hsubtenants).
Qed.

(** C1.  On a well-formed scan result, [Phase1Mapper.run] (which continues
    with [_map_basic]) returns a state with one security zone per
    organizational unit and one subtenant per account: the two lists have
    the lengths of the input lists, the i-th security zone is the zone
    built from the i-th organizational unit and the j-th subtenant is the
    one built from the j-th account. *)
Theorem C1_run_zones_and_subtenants_follow_input `{Serialization}
    (self : Phase1Mapper.t) (m : fs) (scan decisions : value)
    (ous accounts : list value) :
  Phase1Mapper.load_scan self m = ok scan ->
  Phase1Mapper.load_decisions self m = ok decisions ->
  Scan.valid scan = true ->
  Scan.entries scan "organizational_units" = Some ous ->
  Scan.entries scan "accounts" = Some accounts ->
  exists st self' zones subtenants,
    Phase1Mapper.run self m = ok (st, self') /\
    Phase1Mapper._state self' = Some st /\
    py_getitem st "security_zones" = ok (VList zones) /\
    py_getitem st "subtenants" = ok (VList subtenants) /\
    length zones = length ous /\
    length subtenants = length accounts /\
    (forall i ou, ous !! i = Some ou ->
       exists z, zones !! i = Some z /\
                 Phase1Mapper.zone_of_ou ou = ok z /\
                 py_getitem z "source_ou_id" = ok (Scan.id_of ou)) /\
    (forall j account, accounts !! j = Some account ->
       exists s, subtenants !! j = Some s /\
                 Phase1Mapper.subtenant_of_account account = ok s /\
                 py_getitem s "aws_accounts" = ok (VList [Scan.id_of account])).
Proof.
  intros Hscan Hdecisions Hvalid Hous Haccounts.
  unfold Scan.valid, Scan.all_in in Hvalid. rewrite Hous, Haccounts in Hvalid.
  destruct (Scan.entries scan "vpcs") as [vpcs|] eqn:Hvpcs;
    [|rewrite andb_false_r in Hvalid; discriminate].
  apply andb_prop in Hvalid as [Hvalid Vvpcs].
  apply andb_prop in Hvalid as [Vous Vaccounts].
  destruct (map_basic_spec self scan decisions ous accounts vpcs
              Hous Haccounts Hvpcs Vous Vaccounts Vvpcs)
    as (zones & subtenants & Hzones & Hsubtenants & Hrun).
  cbv zeta in Hrun.
  eexists _, _, zones, subtenants.
  split.
  { unfold Phase1Mapper.run. rewrite Hscan, Hdecisions. cbn [bind ok]. exact Hrun. }
  apply for_each_Forall2 in Hzones, Hsubtenants.
  split; [reflexivity|]. split; [reflexivity|]. split; [reflexivity|].
  split; [symmetry; exact (Forall2_length _ _ _ Hzones)|].
  split; [symmetry; exact (Forall2_length _ _ _ Hsubtenants)|].
  split.
  - intros i ou Hi.
    destruct (Forall2_lookup_l _ _ _ _ _ Hzones Hi) as (z & Hz & Hou).
    exists z. split; [exact Hz|]. split; [exact Hou|].
    unfold Phase1Mapper.zone_of_ou in Hou.
    apply bind_ok in Hou as (id & Hid & Hou).
    apply bind_ok in Hou as (short & _ & Hou).
    apply bind_ok in Hou as (name & _ & Hou).
    injection Hou as <-.
    destruct ou as [| | | | |d|]; try discriminate. simpl in Hid |- *.
    destruct (dict_lookup d "id"); [|discriminate].
    injection Hid as ->. reflexivity.
  - intros j account Hj.
    destruct (Forall2_lookup_l _ _ _ _ _ Hsubtenants Hj) as (s & Hs & Ha).
    exists s. split; [exact Hs|]. split; [exact Ha|].
    unfold Phase1Mapper.subtenant_of_account in Ha.
    apply bind_ok in Ha as (id & Hid & Ha).
    apply bind_ok in Ha as (name & _ & Ha).
    injection Ha as <-.
    destruct account as [| | | | |d|]; try discriminate. simpl in Hid |- *.
    destruct (dict_lookup d "id"); [|discriminate].
    injection Hid as ->. reflexivity.
Qed.

Lemma C1_witness :
  Phase1Mapper.load_scan Demo.mapper Demo.disk = ok Demo.scan /\
  Phase1Mapper.load_decisions Demo.mapper Demo.disk = ok (VDict []) /\
  Scan.valid Demo.scan = true /\
  exists st self' zones subtenants,
    Phase1Mapper.run Demo.mapper Demo.disk = ok (st, self') /\
    Phase1Mapper._state self' = Some st /\
    py_getitem st "security_zones" = ok (VList zones) /\
    py_getitem st "subtenants" = ok (VList subtenants) /\
    length zones = length Demo.ous /\
    length subtenants = length Demo.accounts /\
    (forall i ou, Demo.ous !! i = Some ou ->
       exists z, zones !! i = Some z /\
                 Phase1Mapper.zone_of_ou ou = ok z /\
                 py_getitem z "source_ou_id" = ok (Scan.id_of ou)) /\
    (forall j account, Demo.accounts !! j = Some account ->
       exists s, subtenants !! j = Some s /\
                 Phase1Mapper.subtenant_of_account account = ok s /\
                 py_getitem s "aws_accounts" = ok (VList [Scan.id_of account])).
Proof.
  assert (H1 : Phase1Mapper.load_scan Demo.mapper Demo.disk = ok Demo.scan)
    by (vm_compute; reflexivity).
  assert (H2 : Phase1Mapper.load_decisions Demo.mapper Demo.disk = ok (VDict []))
    by reflexivity.
  assert (H3 : Scan.valid Demo.scan = true) by reflexivity.
  split; [exact H1|]. split; [exact H2|]. split; [exact H3|].
  apply (C1_run_zones_and_subtenants_follow_input
           Demo.mapper Demo.disk Demo.scan (VDict []) Demo.ous Demo.accounts
           H1 H2 H3); reflexivity.
Defined.

Lemma has_type_head (ty t : string) (rest : list (string * value)) :
  MappingState.has_type ty (VDict (("type", VStr t) :: rest)) = String.eqb t ty.
Proof. reflexivity. Qed.

Lemma count_type_app (ty : string) (ps qs : list value) :
  MappingState.count_type ty (ps ++ qs) =
  (MappingState.count_type ty ps + MappingState.count_type ty qs)%nat.
Proof.
  unfold MappingState.count_type. rewrite List.filter_app, length_app. reflexivity.
Qed.

Lemma count_tenant_grouping (ty : string) (subtenants : list value) :
  MappingState.count_type ty (MappingState.tenant_grouping subtenants) =
  if (1 <? length subtenants)%nat && String.eqb "tenant_grouping" ty
  then 1%nat else 0%nat.
Proof.
  unfold MappingState.tenant_grouping, MappingState.count_type.
  destruct (1 <? length subtenants)%nat; [|reflexivity].
  cbn [List.filter andb]. rewrite has_type_head.
  destruct (String.eqb "tenant_grouping" ty); reflexivity.
Qed.

Lemma count_network_domain (ty : string) (vpcs : list value) :
  MappingState.count_type ty (MappingState.network_domain vpcs) =
  if (1 <=? length vpcs)%nat && String.eqb "network_domain" ty
  then 1%nat else 0%nat.
Proof.
  unfold MappingState.network_domain, MappingState.count_type.
  destruct vpcs as [|vpc vpcs]; [reflexivity|].
  cbn [List.filter andb length Nat.leb]. rewrite has_type_head.
  destruct (String.eqb "network_domain" ty); reflexivity.
Qed.

Lemma tenant_grouping_members (subtenants : list value) (p : value) :
  In p (MappingState.tenant_grouping subtenants) ->
  MappingState.has_type "tenant_grouping" p = true /\
  MappingState.has_type "network_domain" p = false /\
  py_getitem p "subtenants" = ok (VList (List.map Scan.id_of subtenants)) /\
  MappingState.status p = Some (VStr "pending").
Proof.
  unfold MappingState.tenant_grouping.
  destruct (1 <? length subtenants)%nat; [|intros []].
  intros [<-|[]]. repeat split.
Qed.

Lemma network_domain_members (vpcs : list value) (p : value) :
  In p (MappingState.network_domain vpcs) ->
  MappingState.has_type "network_domain" p = true /\
  MappingState.has_type "tenant_grouping" p = false /\
  py_getitem p "vpcs" = ok (VList (List.map Scan.id_of vpcs)) /\
  MappingState.status p = Some (VStr "pending").
Proof.
  unfold MappingState.network_domain.
  destruct vpcs as [|vpc vpcs]; [intros []|].
  intros [<-|[]]. repeat split.
Qed.

(** C2.  On a state whose subtenants are records with an id and a scan
    whose VPCs are records with an id, [_generate_proposals] returns the
    proposals of the default policy: exactly one [tenant_grouping] proposal
    if and only if there is more than one subtenant, exactly one
    [network_domain] proposal if and only if the scan lists a VPC, never
    more than one of either, hence at most two proposals; the first lists
    the id of every subtenant, the second the id of every VPC, both with
    status [pending]. *)
Theorem C2_default_policy_proposals (state scan : value)
    (subtenants vpcs : list value) :
  py_getitem state "subtenants" = ok (VList subtenants) ->
  forallb Scan.has_id subtenants = true ->
  Scan.entries scan "vpcs" = Some vpcs ->
  forallb Scan.has_id vpcs = true ->
  exists proposals,
    Phase1Mapper._generate_proposals state scan = ok proposals /\
    proposals = (MappingState.tenant_grouping subtenants
                 ++ MappingState.network_domain vpcs)%list /\
    (MappingState.count_type "tenant_grouping" proposals = 1 <->
     1 < length subtenants)%nat /\
    (MappingState.count_type "tenant_grouping" proposals <= 1)%nat /\
    (MappingState.count_type "network_domain" proposals = 1 <->
     1 <= length vpcs)%nat /\
    (MappingState.count_type "network_domain" proposals <= 1)%nat /\
    (length proposals <= 2)%nat /\
    (forall p, In p proposals -> MappingState.has_type "tenant_grouping" p = true ->
       py_getitem p "subtenants" = ok (VList (List.map Scan.id_of subtenants)) /\
       MappingState.status p = Some (VStr "pending")) /\
    (forall p, In p proposals -> MappingState.has_type "network_domain" p = true ->
       py_getitem p "vpcs" = ok (VList (List.map Scan.id_of vpcs)) /\
       MappingState.status p = Some (VStr "pending")).
Proof.
  intros Hsub Hids Hvpcs Hvids.
  eexists. split; [exact (generate_proposals_spec _ _ _ _ Hsub Hids Hvpcs Hvids)|].
  split; [reflexivity|].
  rewrite !count_type_app, !count_tenant_grouping, !count_network_domain.
  rewrite length_app.
  assert (Hlen1 : (length (MappingState.tenant_grouping subtenants) <= 1)%nat).
  { unfold MappingState.tenant_grouping.
    destruct (1 <? length subtenants)%nat; simpl; lia. }
  assert (Hlen2 : (length (MappingState.network_domain vpcs) <= 1)%nat).
  { unfold MappingState.network_domain. destruct vpcs; simpl; lia. }
  change (String.eqb "tenant_grouping" "tenant_grouping") with true.
  change (String.eqb "network_domain" "network_domain") with true.
  change (String.eqb "tenant_grouping" "network_domain") with false.
  change (String.eqb "network_domain" "tenant_grouping") with false.
  rewrite !andb_true_r, !andb_false_r.
  destruct (Nat.ltb_spec 1 (length subtenants));
    destruct (Nat.leb_spec 1 (length vpcs));
    (split; [lia|]); (split; [lia|]); (split; [lia|]); (split; [lia|]);
    (split; [lia|]).
  all: split; intros p Hp Hty; apply in_app_or in Hp as [Hp|Hp].
  all: try (apply tenant_grouping_members in Hp as (H1 & H2 & H3 & H4);
            first [split; assumption | congruence]).
  all: apply network_domain_members in Hp as (H1 & H2 & H3 & H4);
       first [split; assumption | congruence].
Qed.

Lemma C2_witness :
  py_getitem Demo.state "subtenants" = ok (VList Demo.subtenants) /\
  forallb Scan.has_id Demo.subtenants = true /\
  Scan.entries Demo.scan "vpcs" = Some Demo.vpcs /\
  forallb Scan.has_id Demo.vpcs = true /\
  exists proposals,
    Phase1Mapper._generate_proposals Demo.state Demo.scan = ok proposals /\
    proposals = (MappingState.tenant_grouping Demo.subtenants
                 ++ MappingState.network_domain Demo.vpcs)%list /\
    (MappingState.count_type "tenant_grouping" proposals = 1 <->
     1 < length Demo.subtenants)%nat /\
    (MappingState.count_type "tenant_grouping" proposals <= 1)%nat /\
    (MappingState.count_type "network_domain" proposals = 1 <->
     1 <= length Demo.vpcs)%nat /\
    (MappingState.count_type "network_domain" proposals <= 1)%nat /\
    (length proposals <= 2)%nat /\
    (forall p, In p proposals -> MappingState.has_type "tenant_grouping" p = true ->
       py_getitem p "subtenants" = ok (VList (List.map Scan.id_of Demo.subtenants)) /\
       MappingState.status p = Some (VStr "pending")) /\
    (forall p, In p proposals -> MappingState.has_type "network_domain" p = true ->
       py_getitem p "vpcs" = ok (VList (List.map Scan.id_of Demo.vpcs)) /\
       MappingState.status p = Some (VStr "pending")).
Proof.
  assert (H1 : py_getitem Demo.state "subtenants" = ok (VList Demo.subtenants))
    by reflexivity.
  assert (H2 : forallb Scan.has_id Demo.subtenants = true) by reflexivity.
  assert (H3 : Scan.entries Demo.scan "vpcs" = Some Demo.vpcs) by reflexivity.
  assert (H4 : forallb Scan.has_id Demo.vpcs = true) by reflexivity.
  split; [exact H1|]. split; [exact H2|]. split; [exact H3|]. split; [exact H4|].
  exact (C2_default_policy_proposals Demo.state Demo.scan Demo.subtenants Demo.vpcs
           H1 H2 H3 H4).
Defined.

(** The scenario of the specification: two zones, two subtenants and two
    proposals, a [tenant_grouping] over [st-111] and [st-222] and a
    [network_domain] over [vpc-9]. *)
Example scenario_two_units_two_accounts_one_vpc :
  MappingState.proposals Demo.state =
  [VDict [("type", VStr "tenant_grouping");
          ("description", VStr "Group subtenants into logical tenants");
          ("subtenants", VList [VStr "st-111"; VStr "st-222"]);
          ("status", VStr "pending")];
   VDict [("type", VStr "network_domain");
          ("description", VStr "Create network domains from 1 VPCs");
          ("vpcs", VList [VStr "vpc-9"]);
          ("status", VStr "pending")]].
Proof. reflexivity. Qed.

(** ** Phase 2 *)

Lemma dict_lookup_set_eq (d : list (string * value)) (k : string) (v : value) :
  dict_lookup (dict_set d k v) k = Some v.
Proof.
  induction d as [|[k' v'] d IH]; simpl.
  - rewrite String.eqb_refl. reflexivity.
  - destruct (String.eqb k' k) eqn:Hk; simpl; rewrite Hk; [reflexivity|exact IH].
Qed.

Lemma dict_lookup_set_ne (d : list (string * value)) (k k' : string) (v : value) :
  k <> k' -> dict_lookup (dict_set d k v) k' = dict_lookup d k'.
Proof.
  intros Hne. induction d as [|[k0 v0] d IH]; simpl.
  - destruct (String.eqb_spec k k'); [contradiction|reflexivity].
  - destruct (String.eqb_spec k0 k) as [->|Hk0]; simpl.
    + destruct (String.eqb_spec k k'); [contradiction|reflexivity].
    + destruct (String.eqb k0 k'); [reflexivity|exact IH].
Qed.

Lemma status_set_status (status : string) (d : list (string * value)) :
  MappingState.status (MappingState.set_status status (VDict d)) = Some (VStr status).
Proof. simpl. apply dict_lookup_set_eq. Qed.

Lemma proposals_with_proposals (d : list (string * value)) (ps : list value) :
  MappingState.proposals (Phase2Server.with_proposals (VDict d) ps) = ps.
Proof. simpl. rewrite dict_lookup_set_eq. reflexivity. Qed.

(** The loop, when it does not raise, has decided the first proposal with
    the id. *)
Lemma mark_first_index (proposal_id status : string) (ps : list value)
    (r : option (list value)) :
  Phase2Server.mark_first proposal_id status ps = ok r ->
  r = option_map (fun i => alter (MappingState.set_status status) i ps)
        (MappingState.index_of proposal_id ps).
Proof.
  revert r. induction ps as [|p ps IH]; intros r Hr; simpl in Hr.
  - injection Hr as <-. reflexivity.
  - destruct p as [| | | | |d|]; try discriminate Hr.
    cbn [py_get bind ok] in Hr. cbn [MappingState.index_of MappingState.has_proposal_id].
    destruct (dict_lookup d "id") as [v|].
    + destruct (py_eq v (VStr proposal_id)).
      * injection Hr as <-. reflexivity.
      * bind_inv Hr. injection Hr as <-. rewrite (IH _ Ha).
        destruct (MappingState.index_of proposal_id ps); reflexivity.
    + change (py_eq VNone (VStr proposal_id)) with false in Hr. cbv iota in Hr.
      bind_inv Hr. injection Hr as <-. rewrite (IH _ Ha).
      destruct (MappingState.index_of proposal_id ps); reflexivity.
Qed.

Lemma mark_first_records (proposal_id status : string) (ps : list value) :
  forallb MappingState.is_record ps = true ->
  exists r, Phase2Server.mark_first proposal_id status ps = ok r.
Proof.
  induction ps as [|p ps IH]; simpl; intros Hps.
  - eexists. reflexivity.
  - apply andb_prop in Hps as [Hp Hps]. destruct (IH Hps) as [r Hr].
    destruct p as [| | | | |d|]; try discriminate Hp.
    cbn [py_get bind ok].
    destruct (py_eq _ _); cbn [py_setitem bind ok].
    + eexists. reflexivity.
    + rewrite Hr. eexists. reflexivity.
Qed.

Lemma mark_first_raises_on_text (proposal_id status : string) (x : value)
    (xs : list value) (r : option (list value)) :
  MappingState.is_record x = false ->
  Phase2Server.mark_first proposal_id status (x :: xs) = ok r -> False.
Proof.
  intros Hx Hr. destruct x; try discriminate Hr. discriminate Hx.
Qed.

(** The list the loop runs over is the list of proposals of the state. *)
Lemma loop_items (st : value) (items : list value) (proposal_id status : string)
    (r : option (list value)) :
  (let* proposals := py_get st "proposals" (VList []) in py_iter proposals) = ok items ->
  Phase2Server.mark_first proposal_id status items = ok r ->
  items = MappingState.proposals st /\ exists d, st = VDict d.
Proof.
  intros Hitems Hr. destruct st as [| | | | |d|]; try discriminate Hitems.
  split; [|eexists; reflexivity].
  cbn [py_get bind ok] in Hitems. unfold MappingState.proposals.
  destruct (dict_lookup d "proposals") as [[| | |s|l|e|]|];
    try discriminate Hitems; cbn [py_iter] in Hitems; injection Hitems as <-;
    try reflexivity.
  - destruct s as [|c s]; [reflexivity|].
    exfalso. cbn [chars] in Hr.
    exact (mark_first_raises_on_text _ _ (VStr _) _ _ eq_refl Hr).
  - destruct e as [|[k v] e]; [reflexivity|].
    exfalso. cbn [dict_keys List.map fst] in Hr.
    exact (mark_first_raises_on_text _ _ (VStr _) _ _ eq_refl Hr).
Qed.

Section Phase2Facts.
Context `{Serialization}.

Lemma decide_proposal_after_loop (status : string) (self : Phase2Server.t) (m : fs)
    (proposal_id : string) (items : list value) (r : option (list value)) :
  (let* proposals := py_get (Phase2Server.state self) "proposals" (VList []) in
   py_iter proposals) = ok items ->
  Phase2Server.mark_first proposal_id status items = ok r ->
  Phase2Server.handled status self m proposal_id.
Proof.
  intros Hitems Hr. unfold Phase2Server.handled, Phase2Server.decide_proposal.
  assert (Hloop :
    (let* proposals := py_get (Phase2Server.state self) "proposals" (VList []) in
     let* items := py_iter proposals in
     Phase2Server.mark_first proposal_id status items) = ok r).
  { destruct (py_get (Phase2Server.state self) "proposals" (VList [])) as [e'|v];
      simpl in Hitems |- *; [discriminate|]. rewrite Hitems. exact Hr. }
  rewrite Hloop.
  destruct (loop_items _ _ _ _ _ Hitems Hr) as [-> Hd].
  rewrite (mark_first_index _ _ _ _ Hr).
  destruct (MappingState.index_of proposal_id
              (MappingState.proposals (Phase2Server.state self))) as [i|];
    cbn [option_map]; unfold ok; cbv beta iota; [|reflexivity].
  split; [exact Hd|].
  unfold Phase2Server._save_state, Phase2Server.decided.
  cbn [Phase2Server.state_file Phase2Server.state].
  destruct (open_write m (Phase2Server.state_file self) _); reflexivity.
Qed.

(** On any state whatever, a handler raises before anything changed or
    does the above. *)
Lemma decide_proposal_cases (status : string) (self : Phase2Server.t) (m : fs)
    (proposal_id : string) :
  (exists e, Phase2Server.decide_proposal status self m proposal_id = (inl e, self, m)) \/
  Phase2Server.handled status self m proposal_id.
Proof.
  destruct (let* proposals := py_get (Phase2Server.state self) "proposals" (VList []) in
            py_iter proposals) as [e|items] eqn:Hitems.
  { left. exists e. unfold Phase2Server.decide_proposal.
    destruct (py_get (Phase2Server.state self) "proposals" (VList [])) as [e'|v];
      simpl in Hitems |- *.
    - injection Hitems as ->. reflexivity.
    - rewrite Hitems. reflexivity. }
  destruct (Phase2Server.mark_first proposal_id status items) as [e|r] eqn:Hr.
  { left. exists e. unfold Phase2Server.decide_proposal.
    destruct (py_get (Phase2Server.state self) "proposals" (VList [])) as [e'|v];
      simpl in Hitems |- *; [discriminate|].
    rewrite Hitems. cbn [bind ok]. rewrite Hr. reflexivity. }
  right. exact (decide_proposal_after_loop _ _ _ _ _ _ Hitems Hr).
Qed.

(** On a well-formed state the loop does not raise. *)
Lemma decide_proposal_well_formed (status : string) (self : Phase2Server.t) (m : fs)
    (proposal_id : string) :
  MappingState.well_formed (Phase2Server.state self) = true ->
  Phase2Server.handled status self m proposal_id.
Proof.
  unfold MappingState.well_formed. intros Hwf.
  destruct (Scan.entries (Phase2Server.state self) "proposals") as [l|] eqn:Hl;
    [|discriminate].
  destruct (mark_first_records proposal_id status l Hwf) as [r Hr].
  exact (decide_proposal_after_loop _ _ _ _ _ _ (entries_get_iter _ _ _ Hl) Hr).
Qed.

End Phase2Facts.

Lemma index_of_Some (proposal_id : string) (ps : list value) (i : nat) :
  MappingState.index_of proposal_id ps = Some i ->
  exists p, ps !! i = Some p /\
            MappingState.has_proposal_id proposal_id p = true /\
            forall j q, (j < i)%nat -> ps !! j = Some q ->
                        MappingState.has_proposal_id proposal_id q = false.
Proof.
  revert i. induction ps as [|p ps IH]; intros i Hi; simpl in Hi; [discriminate|].
  destruct (MappingState.has_proposal_id proposal_id p) eqn:Hp.
  - injection Hi as <-. exists p. split; [reflexivity|]. split; [exact Hp|].
    intros j q Hj. lia.
  - destruct (MappingState.index_of proposal_id ps) as [k|]; [|discriminate].
    injection Hi as <-. destruct (IH k eq_refl) as (p' & Hk & Hp' & Hbefore).
    exists p'. split; [exact Hk|]. split; [exact Hp'|].
    intros [|j] q Hj Hq; simpl in Hq.
    + injection Hq as <-. exact Hp.
    + apply (Hbefore j q); [lia|exact Hq].
Qed.



Lemma has_proposal_id_set_status (proposal_id status : string) (p : value) :
  MappingState.has_proposal_id proposal_id (MappingState.set_status status p) =
  MappingState.has_proposal_id proposal_id p.
Proof.
  destruct p as [| | | | |d|]; try reflexivity.
  cbn [MappingState.set_status MappingState.has_proposal_id].
  rewrite dict_lookup_set_ne by discriminate. reflexivity.
Qed.




(** The server [__init__] builds has its state file in place. *)
Lemma init_state_file `{Serialization} (m : fs) (file : path) (self : Phase2Server.t) :
  Phase2Server.__init__ m file = ok self ->
  Phase2Server.state_file self = file /\ is_file m file = true.
Proof.
  unfold Phase2Server.__init__. destruct (negb (exists_ m file)); [discriminate|].
  intros Hinit. bind_inv Hinit. bind_inv Hinit. injection Hinit as <-.
  split; [reflexivity|].
  unfold open_read in Ha. unfold is_file.
  destruct (under_file m file); [discriminate|].
  destruct (is_dir m file); [discriminate|].
  destruct (m !! file) as [[|c]|]; try discriminate. reflexivity.
Qed.

(** Accepting [p1] on the review state: the answer is ok and the file
    holds the new state. *)
Example accept_p1 :
  Phase2Server.accept_proposal Demo.server Demo.review_disk "p1" =
  (ok Phase2Server.response_ok,
   {| Phase2Server.state_file := Demo.review_path;
      Phase2Server.state := Demo.review "accepted" "pending" |},
   {[ Demo.review_path := File (Compact.encode (Demo.review "accepted" "pending")) ]}).
Proof. vm_compute. reflexivity. Qed.

Lemma has_proposal_id_record (proposal_id : string) (p : value) :
  MappingState.has_proposal_id proposal_id p = true -> exists d, p = VDict d.
Proof. destruct p; try discriminate. eexists. reflexivity. Qed.

Lemma proposals_decided (status : string) (self : Phase2Server.t) (k : nat)
    (d : list (string * value)) :
  Phase2Server.state self = VDict d ->
  MappingState.proposals (Phase2Server.state (Phase2Server.decided status self k)) =
  alter (MappingState.set_status status) k
    (MappingState.proposals (Phase2Server.state self)).
Proof.
  intros Hd. unfold Phase2Server.decided. cbn [Phase2Server.state].
  rewrite Hd. apply proposals_with_proposals.
Qed.

Section StatusTransitions.
Context `{Serialization}.

(** One request leaves the status of a proposal as it was or sets it to
    the status the request asks for. *)
Lemma handle_status_at (r : Phase2Server.request) (self : Phase2Server.t) (m : fs)
    (i : nat) :
  let self' := snd (fst (Phase2Server.handle r self m)) in
  MappingState.status_at (Phase2Server.state self') i =
    MappingState.status_at (Phase2Server.state self) i \/
  MappingState.status_at (Phase2Server.state self') i =
    Some (VStr (Phase2Server.verdict r)).
Proof.
  cbv zeta.
  assert (Hhandle : Phase2Server.handle r self m =
                    Phase2Server.decide_proposal (Phase2Server.verdict r) self m
                      (Phase2Server.request_id r))
    by (destruct r; reflexivity).
  rewrite Hhandle.
  destruct (decide_proposal_cases (Phase2Server.verdict r) self m
              (Phase2Server.request_id r)) as [[e ->]|Hdone]; [left; reflexivity|].
  unfold Phase2Server.handled in Hdone.
  destruct (MappingState.index_of (Phase2Server.request_id r)
              (MappingState.proposals (Phase2Server.state self))) as [k|] eqn:Hk.
  - cbv zeta in Hdone. destruct Hdone as [[d Hd] ->].
    destruct (index_of_Some _ _ _ Hk) as (p & Hp & Hid & _).
    destruct (has_proposal_id_record _ _ Hid) as [pd ->].
    assert (Hstate : MappingState.status_at
                       (Phase2Server.state
                          (Phase2Server.decided (Phase2Server.verdict r) self k)) i =
                     MappingState.status_at (Phase2Server.state self) i \/
                     MappingState.status_at
                       (Phase2Server.state
                          (Phase2Server.decided (Phase2Server.verdict r) self k)) i =
                     Some (VStr (Phase2Server.verdict r))).
    { unfold MappingState.status_at.
      rewrite (proposals_decided _ _ _ _ Hd).
      destruct (decide (k = i)) as [<-|Hne].
      - right. rewrite list_lookup_alter_eq, Hp. apply status_set_status.
      - left. rewrite list_lookup_alter_ne by exact Hne. reflexivity. }
    destruct (open_write m (Phase2Server.state_file self) _); exact Hstate.
  - rewrite Hdone. left. reflexivity.
Qed.

Lemma serve_cons (r : Phase2Server.request) (rs : list Phase2Server.request)
    (self : Phase2Server.t) (m : fs) :
  Phase2Server.serve (r :: rs) self m =
  Phase2Server.serve rs (snd (fst (Phase2Server.handle r self m)))
    (snd (Phase2Server.handle r self m)).
Proof.
  simpl. destruct (Phase2Server.handle r self m) as [[resp self'] m']. reflexivity.
Qed.

End StatusTransitions.

(** C4, as the code has it.  Under every sequence of accept and reject
    requests the status of a proposal is either the one it started with or
    [accepted] or [rejected]: a handler never sets another value and never
    sets a status back to [pending].  (A decided status is not final: the
    handlers assign without reading the current status.) *)
Theorem C4_status_only_set_to_a_decision `{Serialization}
    (rs : list Phase2Server.request) (self : Phase2Server.t) (m : fs) (i : nat) :
  let self' := fst (Phase2Server.serve rs self m) in
  MappingState.status_at (Phase2Server.state self') i =
    MappingState.status_at (Phase2Server.state self) i \/
  MappingState.status_at (Phase2Server.state self') i = Some (VStr "accepted") \/
  MappingState.status_at (Phase2Server.state self') i = Some (VStr "rejected").
Proof.
  cbv zeta. revert self m. induction rs as [|r rs IH]; intros self m.
  - left. reflexivity.
  - rewrite serve_cons.
    destruct (IH (snd (fst (Phase2Server.handle r self m)))
                 (snd (Phase2Server.handle r self m))) as [Hsame|Hset].
    + rewrite Hsame.
      destruct (handle_status_at r self m i) as [Hkept|Hnew].
      * left. exact Hkept.
      * right. cbv zeta in Hnew. rewrite Hnew. destruct r; [left|right]; reflexivity.
    + right. exact Hset.
Qed.

(** C4 as stated fails: the first proposal of the review state is accepted
    by one request and rejected by the next one. *)
Lemma C4_accepted_then_rejected :
  MappingState.status_at
    (Phase2Server.state
       (fst (Phase2Server.serve [Phase2Server.Accept "p1"]
               Demo.server Demo.review_disk))) 0 = Some (VStr "accepted") /\
  MappingState.status_at
    (Phase2Server.state
       (fst (Phase2Server.serve [Phase2Server.Accept "p1"; Phase2Server.Reject "p1"]
               Demo.server Demo.review_disk))) 0 = Some (VStr "rejected").
Proof. split; vm_compute; reflexivity. Qed.

(** ** Phase 1 proposals under review *)

Lemma generate_proposals_lack_ids (state scan : value) (ps : list value) :
  Phase1Mapper._generate_proposals state scan = ok ps ->
  forallb MappingState.lacks_id ps = true.
Proof.
  unfold Phase1Mapper._generate_proposals. intros Hps.
  apply bind_ok in Hps as (subtenants & _ & Hps).
  apply bind_ok in Hps as (n & _ & Hps).
  apply bind_ok in Hps as (first & Hfirst & Hps).
  assert (Hf : forallb MappingState.lacks_id first = true).
  { destruct (1 <? n).
    - apply bind_ok in Hfirst as (items & _ & Hfirst).
      apply bind_ok in Hfirst as (ids & _ & Hfirst).
      injection Hfirst as <-. reflexivity.
    - injection Hfirst as <-. reflexivity. }
  apply bind_ok in Hps as (vpcs & _ & Hps).
  destruct (truthy vpcs).
  - apply bind_ok in Hps as (k & _ & Hps).
    apply bind_ok in Hps as (items & _ & Hps).
    apply bind_ok in Hps as (ids & _ & Hps).
    injection Hps as <-. rewrite forallb_app, Hf. reflexivity.
  - injection Hps as <-. exact Hf.
Qed.

Lemma map_basic_state (self self' : Phase1Mapper.t) (scan decisions st : value) :
  Phase1Mapper._map_basic self scan decisions = ok (st, self') ->
  self' = Phase1Mapper.set_state self st /\
  exists zones subtenants ps,
    st = MappingState.assembled zones subtenants ps /\
    forallb MappingState.lacks_id ps = true.
Proof.
  unfold Phase1Mapper._map_basic. intros Hst.
  apply bind_ok in Hst as (ous & _ & Hst).
  apply bind_ok in Hst as (ou_items & _ & Hst).
  apply bind_ok in Hst as (zones & _ & Hst).
  apply bind_ok in Hst as (accounts & _ & Hst).
  apply bind_ok in Hst as (account_items & _ & Hst).
  apply bind_ok in Hst as (subtenants & _ & Hst).
  apply bind_ok in Hst as (ps & Hps & Hst).
  injection Hst as <- <-. split; [reflexivity|].
  exists zones, subtenants, ps. split; [reflexivity|].
  exact (generate_proposals_lack_ids _ _ _ Hps).
Qed.

Lemma lacks_id_record (p : value) :
  MappingState.lacks_id p = true -> MappingState.is_record p = true.
Proof. destruct p; try discriminate. reflexivity. Qed.

Lemma lacks_id_no_match (proposal_id : string) (ps : list value) :
  forallb MappingState.lacks_id ps = true ->
  MappingState.index_of proposal_id ps = None.
Proof.
  induction ps as [|p ps IH]; simpl; [reflexivity|]. intros Hps.
  apply andb_prop in Hps as [Hp Hps]. rewrite (IH Hps).
  destruct p as [| | | | |d|]; try discriminate Hp. simpl in Hp |- *.
  destruct (dict_lookup d "id"); [discriminate|reflexivity].
Qed.

Lemma forallb_impl {A} (p q : A -> bool) (xs : list A) :
  (forall x, p x = true -> q x = true) ->
  forallb p xs = true -> forallb q xs = true.
Proof.
  intros Hpq. induction xs as [|x xs IH]; simpl; [reflexivity|]. intros Hxs.
  apply andb_prop in Hxs as [Hx Hxs]. rewrite (Hpq x Hx), (IH Hxs). reflexivity.
Qed.

(** A server whose proposals carry no id answers every request with
    not-found and changes nothing. *)
Lemma handle_without_ids `{Serialization} (r : Phase2Server.request)
    (self : Phase2Server.t) (m : fs) :
  MappingState.well_formed (Phase2Server.state self) = true ->
  forallb MappingState.lacks_id (MappingState.proposals (Phase2Server.state self)) = true ->
  Phase2Server.handle r self m = (ok Phase2Server.response_not_found, self, m).
Proof.
  intros Hwf Hids.
  pose proof (decide_proposal_well_formed (Phase2Server.verdict r) self m
                (Phase2Server.request_id r) Hwf) as Hdone.
  unfold Phase2Server.handled in Hdone.
  rewrite (lacks_id_no_match _ _ Hids) in Hdone.
  destruct r; exact Hdone.
Qed.

(** *** Documents equal to a Phase 1 state *)

Lemma all2_Forall2 {A} (f : A -> A -> bool) (xs ys : list A) :
  all2 f xs ys = true -> Forall2 (fun x y => f x y = true) xs ys.
Proof.
  revert ys. induction xs as [|x xs IH]; intros [|y ys] Hall; simpl in Hall;
    try discriminate; constructor.
  - apply andb_prop in Hall as [Hxy _]. exact Hxy.
  - apply andb_prop in Hall as [_ Hall]. apply IH. exact Hall.
Qed.

Lemma py_eq_list_inv (l : list value) (v : value) :
  py_eq (VList l) v = true ->
  exists l', v = VList l' /\ Forall2 (fun x y => py_eq x y = true) l l'.
Proof.
  destruct v as [| | | |l'| |]; try discriminate. cbn [py_eq]. intros Hall.
  exists l'. split; [reflexivity|]. apply all2_Forall2. exact Hall.
Qed.

Lemma py_eq_dict_inv (d : list (string * value)) (v : value) :
  py_eq (VDict d) v = true ->
  exists e, v = VDict e /\ length d = length e /\
            forall k x, In (k, x) d ->
              exists y, dict_lookup e k = Some y /\ py_eq x y = true.
Proof.
  destruct v as [| | | | |e|]; try discriminate. cbn [py_eq]. intros Heq.
  apply andb_prop in Heq as [Hlen Hall]. apply Nat.eqb_eq in Hlen.
  exists e. split; [reflexivity|]. split; [exact Hlen|].
  intros k x Hin. rewrite forallb_forall in Hall. specialize (Hall (k, x) Hin).
  cbn [fst snd] in Hall. destruct (dict_lookup e k) as [y|]; [|discriminate].
  exists y. split; [reflexivity|exact Hall].
Qed.

Lemma dict_lookup_keys (e : list (string * value)) (k : string) (y : value) :
  dict_lookup e k = Some y -> k ∈ dict_keys e.
Proof.
  induction e as [|[k' v] e IH]; simpl; [discriminate|].
  destruct (String.eqb_spec k' k) as [->|Hne]; intros Hy.
  - apply list_elem_of_here.
  - apply list_elem_of_further. apply IH. exact Hy.
Qed.

(** A document equal to a record with distinct keys has the keys of that
    record and no other. *)
Lemma py_eq_same_keys (d e : list (string * value)) (k : string) (y : value) :
  NoDup (dict_keys d) ->
  py_eq (VDict d) (VDict e) = true ->
  dict_lookup e k = Some y -> k ∈ dict_keys d.
Proof.
  intros Hnodup Heq Hk.
  destruct (py_eq_dict_inv _ _ Heq) as (e' & [= <-] & Hlen & Hall).
  assert (Hsub : dict_keys d ⊆+ dict_keys e).
  { apply NoDup_submseteq; [exact Hnodup|]. intros k' Hk'.
    unfold dict_keys in Hk'. apply list_elem_of_In, in_map_iff in Hk'.
    destruct Hk' as ([k'' x] & <- & Hin).
    destruct (Hall _ _ Hin) as (y' & Hy' & _). exact (dict_lookup_keys _ _ _ Hy'). }
  assert (Hperm : dict_keys d ≡ₚ dict_keys e).
  { apply submseteq_length_Permutation; [exact Hsub|].
    unfold dict_keys. rewrite !length_map. lia. }
  rewrite Hperm. exact (dict_lookup_keys _ _ _ Hk).
Qed.

Lemma py_eq_lacks_id (d : list (string * value)) (p' : value) :
  NoDup (dict_keys d) -> "id" ∉ dict_keys d ->
  py_eq (VDict d) p' = true -> MappingState.lacks_id p' = true.
Proof.
  intros Hnodup Hid Heq.
  destruct (py_eq_dict_inv _ _ Heq) as (e & -> & _ & _). simpl.
  destruct (dict_lookup e "id") as [y|] eqn:Hy; [|reflexivity].
  exfalso. apply Hid. exact (py_eq_same_keys _ _ _ _ Hnodup Heq Hy).
Qed.

(** The keys of a proposal of the default policy. *)
Lemma generate_proposals_keys (state scan : value) (ps : list value) :
  Phase1Mapper._generate_proposals state scan = ok ps ->
  Forall (fun p => exists d, p = VDict d /\
                   (dict_keys d = ["type"; "description"; "subtenants"; "status"] \/
                    dict_keys d = ["type"; "description"; "vpcs"; "status"])) ps.
Proof.
  unfold Phase1Mapper._generate_proposals. intros Hps.
  apply bind_ok in Hps as (subtenants & _ & Hps).
  apply bind_ok in Hps as (n & _ & Hps).
  apply bind_ok in Hps as (first & Hfirst & Hps).
  assert (Hf : Forall (fun p => exists d, p = VDict d /\
                   (dict_keys d = ["type"; "description"; "subtenants"; "status"] \/
                    dict_keys d = ["type"; "description"; "vpcs"; "status"])) first).
  { destruct (1 <? n).
    - apply bind_ok in Hfirst as (items & _ & Hfirst).
      apply bind_ok in Hfirst as (ids & _ & Hfirst).
      injection Hfirst as <-. repeat constructor. eexists. split; [reflexivity|].
      left. reflexivity.
    - injection Hfirst as <-. constructor. }
  apply bind_ok in Hps as (vpcs & _ & Hps).
  destruct (truthy vpcs).
  - apply bind_ok in Hps as (k & _ & Hps).
    apply bind_ok in Hps as (items & _ & Hps).
    apply bind_ok in Hps as (ids & _ & Hps).
    injection Hps as <-. apply Forall_app. split; [exact Hf|].
    repeat constructor. eexists. split; [reflexivity|]. right. reflexivity.
  - injection Hps as <-. exact Hf.
Qed.

Lemma default_keys_lack_id (d : list (string * value)) (p' : value) :
  dict_keys d = ["type"; "description"; "subtenants"; "status"] \/
  dict_keys d = ["type"; "description"; "vpcs"; "status"] ->
  py_eq (VDict d) p' = true -> MappingState.lacks_id p' = true.
Proof.
  intros Hkeys. apply py_eq_lacks_id.
  - destruct Hkeys as [-> | ->]; compute_done.
  - destruct Hkeys as [-> | ->]; compute_done.
Qed.

Lemma map_basic_proposals (self self' : Phase1Mapper.t) (scan decisions st : value) :
  Phase1Mapper._map_basic self scan decisions = ok (st, self') ->
  exists zones subtenants ps,
    st = MappingState.assembled zones subtenants ps /\
    exists state, Phase1Mapper._generate_proposals state scan = ok ps.
Proof.
  unfold Phase1Mapper._map_basic. intros Hst.
  apply bind_ok in Hst as (ous & _ & Hst).
  apply bind_ok in Hst as (ou_items & _ & Hst).
  apply bind_ok in Hst as (zones & _ & Hst).
  apply bind_ok in Hst as (accounts & _ & Hst).
  apply bind_ok in Hst as (account_items & _ & Hst).
  apply bind_ok in Hst as (subtenants & _ & Hst).
  apply bind_ok in Hst as (ps & Hps & Hst).
  injection Hst as <- <-.
  exists zones, subtenants, ps. split; [reflexivity|]. eexists. exact Hps.
Qed.

(** A document equal to a state of [_map_basic] is a well-formed mapping
    state whose proposals have no ["id"] either. *)
Lemma equal_state_without_ids (self self' : Phase1Mapper.t)
    (scan decisions st st' : value) :
  Phase1Mapper._map_basic self scan decisions = ok (st, self') ->
  py_eq st st' = true ->
  MappingState.well_formed st' = true /\
  forallb MappingState.lacks_id (MappingState.proposals st') = true.
Proof.
  intros Hst Heq.
  destruct (map_basic_proposals _ _ _ _ _ Hst)
    as (zones & subtenants & ps & -> & state & Hps).
  apply generate_proposals_keys in Hps.
  destruct (py_eq_dict_inv _ _ Heq) as (e & -> & _ & Hall).
  destruct (Hall "proposals" (VList ps)) as (y & Hy & Hlist).
  { simpl. tauto. }
  destruct (py_eq_list_inv _ _ Hlist) as (ps' & -> & Hps').
  assert (Hids : forallb MappingState.lacks_id ps' = true).
  { clear Hy Hlist Hall Heq Hst.
    induction Hps' as [|p p' ps ps' Hp _ IH]; [reflexivity|].
    apply Forall_cons in Hps as [(d & -> & Hkeys) Hps]. simpl.
    rewrite (default_keys_lack_id d p' Hkeys Hp). exact (IH Hps). }
  unfold MappingState.well_formed, MappingState.proposals, Scan.entries. rewrite Hy.
  split; [|exact Hids]. exact (forallb_impl _ _ _ lacks_id_record Hids).
Qed.

(** C10.  The proposals [_generate_proposals] puts into the state that
    [_map_basic] returns have no ["id"] key.  A review server that holds
    such a state, or a document equal to it in the sense of Python's [==]
    (what reloading the saved state file gives), therefore answers every
    accept and every reject request, for any proposal id, with not-found,
    and after any sequence of requests the server state (every proposal
    status included) and the file system are what they were. *)
Theorem C10_default_proposals_cannot_be_decided `{Serialization}
    (mapper mapper' : Phase1Mapper.t) (scan decisions st st' : value)
    (file : path) (m : fs) (rs : list Phase2Server.request) :
  Phase1Mapper._map_basic mapper scan decisions = ok (st, mapper') ->
  st' = st \/ py_eq st st' = true ->
  let server := {| Phase2Server.state_file := file; Phase2Server.state := st' |} in
  forallb MappingState.lacks_id (MappingState.proposals st) = true /\
  forallb MappingState.lacks_id (MappingState.proposals st') = true /\
  (forall r, Phase2Server.handle r server m =
             (ok Phase2Server.response_not_found, server, m)) /\
  Phase2Server.serve rs server m = (server, m).
Proof.
  intros Hst Hst' server.
  assert (Hown : MappingState.well_formed st = true /\
                 forallb MappingState.lacks_id (MappingState.proposals st) = true).
  { destruct (map_basic_state _ _ _ _ _ Hst)
      as (_ & zones & subtenants & ps & -> & Hids).
    split; [|exact Hids]. unfold MappingState.well_formed. simpl.
    exact (forallb_impl _ _ _ lacks_id_record Hids). }
  assert (Hheld : MappingState.well_formed st' = true /\
                  forallb MappingState.lacks_id (MappingState.proposals st') = true).
  { destruct Hst' as [->|Heq]; [exact Hown|].
    exact (equal_state_without_ids _ _ _ _ _ _ Hst Heq). }
  destruct Hheld as [Hwf Hids].
  assert (Hhandle : forall r, Phase2Server.handle r server m =
                              (ok Phase2Server.response_not_found, server, m)).
  { intros r. apply handle_without_ids; [exact Hwf|exact Hids]. }
  split; [exact (proj2 Hown)|]. split; [exact Hids|]. split; [exact Hhandle|].
  induction rs as [|r rs IH]; [reflexivity|].
  simpl. rewrite (Hhandle r). exact IH.
Qed.

(** The state with its keys in sorted order, as a YAML dump lists them. *)
Example reloaded_state_is_equal :
  py_eq Demo.state Demo.state_sorted = true.
Proof. reflexivity. Qed.

Lemma C10_witness :
  Phase1Mapper._map_basic Demo.mapper Demo.scan (VDict []) =
    ok (Demo.state, Phase1Mapper.set_state Demo.mapper Demo.state) /\
  (Demo.state_sorted = Demo.state \/ py_eq Demo.state Demo.state_sorted = true) /\
  let server := {| Phase2Server.state_file := Demo.state_path;
                   Phase2Server.state := Demo.state_sorted |} in
  forallb MappingState.lacks_id (MappingState.proposals Demo.state) = true /\
  forallb MappingState.lacks_id (MappingState.proposals Demo.state_sorted) = true /\
  (forall r, Phase2Server.handle r server Demo.disk =
             (ok Phase2Server.response_not_found, server, Demo.disk)) /\
  Phase2Server.serve [Phase2Server.Accept "st-111"; Phase2Server.Reject "0"]
    server Demo.disk = (server, Demo.disk).
Proof.
  assert (H1 : Phase1Mapper._map_basic Demo.mapper Demo.scan (VDict []) =
               ok (Demo.state, Phase1Mapper.set_state Demo.mapper Demo.state))
    by reflexivity.
  assert (H2 : Demo.state_sorted = Demo.state \/
               py_eq Demo.state Demo.state_sorted = true)
    by (right; reflexivity).
  split; [exact H1|]. split; [exact H2|].
  exact (C10_default_proposals_cannot_be_decided
           Demo.mapper (Phase1Mapper.set_state Demo.mapper Demo.state)
           Demo.scan (VDict []) Demo.state Demo.state_sorted Demo.state_path Demo.disk
           [Phase2Server.Accept "st-111"; Phase2Server.Reject "0"] H1 H2).
Defined.

(** ** The analyst *)

Lemma execute_cypher_trace (db : AnalystQuery.neo4j) (self : AnalystQuery.t)
    (cypher : string) (ev : AnalystQuery.event) :
  In ev (AnalystQuery.trace (AnalystQuery._execute_cypher db self cypher)) ->
  ev = AnalystQuery.Call_execute_cypher cypher \/
  ev = AnalystQuery.Call_session_run cypher.
Proof.
  unfold AnalystQuery._execute_cypher.
  destruct (AnalystQuery._get_driver db self) as [[e|d] self']; simpl; intuition auto.
Qed.

Lemma execute_cypher_head (db : AnalystQuery.neo4j) (self : AnalystQuery.t)
    (cypher : string) :
  head (AnalystQuery.trace (AnalystQuery._execute_cypher db self cypher)) =
  Some (AnalystQuery.Call_execute_cypher cypher).
Proof.
  unfold AnalystQuery._execute_cypher.
  destruct (AnalystQuery._get_driver db self) as [[e|d] self']; reflexivity.
Qed.

(** C5.  [_is_cypher] holds exactly when the trimmed, upper-cased text
    starts with one of the seven keywords.  When it holds, [execute] is the
    call of [_execute_cypher] on the text as given: the trace starts with
    that call, holds nothing but it and the session it opens, and in
    particular no call of [_translate_basic], [_translate_with_llm] or
    [_execute_natural_language].  When it does not hold, [execute] is the
    call of [_execute_natural_language] on the text. *)
Theorem C5_cypher_text_is_executed_directly (db : AnalystQuery.neo4j)
    (self : AnalystQuery.t) (question : string) :
  (AnalystQuery._is_cypher question = true <->
   exists kw, In kw ["MATCH"; "RETURN"; "CREATE"; "MERGE"; "DELETE"; "CALL"; "WITH"] /\
              Str.startswith kw (Str.upper (Str.strip question)) = true) /\
  (AnalystQuery._is_cypher question = true ->
   AnalystQuery.execute db self question =
     AnalystQuery._execute_cypher db self question /\
   head (AnalystQuery.trace (AnalystQuery.execute db self question)) =
     Some (AnalystQuery.Call_execute_cypher question) /\
   (forall ev, In ev (AnalystQuery.trace (AnalystQuery.execute db self question)) ->
      ev = AnalystQuery.Call_execute_cypher question \/
      ev = AnalystQuery.Call_session_run question) /\
   (forall q, ~ In (AnalystQuery.Call_translate_basic q)
                (AnalystQuery.trace (AnalystQuery.execute db self question)))) /\
  (AnalystQuery._is_cypher question = false ->
   AnalystQuery.execute db self question =
     AnalystQuery.prepend [AnalystQuery.Call_execute_natural_language question]
       (AnalystQuery._execute_natural_language db self question) /\
   head (AnalystQuery.trace (AnalystQuery.execute db self question)) =
     Some (AnalystQuery.Call_execute_natural_language question)).
Proof.
  split; [|split].
  - unfold AnalystQuery._is_cypher, Str.startswith_any.
    rewrite existsb_exists. reflexivity.
  - intros Hc. unfold AnalystQuery.execute. rewrite Hc.
    split; [reflexivity|]. split; [apply execute_cypher_head|].
    split; [apply execute_cypher_trace|].
    intros q Hin. apply execute_cypher_trace in Hin as [Hin|Hin]; discriminate Hin.
  - intros Hc. unfold AnalystQuery.execute. rewrite Hc. split; reflexivity.
Qed.

Lemma C5_witness :
  AnalystQuery._is_cypher "  match (n) return n" = true /\
  AnalystQuery._is_cypher "Show all accounts" = false /\
  AnalystQuery.trace
    (AnalystQuery.execute Demo.db_up Demo.analyst "  match (n) return n") =
    [AnalystQuery.Call_execute_cypher "  match (n) return n";
     AnalystQuery.Call_session_run "  match (n) return n"] /\
  (forall q, ~ In (AnalystQuery.Call_translate_basic q)
               (AnalystQuery.trace
                  (AnalystQuery.execute Demo.db_up Demo.analyst "  match (n) return n"))) /\
  head (AnalystQuery.trace
          (AnalystQuery.execute Demo.db_up Demo.analyst "Show all accounts")) =
    Some (AnalystQuery.Call_execute_natural_language "Show all accounts").
Proof.
  split; [reflexivity|]. split; [reflexivity|]. split; [reflexivity|].
  destruct (C5_cypher_text_is_executed_directly Demo.db_up Demo.analyst
              "  match (n) return n") as (_ & Hdirect & _).
  destruct (C5_cypher_text_is_executed_directly Demo.db_up Demo.analyst
              "Show all accounts") as (_ & _ & Hnl).
  split.
  - exact (proj2 (proj2 (proj2 (Hdirect eq_refl)))).
  - exact (proj2 (Hnl eq_refl)).
Defined.

(** The dictionaries [_execute_cypher] returns. *)
Lemma execute_cypher_returned (db : AnalystQuery.neo4j) (self self' : AnalystQuery.t)
    (cypher : string) (d : AnalystQuery.driver) :
  AnalystQuery._get_driver db self = (ok d, self') ->
  AnalystQuery.returned (AnalystQuery._execute_cypher db self cypher) =
  ok match AnalystQuery.session_run db d cypher with
     | inr records =>
         VDict [("cypher", VStr cypher);
                ("data", VList records);
                ("explanation",
                 VStr ("Executed Cypher query, returned "
                       +:+ Str.of_Z (Z.of_nat (length records))
                       +:+ " results."))]
     | inl e =>
         VDict [("cypher", VStr cypher);
                ("data", VList []);
                ("error", VStr (str_exn e))]
     end.
Proof.
  intros Hd. unfold AnalystQuery._execute_cypher. rewrite Hd. unfold ok.
  cbn [AnalystQuery.returned]. destruct (AnalystQuery.session_run db d cypher); reflexivity.
Qed.

Lemma execute_cypher_raises (db : AnalystQuery.neo4j) (self self' : AnalystQuery.t)
    (cypher : string) (e : exn) :
  AnalystQuery._get_driver db self = (inl e, self') ->
  AnalystQuery.returned (AnalystQuery._execute_cypher db self cypher) = inl e.
Proof.
  intros Hd. unfold AnalystQuery._execute_cypher. rewrite Hd. reflexivity.
Qed.

Lemma execute_cypher_shaped (db : AnalystQuery.neo4j) (self : AnalystQuery.t)
    (cypher : string) (r : value) :
  AnalystQuery.returned (AnalystQuery._execute_cypher db self cypher) = ok r ->
  AnalystQuery.shaped r /\ exists entries, r = VDict entries /\
                              dict_lookup entries "original_question" = None.
Proof.
  destruct (AnalystQuery._get_driver db self) as [[e|d] self'] eqn:Hd.
  - rewrite (execute_cypher_raises _ _ _ _ _ Hd). discriminate.
  - rewrite (execute_cypher_returned _ _ _ _ _ Hd). intros [= <-].
    destruct (AnalystQuery.session_run db d cypher) as [e|records].
    + split; [|eexists; split; reflexivity].
      split; [eexists; split; [reflexivity|right; eexists; reflexivity]|].
      split; [eexists; reflexivity|]. right. eexists. reflexivity.
    + split; [|eexists; split; reflexivity].
      split; [eexists; split; [reflexivity|right; eexists; reflexivity]|].
      split; [eexists; reflexivity|]. left. eexists. reflexivity.
Qed.

Lemma getitem_set_other (entries : list (string * value)) (k k' : string) (v : value) :
  k <> k' ->
  py_getitem (VDict (dict_set entries k v)) k' = py_getitem (VDict entries) k'.
Proof.
  intros Hne. simpl. rewrite (dict_lookup_set_ne _ _ _ _ Hne). reflexivity.
Qed.

Lemma with_question_shaped (question : string) (o : AnalystQuery.outcome) (r : value) :
  (forall r0, AnalystQuery.returned o = ok r0 ->
              AnalystQuery.shaped r0 /\ exists entries, r0 = VDict entries) ->
  AnalystQuery.returned (AnalystQuery.with_question question o) = ok r ->
  AnalystQuery.shaped r.
Proof.
  intros Ho Hr. unfold AnalystQuery.with_question in Hr. cbn [AnalystQuery.returned] in Hr.
  apply bind_ok in Hr as (r0 & Hr0 & Hr).
  destruct (Ho r0 Hr0) as [(Hc & Hdata & Htext) [entries ->]].
  cbn [py_setitem] in Hr. injection Hr as <-.
  unfold AnalystQuery.shaped. rewrite !getitem_set_other by discriminate.
  split; [exact Hc|]. split; [exact Hdata|exact Htext].
Qed.

Lemma natural_language_returned (db : AnalystQuery.neo4j) (self : AnalystQuery.t)
    (question : string) :
  AnalystQuery.returned (AnalystQuery._execute_natural_language db self question) =
  AnalystQuery.returned (AnalystQuery.fallback db self question).
Proof.
  unfold AnalystQuery._execute_natural_language.
  destruct (AnalystQuery.llm_enabled self); reflexivity.
Qed.

Lemma execute_returned (db : AnalystQuery.neo4j) (self : AnalystQuery.t)
    (question : string) :
  AnalystQuery.returned (AnalystQuery.execute db self question) =
  if AnalystQuery._is_cypher question
  then AnalystQuery.returned (AnalystQuery._execute_cypher db self question)
  else match AnalystQuery.nonempty (AnalystQuery._translate_basic question) with
       | Some cypher =>
           AnalystQuery.returned
             (AnalystQuery.with_question question
                (AnalystQuery._execute_cypher db self cypher))
       | None =>
           ok (VDict [("cypher", VNone);
                      ("data", VList []);
                      ("error",
                       VStr ("Could not translate question to Cypher. "
                             +:+ "LLM integration required for natural language queries."));
                      ("original_question", VStr question)])
       end.
Proof.
  unfold AnalystQuery.execute. destruct (AnalystQuery._is_cypher question); [reflexivity|].
  cbn [AnalystQuery.prepend AnalystQuery.returned].
  rewrite natural_language_returned. unfold AnalystQuery.fallback.
  cbn [AnalystQuery.prepend AnalystQuery.returned].
  destruct (AnalystQuery.nonempty (AnalystQuery._translate_basic question)); reflexivity.
Qed.

(** C6 as stated fails: with a driver that cannot be created, [execute]
    lets the exception of [_get_driver] through to its caller. *)
Lemma C6_driver_creation_error_propagates :
  AnalystQuery.returned (AnalystQuery.execute Demo.db_unreachable Demo.analyst "RETURN 1") =
  inl (Exception DriverError "URI scheme is not supported").
Proof. reflexivity. Qed.

(** C6, as the code has it.  Once the driver is there (it was created
    before, or creating it succeeds), query execution returns for every
    query text and every behaviour of the session: [_execute_cypher]
    returns a dictionary, which for a session that raises [e] holds the
    query, an empty data list and the message of [e]; and [execute]
    returns a dictionary as well. *)
Theorem C6_session_errors_are_returned (db : AnalystQuery.neo4j)
    (self self' : AnalystQuery.t) (d : AnalystQuery.driver) (query : string) :
  AnalystQuery._get_driver db self = (ok d, self') ->
  (exists r, AnalystQuery.returned (AnalystQuery._execute_cypher db self query) = ok r) /\
  (forall e, AnalystQuery.session_run db d query = inl e ->
     AnalystQuery.returned (AnalystQuery._execute_cypher db self query) =
     ok (VDict [("cypher", VStr query);
                ("data", VList []);
                ("error", VStr (str_exn e))])) /\
  (exists r, AnalystQuery.returned (AnalystQuery.execute db self query) = ok r).
Proof.
  intros Hd. split; [|split].
  - rewrite (execute_cypher_returned _ _ _ _ _ Hd). eexists. reflexivity.
  - intros e He. rewrite (execute_cypher_returned _ _ _ _ _ Hd), He. reflexivity.
  - rewrite execute_returned. destruct (AnalystQuery._is_cypher query).
    + rewrite (execute_cypher_returned _ _ _ _ _ Hd). eexists. reflexivity.
    + destruct (AnalystQuery.nonempty (AnalystQuery._translate_basic query)) as [c|].
      * unfold AnalystQuery.with_question. cbn [AnalystQuery.returned].
        rewrite (execute_cypher_returned _ _ _ _ _ Hd). cbn [bind ok].
        destruct (AnalystQuery.session_run db d c); eexists; reflexivity.
      * eexists. reflexivity.
Qed.

Lemma C6_witness :
  AnalystQuery._get_driver Demo.db_failing Demo.analyst =
    (ok (AnalystQuery.Driver "bolt://localhost:7687" "neo4j" (Some "secret")),
     AnalystQuery.set_driver Demo.analyst
       (Some (AnalystQuery.Driver "bolt://localhost:7687" "neo4j" (Some "secret")))) /\
  (exists r, AnalystQuery.returned
               (AnalystQuery._execute_cypher Demo.db_failing Demo.analyst "RETURN 1") = ok r) /\
  (forall e, AnalystQuery.session_run Demo.db_failing
               (AnalystQuery.Driver "bolt://localhost:7687" "neo4j" (Some "secret"))
               "RETURN 1" = inl e ->
     AnalystQuery.returned
       (AnalystQuery._execute_cypher Demo.db_failing Demo.analyst "RETURN 1") =
     ok (VDict [("cypher", VStr "RETURN 1");
                ("data", VList []);
                ("error", VStr (str_exn e))])) /\
  (exists r, AnalystQuery.returned
               (AnalystQuery.execute Demo.db_failing Demo.analyst "RETURN 1") = ok r).
Proof.
  assert (H1 : AnalystQuery._get_driver Demo.db_failing Demo.analyst =
    (ok (AnalystQuery.Driver "bolt://localhost:7687" "neo4j" (Some "secret")),
     AnalystQuery.set_driver Demo.analyst
       (Some (AnalystQuery.Driver "bolt://localhost:7687" "neo4j" (Some "secret")))))
    by reflexivity.
  split; [exact H1|].
  exact (C6_session_errors_are_returned Demo.db_failing Demo.analyst _ _ "RETURN 1" H1).
Defined.

(** The error of the session is what the caller reads: the scenario of
    the test suite. *)
Example query_failed_is_reported :
  AnalystQuery.returned (AnalystQuery.execute Demo.db_failing Demo.analyst "RETURN 1") =
  ok (VDict [("cypher", VStr "RETURN 1"); ("data", VList []);
             ("error", VStr "Query failed")]).
Proof. reflexivity. Qed.

Lemma first_match_In (q : string) (table : list (list string * string)) (c : string) :
  AnalystQuery.first_match q table = Some c -> In c (List.map snd table).
Proof.
  induction table as [|[kws cy] table IH]; simpl; [discriminate|].
  destruct (existsb _ kws).
  - intros [= <-]. left. reflexivity.
  - intros Hc. right. exact (IH Hc).
Qed.

Lemma nonempty_Some (o : option string) (c : string) :
  AnalystQuery.nonempty o = Some c -> o = Some c.
Proof.
  destruct o as [s|]; [|discriminate]. simpl.
  destruct (String.eqb s ""); [discriminate|]. intros [= <-]. reflexivity.
Qed.

Lemma execute_cypher_session_run (db : AnalystQuery.neo4j) (self : AnalystQuery.t)
    (cypher c : string) :
  In (AnalystQuery.Call_session_run c)
     (AnalystQuery.trace (AnalystQuery._execute_cypher db self cypher)) ->
  c = cypher.
Proof.
  unfold AnalystQuery._execute_cypher.
  destruct (AnalystQuery._get_driver db self) as [[e|d] self']; cbn [AnalystQuery.trace In].
  - intros [Hc|[]]. discriminate Hc.
  - intros [Hc|[Hc|[]]]; [discriminate Hc|]. injection Hc as <-. reflexivity.
Qed.

Lemma fallback_session_run (db : AnalystQuery.neo4j) (self : AnalystQuery.t)
    (question c : string) :
  In (AnalystQuery.Call_session_run c)
     (AnalystQuery.trace (AnalystQuery.fallback db self question)) ->
  AnalystQuery._translate_basic question = Some c.
Proof.
  unfold AnalystQuery.fallback.
  destruct (AnalystQuery.nonempty (AnalystQuery._translate_basic question)) as [cy|] eqn:Hcy;
    cbn [AnalystQuery.prepend AnalystQuery.with_question AnalystQuery.trace app In].
  - intros [Hc|Hc]; [discriminate Hc|].
    rewrite (execute_cypher_session_run _ _ _ _ Hc). exact (nonempty_Some _ _ Hcy).
  - intros [Hc|[]]. discriminate Hc.
Qed.

Lemma execute_cypher_text (db : AnalystQuery.neo4j) (self : AnalystQuery.t)
    (cypher : string) (r : value) :
  AnalystQuery.returned (AnalystQuery._execute_cypher db self cypher) = ok r ->
  py_getitem r "cypher" = ok (VStr cypher).
Proof.
  destruct (AnalystQuery._get_driver db self) as [[e|d] self'] eqn:Hd.
  - rewrite (execute_cypher_raises _ _ _ _ _ Hd). discriminate.
  - rewrite (execute_cypher_returned _ _ _ _ _ Hd). intros [= <-].
    destruct (AnalystQuery.session_run db d cypher); reflexivity.
Qed.

(** Every query text that reaches a session is the one found for the
    question. *)
Lemma session_run_chosen (db : AnalystQuery.neo4j) (self : AnalystQuery.t)
    (question c : string) :
  In (AnalystQuery.Call_session_run c)
     (AnalystQuery.trace (AnalystQuery.execute db self question)) ->
  AnalystCli.chosen question = Some c.
Proof.
  unfold AnalystQuery.execute, AnalystCli.chosen.
  destruct (AnalystQuery._is_cypher question).
  - intros Hc. rewrite (execute_cypher_session_run _ _ _ _ Hc). reflexivity.
  - intros Hc. cbn [AnalystQuery.prepend AnalystQuery.trace app In] in Hc.
    destruct Hc as [Hc|Hc]; [discriminate Hc|].
    assert (Hfall : forall o,
              o = AnalystQuery.fallback db self question ->
              In (AnalystQuery.Call_session_run c) (AnalystQuery.trace o) ->
              AnalystQuery.nonempty (AnalystQuery._translate_basic question) = Some c).
    { intros o -> Ho. unfold AnalystQuery.fallback in Ho.
      destruct (AnalystQuery.nonempty (AnalystQuery._translate_basic question)) as [cy|];
        cbn [AnalystQuery.prepend AnalystQuery.with_question AnalystQuery.trace app In]
          in Ho.
      - destruct Ho as [Ho|Ho]; [discriminate Ho|].
        rewrite (execute_cypher_session_run _ _ _ _ Ho). reflexivity.
      - destruct Ho as [Ho|[]]. discriminate Ho. }
    unfold AnalystQuery._execute_natural_language in Hc.
    destruct (AnalystQuery.llm_enabled self).
    + cbn [AnalystQuery._translate_with_llm AnalystQuery.nonempty
           AnalystQuery.prepend AnalystQuery.trace app In] in Hc.
      destruct Hc as [Hc|Hc]; [discriminate Hc|].
      exact (Hfall _ eq_refl Hc).
    + exact (Hfall _ eq_refl Hc).
Qed.

(** A text that counts as Cypher is run as it is, whether or not a keyword
    set matches it: with no LLM configured and no keyword of the table in
    the text, the result carries the data the database returned and no
    error. *)
Lemma C7_cypher_text_gets_data_and_no_error :
  AnalystQuery.config Demo.analyst = None /\
  AnalystQuery._translate_basic "RETURN 1" = None /\
  exists r,
    AnalystQuery.returned (AnalystQuery.execute Demo.db_up Demo.analyst "RETURN 1") =
      ok r /\
    py_getitem r "data" =
      ok (VList [VDict [("name", VStr "prod-account"); ("id", VStr "111")]]) /\
    py_get r "error" VNone = ok VNone.
Proof.
  split; [reflexivity|]. split; [reflexivity|].
  eexists. split; [reflexivity|]. split; reflexivity.
Qed.

(** C7, as the code has it.  Every dictionary [execute] returns has under
    ["cypher"] the query text used, which is the question itself when it
    counts as Cypher and otherwise the template found for it, or [None]
    when there is neither; it has a list under ["data"] and a text under
    ["explanation"] or under ["error"]; and no other text than the one
    under ["cypher"] reaches a database session.  For a question that does
    not count as Cypher and matches no keyword set of [_translate_basic],
    whatever the configured LLM provider, [execute] returns the dictionary
    with ["cypher"] [None], an empty ["data"] list and the ["error"] text. *)
Theorem C7_result_shape (db : AnalystQuery.neo4j) (self : AnalystQuery.t)
    (question : string) :
  (forall r, AnalystQuery.returned (AnalystQuery.execute db self question) = ok r ->
     py_getitem r "cypher" =
       ok match AnalystCli.chosen question with
          | Some c => VStr c
          | None => VNone
          end /\
     (exists rows, py_getitem r "data" = ok (VList rows)) /\
     ((exists s, py_getitem r "explanation" = ok (VStr s)) \/
      (exists s, py_getitem r "error" = ok (VStr s)))) /\
  (forall c, In (AnalystQuery.Call_session_run c)
               (AnalystQuery.trace (AnalystQuery.execute db self question)) ->
             AnalystCli.chosen question = Some c) /\
  (AnalystQuery._is_cypher question = false ->
   AnalystQuery._translate_basic question = None ->
   exists r, AnalystQuery.returned (AnalystQuery.execute db self question) = ok r /\
             py_getitem r "cypher" = ok VNone /\
             py_getitem r "data" = ok (VList []) /\
             py_getitem r "error" =
               ok (VStr ("Could not translate question to Cypher. "
                         +:+ "LLM integration required for natural language queries.")) /\
             py_getitem r "original_question" = ok (VStr question)).
Proof.
  split; [|split].
  - intros r. rewrite execute_returned. unfold AnalystCli.chosen.
    destruct (AnalystQuery._is_cypher question).
    + intros Hr. split; [exact (execute_cypher_text _ _ _ _ Hr)|].
      destruct (execute_cypher_shaped _ _ _ _ Hr) as [(_ & Hdata & Htext) _].
      split; [exact Hdata|exact Htext].
    + destruct (AnalystQuery.nonempty (AnalystQuery._translate_basic question)) as [c|].
      * unfold AnalystQuery.with_question. cbn [AnalystQuery.returned]. intros Hr.
        apply bind_ok in Hr as (r0 & Hr0 & Hr).
        pose proof (execute_cypher_text _ _ _ _ Hr0) as Hc.
        destruct (execute_cypher_shaped _ _ _ _ Hr0)
          as [(_ & Hdata & Htext) (entries & -> & _)].
        cbn [py_setitem] in Hr. injection Hr as <-.
        rewrite !getitem_set_other by discriminate.
        split; [exact Hc|]. split; [exact Hdata|exact Htext].
      * intros [= <-]. split; [reflexivity|].
        split; [eexists; reflexivity|]. right. eexists. reflexivity.
  - intros c. apply session_run_chosen.
  - intros Hc Hnone. rewrite execute_returned, Hc, Hnone. cbn [AnalystQuery.nonempty].
    eexists. split; [reflexivity|]. repeat split.
Qed.

Lemma C7_witness :
  AnalystQuery._is_cypher "Something random" = false /\
  AnalystQuery._translate_basic "Something random" = None /\
  exists r, AnalystQuery.returned
              (AnalystQuery.execute Demo.db_up Demo.analyst "Something random") = ok r /\
            py_getitem r "cypher" = ok VNone /\
            py_getitem r "data" = ok (VList []) /\
            py_getitem r "error" =
              ok (VStr ("Could not translate question to Cypher. "
                        +:+ "LLM integration required for natural language queries.")) /\
            py_getitem r "original_question" = ok (VStr "Something random").
Proof.
  split; [reflexivity|]. split; [reflexivity|].
  exact (proj2 (proj2 (C7_result_shape Demo.db_up Demo.analyst "Something random"))
           eq_refl eq_refl).
Defined.

(** The scenario of the specification: ["Show all accounts"] with no LLM
    configured resolves to a query on the account label, and the result
    carries no error. *)
Example show_all_accounts :
  AnalystQuery.returned (AnalystQuery.execute Demo.db_up Demo.analyst "Show all accounts") =
  ok (VDict [("cypher",
              VStr "MATCH (a:AWSAccount) RETURN a.name as name, a.id as id LIMIT 50");
             ("data", VList [VDict [("name", VStr "prod-account"); ("id", VStr "111")]]);
             ("explanation", VStr "Executed Cypher query, returned 1 results.");
             ("original_question", VStr "Show all accounts")]).
Proof. reflexivity. Qed.

(** ** The file system *)

Lemma grown_refl (m : fs) (q : path) : grown m m q.
Proof. intros r. left. reflexivity. Qed.

Lemma grown_file_node (m m1 : fs) (q r : path) :
  grown m m1 q -> is_file_node (m1 !! r) = is_file_node (m !! r).
Proof.
  intros Hg. destruct (Hg r) as [->|(-> & -> & _)]; reflexivity.
Qed.

Lemma grown_under_file (m m1 : fs) (q p : path) :
  grown m m1 q -> under_file m1 p = under_file m p.
Proof.
  intros Hg. induction p as [|c p IH]; simpl; [reflexivity|].
  rewrite (grown_file_node _ _ _ _ Hg), IH. reflexivity.
Qed.

Lemma grown_insert (m : fs) (q : path) :
  m !! q = None -> grown m (<[q := Dir]> m) q.
Proof.
  intros Hq r. destruct (decide (q = r)) as [<-|Hne].
  - right. rewrite lookup_insert_eq. repeat split; [exact Hq|reflexivity].
  - left. apply lookup_insert_ne. exact Hne.
Qed.

Lemma grown_step (m m1 m2 : fs) (c : string) (q : path) :
  grown m m1 q -> grown m1 m2 (c :: q) -> grown m m2 (c :: q).
Proof.
  intros H1 H2 r.
  destruct (H2 r) as [->|(Hnone & -> & Hsuf)].
  - destruct (H1 r) as [->|(Hn & Hd & Hsuf)]; [left; reflexivity|].
    right. repeat split; [exact Hn|exact Hd|]. apply suffix_cons_r. exact Hsuf.
  - destruct (H1 r) as [Heq|(_ & Hd & _)].
    + right. rewrite <- Heq. repeat split; [exact Hnone|exact Hsuf].
    + rewrite Hd in Hnone. discriminate.
Qed.

(** [Path.mkdir(parents=True, exist_ok=True)] succeeds when neither the
    directory nor an ancestor of it is a regular file; it only adds
    directories, on the way from the root to the path. *)
Lemma mkdir_parents_grows (q : path) (m : fs) :
  under_file m q = false ->
  is_file_node (m !! q) = false ->
  exists m1, mkdir_parents m q = ok m1 /\ is_dir m1 q = true /\ grown m m1 q.
Proof.
  revert m. induction q as [|c q IH]; intros m Hunder Hnode.
  - exists m. split; [reflexivity|]. split; [reflexivity|apply grown_refl].
  - simpl in Hunder. apply orb_false_elim in Hunder as [Hparent Hunder'].
    cbn [mkdir_parents]. unfold os_mkdir.
    cbn [under_file]. rewrite Hparent, Hunder'. cbn [orb].
    unfold exists_. cbn [under_file]. rewrite Hparent, Hunder'. cbn [orb negb andb].
    destruct (m !! (c :: q)) as [[|text]|] eqn:Hq; [| discriminate Hnode |].
    + rewrite bool_decide_eq_true_2 by (eexists; reflexivity).
      assert (Hdir : is_dir m (c :: q) = true) by (unfold is_dir; rewrite Hq; reflexivity).
      cbn [raise exn_cls]. rewrite Hdir.
      exists m. split; [reflexivity|]. split; [exact Hdir|apply grown_refl].
    + rewrite bool_decide_eq_false_2 by (intros [x Hx]; discriminate Hx).
      cbn [parent tail].
      destruct (is_dir m q) eqn:Hdir.
      * exists (<[c :: q := Dir]> m). split; [reflexivity|].
        split; [unfold is_dir; rewrite lookup_insert_eq; reflexivity|].
        apply grown_insert. exact Hq.
      * cbn [raise exn_cls].
        destruct (IH m Hunder' Hparent) as (m1 & Hm1 & Hdir1 & Hgrown).
        rewrite Hm1. cbn [bind ok].
        assert (Hq1 : m1 !! (c :: q) = None).
        { destruct (Hgrown (c :: q)) as [->|(_ & _ & Hsuf)]; [exact Hq|].
          apply suffix_length in Hsuf. simpl in Hsuf. lia. }
        unfold mkdir_exist_ok, os_mkdir, exists_. cbn [under_file].
        rewrite (grown_file_node _ _ _ _ Hgrown), Hparent.
        rewrite (grown_under_file _ _ _ _ Hgrown), Hunder'. cbn [orb negb andb].
        rewrite Hq1.
        rewrite bool_decide_eq_false_2 by (intros [x Hx]; discriminate Hx).
        cbn [parent tail]. rewrite Hdir1.
        exists (<[c :: q := Dir]> m1). split; [reflexivity|].
        split; [unfold is_dir; rewrite lookup_insert_eq; reflexivity|].
        apply (grown_step m m1); [exact Hgrown|]. apply grown_insert. exact Hq1.
Qed.

Lemma under_file_insert (m : fs) (p r : path) (x : node) :
  (length r <= length p)%nat -> under_file (<[p := x]> m) r = under_file m r.
Proof.
  induction r as [|c r IH]; intros Hlen; simpl; [reflexivity|].
  simpl in Hlen. rewrite lookup_insert_ne by (intros ->; lia).
  rewrite IH by lia. reflexivity.
Qed.

Lemma writable_parent (m : fs) (p : path) :
  writable m p = true ->
  exists c q, p = c :: q /\ under_file m q = false /\ is_file_node (m !! q) = false /\
              under_file m p = false /\ is_dir m p = false.
Proof.
  unfold writable. intros Hw. apply andb_prop in Hw as [Hunder Hdir].
  apply negb_true_iff in Hunder, Hdir.
  destruct p as [|c q]; [discriminate Hdir|].
  exists c, q. split; [reflexivity|].
  pose proof Hunder as Hunder'. simpl in Hunder'.
  apply orb_false_elim in Hunder' as [Hnode Hq]. repeat split; assumption.
Qed.

Lemma open_write_inv (m m' : fs) (p : path) (text : string) :
  open_write m p text = ok m' ->
  m' = <[p := File text]> m /\ under_file m p = false /\ is_dir m p = false.
Proof.
  unfold open_write. destruct (under_file m p); [discriminate|].
  destruct (is_dir m p); [discriminate|].
  destruct (is_file_node (m !! p) || is_dir m (parent p)); [|discriminate].
  intros [= <-]. repeat split.
Qed.


(** ** Saving the state and loading it again *)

Lemma run_stores_state `{Serialization} (self self' : Phase1Mapper.t) (m : fs)
    (st : value) :
  Phase1Mapper.run self m = ok (st, self') -> Phase1Mapper._state self' = Some st.
Proof.
  unfold Phase1Mapper.run. intros Hrun.
  apply bind_ok in Hrun as (scan_data & _ & Hrun).
  apply bind_ok in Hrun as (dec & _ & Hrun).
  destruct (map_basic_state _ _ _ _ _ Hrun) as [-> _]. reflexivity.
Qed.

Lemma init_holds_no_state `{Serialization} (m : fs) (scan : path)
    (decisions : option path) (self : Phase1Mapper.t) :
  Phase1Mapper.__init__ m scan decisions = ok self -> Phase1Mapper._state self = None.
Proof.
  unfold Phase1Mapper.__init__.
  destruct (negb (exists_ m scan)); [discriminate|].
  destruct decisions as [d|].
  - destruct (negb (exists_ m d)); [discriminate|]. intros [= <-]. reflexivity.
  - intros [= <-]. reflexivity.
Qed.

(** [save_state] on a mapper that holds a state, into a writable path. *)
Lemma save_state_writes `{Serialization} (self : Phase1Mapper.t) (st : value)
    (m : fs) (output : path) :
  Phase1Mapper._state self = Some st ->
  writable m output = true ->
  exists m1,
    mkdir_parents m (parent output) = ok m1 /\
    grown m m1 (parent output) /\
    is_dir m1 (parent output) = true /\
    Phase1Mapper.save_state self m output =
    (ok tt, <[output := File (Phase1Mapper.header +:+ yaml_dump st)]> m1).
Proof.
  intros Hst Hw.
  destruct (writable_parent _ _ Hw) as (c & q & -> & Hq & Hnode & Hunder & Hdir).
  destruct (mkdir_parents_grows q m Hq Hnode) as (m1 & Hm1 & Hdir1 & Hgrown).
  exists m1. cbn [parent tail]. split; [exact Hm1|]. split; [exact Hgrown|].
  split; [exact Hdir1|].
  unfold Phase1Mapper.save_state. rewrite Hst. cbn [parent tail]. rewrite Hm1.
  unfold ok at 1. cbv beta iota.
  assert (Hsame : m1 !! (c :: q) = m !! (c :: q)).
  { destruct (Hgrown (c :: q)) as [Heq|(_ & _ & Hsuf)]; [exact Heq|].
    apply suffix_length in Hsuf. simpl in Hsuf. lia. }
  unfold open_write.
  rewrite (grown_under_file _ _ _ _ Hgrown), Hunder.
  assert (Hdir' : is_dir m1 (c :: q) = false).
  { unfold is_dir in Hdir |- *. rewrite Hsame. exact Hdir. }
  rewrite Hdir'. cbn [parent tail]. rewrite Hdir1, orb_true_r. reflexivity.
Qed.

(** After [run] has returned a state, [save_state] can still raise: here
    the parent of the output path is the scan file, a regular file, so the
    parent directory cannot be created; nothing is written. *)
Lemma C8_save_state_raises_after_run :
  Phase1Mapper.run Demo.mapper Demo.disk =
    ok (Demo.state, Phase1Mapper.set_state Demo.mapper Demo.state) /\
  Phase1Mapper.save_state (Phase1Mapper.set_state Demo.mapper Demo.state) Demo.disk
    ("state.yaml" :: Demo.scan_path) =
    (raise FileExistsError "File exists", Demo.disk) /\
  Demo.disk !! ("state.yaml" :: Demo.scan_path) = None.
Proof. split; [|split]; vm_compute; reflexivity. Qed.

(** C8, as the code has it.  A mapper as [__init__] builds it holds no
    state: [save_state] raises the [RuntimeError] "No state to save"
    whatever the path, and the file system is left as it was.  After [run]
    has returned a state, [save_state] into a path where a file can be
    written (no ancestor is a regular file, the path is not a directory)
    returns without raising: the missing parent directories were created,
    the file holds the header and the dump of the state, and the other
    files are as before. *)
Theorem C8_save_state_after_run_only `{Serialization}
    (m0 : fs) (scan : path) (decisions : option path) (self : Phase1Mapper.t) :
  Phase1Mapper.__init__ m0 scan decisions = ok self ->
  (forall m output,
     Phase1Mapper.save_state self m output =
     (raise RuntimeError "No state to save. Run map() first.", m)) /\
  (forall m1 st self' m output,
     Phase1Mapper.run self m1 = ok (st, self') ->
     writable m output = true ->
     exists m',
       Phase1Mapper.save_state self' m output = (ok tt, m') /\
       m' !! output = Some (File (Phase1Mapper.header +:+ yaml_dump st)) /\
       is_file m' output = true /\
       is_dir m' (parent output) = true /\
       (forall p text, p <> output -> m !! p = Some (File text) ->
                       m' !! p = Some (File text))).
Proof.
  intros Hinit. pose proof (init_holds_no_state _ _ _ _ Hinit) as Hnone.
  split.
  - intros m output. unfold Phase1Mapper.save_state. rewrite Hnone. reflexivity.
  - intros m1 st self' m output Hrun Hw.
    pose proof (run_stores_state _ _ _ _ Hrun) as Hst.
    destruct (save_state_writes self' st m output Hst Hw)
      as (m2 & Hm2 & Hgrown & Hdir & Hsave).
    destruct (writable_parent _ _ Hw) as (c & q & -> & Hq & Hnode & Hunder & Hdirp).
    cbn [parent tail] in *.
    eexists. split; [exact Hsave|].
    split; [apply lookup_insert_eq|].
    split; [|split].
    + unfold is_file. rewrite under_file_insert by reflexivity.
      rewrite (grown_under_file _ _ _ _ Hgrown), Hunder.
      unfold is_dir. rewrite lookup_insert_eq. reflexivity.
    + destruct q as [|c' q']; [reflexivity|].
      unfold is_dir in Hdir |- *.
      rewrite lookup_insert_ne
        by (intros Heq; apply (f_equal length) in Heq; simpl in Heq; lia).
      exact Hdir.
    + intros p text Hp Hfile. rewrite lookup_insert_ne by congruence.
      destruct (Hgrown p) as [->|(Hn & _ & _)]; [exact Hfile|].
      rewrite Hfile in Hn. discriminate.
Qed.

Lemma C8_witness :
  Phase1Mapper.__init__ Demo.disk Demo.scan_path None = ok Demo.mapper /\
  Phase1Mapper.save_state Demo.mapper Demo.disk Demo.state_path =
    (raise RuntimeError "No state to save. Run map() first.", Demo.disk) /\
  exists m',
    Phase1Mapper.save_state (Phase1Mapper.set_state Demo.mapper Demo.state)
      Demo.disk Demo.state_path = (ok tt, m') /\
    m' !! Demo.state_path =
      Some (File (Phase1Mapper.header +:+ yaml_dump Demo.state)) /\
    is_file m' Demo.state_path = true /\
    is_dir m' (parent Demo.state_path) = true /\
    (forall p text, p <> Demo.state_path -> Demo.disk !! p = Some (File text) ->
                    m' !! p = Some (File text)).
Proof.
  assert (H1 : Phase1Mapper.__init__ Demo.disk Demo.scan_path None = ok Demo.mapper)
    by (vm_compute; reflexivity).
  assert (H2 : Phase1Mapper.run Demo.mapper Demo.disk =
               ok (Demo.state, Phase1Mapper.set_state Demo.mapper Demo.state))
    by (vm_compute; reflexivity).
  assert (H3 : writable Demo.disk Demo.state_path = true) by (vm_compute; reflexivity).
  destruct (C8_save_state_after_run_only Demo.disk Demo.scan_path None Demo.mapper H1)
    as [Hbefore Hafter].
  split; [exact H1|]. split; [exact (Hbefore Demo.disk Demo.state_path)|].
  exact (Hafter Demo.disk Demo.state _ Demo.disk Demo.state_path H2 H3).
Defined.

(** The subtenant of an account whose name is [NaN]. *)
Example subtenant_of_a_nan_name :
  Phase1Mapper.subtenant_of_account (VDict [("id", VStr "111"); ("name", VNaN)]) =
  ok (VDict [("id", VStr "st-111"); ("name", VNaN);
             ("aws_accounts", VList [VStr "111"]);
             ("description", VStr "Subtenant for account: nan")]).
Proof. reflexivity. Qed.




(** * Further properties of the mapped code *)

(** ** Identifiers built by [_map_basic] *)

Lemma replace_go_absent (old new s : string) :
  Str.contains old s = false -> Str.replace_go old new O s = s.
Proof.
  induction s as [|c s IH]; intros Hs; [reflexivity|].
  cbn [Str.contains] in Hs. apply orb_false_elim in Hs as [Hhead Htail].
  cbn [Str.replace_go]. rewrite Hhead, (IH Htail). reflexivity.
Qed.

Lemma replace_strips_prefix (s : string) :
  Str.replace "ou-" "" ("ou-" +:+ s) = Str.replace "ou-" "" s.
Proof. reflexivity. Qed.

Lemma zone_of_ou_id (d : list (string * value)) (s : string) :
  dict_lookup d "id" = Some (VStr s) ->
  exists z, Phase1Mapper.zone_of_ou (VDict d) = ok z /\
            py_getitem z "id" = ok (VStr ("sz-" +:+ Str.replace "ou-" "" s)) /\
            py_getitem z "source_ou_id" = ok (VStr s).
Proof.
  intros Hid. unfold Phase1Mapper.zone_of_ou. cbn [py_getitem]. rewrite Hid.
  cbn [bind ok Phase1Mapper.py_replace py_get]. eexists. split; [reflexivity|].
  split; reflexivity.
Qed.

(** X1.  An organizational unit whose id is ["ou-"] followed by a text
    without a further ["ou-"] becomes the zone whose id is ["sz-"] followed
    by that text; the zone keeps the unit id under ["source_ou_id"]. *)
Theorem X1_zone_id_strips_the_prefix (d : list (string * value)) (s : string) :
  dict_lookup d "id" = Some (VStr ("ou-" +:+ s)) ->
  Str.contains "ou-" s = false ->
  exists z, Phase1Mapper.zone_of_ou (VDict d) = ok z /\
            py_getitem z "id" = ok (VStr ("sz-" +:+ s)) /\
            py_getitem z "source_ou_id" = ok (VStr ("ou-" +:+ s)).
Proof.
  intros Hid Hs. destruct (zone_of_ou_id d _ Hid) as (z & Hz & Hzid & Hsrc).
  exists z. split; [exact Hz|]. split; [|exact Hsrc].
  rewrite Hzid, replace_strips_prefix. unfold Str.replace.
  rewrite (replace_go_absent _ _ _ Hs). reflexivity.
Qed.

Lemma X1_witness :
  dict_lookup [("id", VStr "ou-root-prod"); ("name", VStr "Production")] "id" =
    Some (VStr ("ou-" +:+ "root-prod")) /\
  Str.contains "ou-" "root-prod" = false /\
  exists z, Phase1Mapper.zone_of_ou
              (VDict [("id", VStr "ou-root-prod"); ("name", VStr "Production")]) = ok z /\
            py_getitem z "id" = ok (VStr ("sz-" +:+ "root-prod")) /\
            py_getitem z "source_ou_id" = ok (VStr ("ou-" +:+ "root-prod")).
Proof.
  split; [reflexivity|]. split; [reflexivity|].
  exact (X1_zone_id_strips_the_prefix
           [("id", VStr "ou-root-prod"); ("name", VStr "Production")] "root-prod"
           eq_refl eq_refl).
Defined.

(** X2.  [replace] drops every ["ou-"], not only a leading one, so zone ids
    are not unique: the units with ids [s] and ["ou-" ++ s], two different
    ids, become zones with the same id. *)
Theorem X2_zone_ids_can_collide (d1 d2 : list (string * value)) (s : string) :
  dict_lookup d1 "id" = Some (VStr s) ->
  dict_lookup d2 "id" = Some (VStr ("ou-" +:+ s)) ->
  s <> "ou-" +:+ s /\
  exists z1 z2,
    Phase1Mapper.zone_of_ou (VDict d1) = ok z1 /\
    Phase1Mapper.zone_of_ou (VDict d2) = ok z2 /\
    py_getitem z1 "id" = py_getitem z2 "id".
Proof.
  intros H1 H2. split.
  - intros Heq. apply (f_equal String.length) in Heq.
    change (String.length s = S (S (S (String.length s)))) in Heq. lia.
  - destruct (zone_of_ou_id d1 _ H1) as (z1 & Hz1 & Hid1 & _).
    destruct (zone_of_ou_id d2 _ H2) as (z2 & Hz2 & Hid2 & _).
    exists z1, z2. split; [exact Hz1|]. split; [exact Hz2|].
    rewrite Hid1, Hid2, replace_strips_prefix. reflexivity.
Qed.

Lemma X2_witness :
  dict_lookup [("id", VStr "prod")] "id" = Some (VStr "prod") /\
  dict_lookup [("id", VStr "ou-prod")] "id" = Some (VStr ("ou-" +:+ "prod")) /\
  "prod" <> "ou-" +:+ "prod" /\
  exists z1 z2,
    Phase1Mapper.zone_of_ou (VDict [("id", VStr "prod")]) = ok z1 /\
    Phase1Mapper.zone_of_ou (VDict [("id", VStr "ou-prod")]) = ok z2 /\
    py_getitem z1 "id" = py_getitem z2 "id".
Proof.
  split; [reflexivity|]. split; [reflexivity|].
  exact (X2_zone_ids_can_collide [("id", VStr "prod")] [("id", VStr "ou-prod")] "prod"
           eq_refl eq_refl).
Defined.

Lemma subtenant_id (account s : value) :
  Phase1Mapper.subtenant_of_account account = ok s ->
  Scan.id_of s = VStr ("st-" +:+ py_str (Scan.id_of account)).
Proof.
  unfold Phase1Mapper.subtenant_of_account. intros Hs.
  apply bind_ok in Hs as (id & Hid & Hs). apply bind_ok in Hs as (name & _ & Hs).
  injection Hs as <-.
  destruct account as [| | | | |d|]; try discriminate Hid. simpl in Hid |- *.
  destruct (dict_lookup d "id"); [|discriminate Hid]. injection Hid as ->. reflexivity.
Qed.

Lemma subtenant_ids (accounts subtenants : list value) :
  for_each Phase1Mapper.subtenant_of_account accounts = ok subtenants ->
  List.map Scan.id_of subtenants =
  List.map (fun id => VStr ("st-" +:+ py_str id)) (List.map Scan.id_of accounts).
Proof.
  intros Hs. apply for_each_Forall2 in Hs.
  induction Hs as [|a s accounts subtenants Has _ IH]; [reflexivity|].
  cbn [List.map]. rewrite (subtenant_id _ _ Has), IH. reflexivity.
Qed.

Lemma prefixed_ids_distinct (ids : list value) :
  Forall (fun id => exists s, id = VStr s) ids ->
  NoDup ids ->
  NoDup (List.map (fun id => VStr ("st-" +:+ py_str id)) ids).
Proof.
  induction 1 as [|id ids [s ->] Hids IH]; intros Hnodup; [constructor|].
  apply NoDup_cons in Hnodup as [Hfresh Hnodup].
  cbn [List.map]. apply NoDup_cons. split; [|exact (IH Hnodup)].
  intros Hin. apply list_elem_of_In, in_map_iff in Hin as (id' & Heq & Hin').
  apply Hfresh. apply list_elem_of_In.
  rewrite Forall_forall in Hids.
  destruct (Hids id' (proj2 (list_elem_of_In _ _) Hin')) as [s' ->].
  cbn [py_str] in Heq.
  assert (Hs : s' = s) by (apply (inj (String.app "st-")); congruence).
  rewrite <- Hs. exact Hin'.
Qed.

(** X3.  Accounts with pairwise different ids, all of them strings, become
    subtenants with pairwise different ids. *)
Theorem X3_subtenant_ids_stay_distinct (accounts subtenants : list value) :
  for_each Phase1Mapper.subtenant_of_account accounts = ok subtenants ->
  Forall (fun id => exists s, id = VStr s) (List.map Scan.id_of accounts) ->
  NoDup (List.map Scan.id_of accounts) ->
  NoDup (List.map Scan.id_of subtenants).
Proof.
  intros Hs Hstr Hnodup. rewrite (subtenant_ids _ _ Hs).
  exact (prefixed_ids_distinct _ Hstr Hnodup).
Qed.

Lemma X3_witness :
  for_each Phase1Mapper.subtenant_of_account Demo.accounts = ok Demo.subtenants /\
  NoDup (List.map Scan.id_of Demo.subtenants).
Proof.
  assert (H1 : for_each Phase1Mapper.subtenant_of_account Demo.accounts =
               ok Demo.subtenants) by reflexivity.
  split; [exact H1|].
  apply (X3_subtenant_ids_stay_distinct Demo.accounts Demo.subtenants H1).
  - repeat constructor; eexists; reflexivity.
  - cbn. apply NoDup_cons. split; [|apply NoDup_singleton].
    intros Hin. apply list_elem_of_In in Hin. destruct Hin as [Hin|[]].
    discriminate Hin.
Defined.

(** ** Which scans [_map_basic] accepts *)

Lemma getitem_id_has_id (x v : value) :
  py_getitem x "id" = ok v -> Scan.has_id x = true.
Proof.
  destruct x as [| | | | |d|]; try discriminate. simpl.
  destruct (dict_lookup d "id"); [reflexivity|discriminate].
Qed.

Lemma zone_of_ou_needs_str_id (ou z : value) :
  Phase1Mapper.zone_of_ou ou = ok z -> Scan.has_str_id ou = true.
Proof.
  unfold Phase1Mapper.zone_of_ou. intros Hz.
  apply bind_ok in Hz as (id & Hid & Hz). apply bind_ok in Hz as (short & Hshort & _).
  destruct ou as [| | | | |d|]; try discriminate Hid. simpl in Hid |- *.
  destruct (dict_lookup d "id") as [v|]; [|discriminate Hid]. injection Hid as ->.
  destruct id; try discriminate Hshort. reflexivity.
Qed.

Lemma subtenant_needs_id (account s : value) :
  Phase1Mapper.subtenant_of_account account = ok s -> Scan.has_id account = true.
Proof.
  unfold Phase1Mapper.subtenant_of_account. intros Hs.
  apply bind_ok in Hs as (id & Hid & _). exact (getitem_id_has_id _ _ Hid).
Qed.

Lemma for_each_forallb {A B} (f : A -> result B) (p : A -> bool)
    (xs : list A) (ys : list B) :
  (forall x y, f x = ok y -> p x = true) ->
  for_each f xs = ok ys -> forallb p xs = true.
Proof.
  intros Hf Hys. apply for_each_Forall2 in Hys.
  induction Hys as [|x y xs ys Hxy _ IH]; [reflexivity|].
  simpl. rewrite (Hf x y Hxy), IH. reflexivity.
Qed.

Lemma generate_proposals_needs_ids (state scan : value) (vpcs ps : list value) :
  Scan.entries scan "vpcs" = Some vpcs ->
  Phase1Mapper._generate_proposals state scan = ok ps ->
  forallb Scan.has_id vpcs = true.
Proof.
  intros Hvpcs Hps. destruct (entries_get _ _ _ Hvpcs) as (v & Hget & _ & ->).
  unfold Phase1Mapper._generate_proposals in Hps.
  apply bind_ok in Hps as (subtenants & _ & Hps).
  apply bind_ok in Hps as (n & _ & Hps).
  apply bind_ok in Hps as (first & _ & Hps).
  rewrite Hget in Hps. cbn [bind ok] in Hps. rewrite truthy_list in Hps.
  destruct vpcs as [|vpc vpcs]; [reflexivity|].
  apply bind_ok in Hps as (k & _ & Hps).
  apply bind_ok in Hps as (items & Hitems & Hps).
  apply bind_ok in Hps as (ids & Hids & _).
  injection Hitems as <-.
  exact (for_each_forallb _ _ _ _ getitem_id_has_id Hids).
Qed.

(** X4.  For a scan whose organizational units, accounts and VPCs are
    lists (or are missing), [_map_basic] returns a state exactly when every
    unit is a record with a string ["id"] and every account and every VPC
    is a record with an ["id"]; on any other such scan it raises. *)
Theorem X4_map_basic_accepts_exactly_the_valid_scans (self : Phase1Mapper.t)
    (scan decisions : value) (ous accounts vpcs : list value) :
  Scan.entries scan "organizational_units" = Some ous ->
  Scan.entries scan "accounts" = Some accounts ->
  Scan.entries scan "vpcs" = Some vpcs ->
  (exists st self', Phase1Mapper._map_basic self scan decisions = ok (st, self')) <->
  Scan.valid scan = true.
Proof.
  intros Hous Haccounts Hvpcs.
  unfold Scan.valid, Scan.all_in. rewrite Hous, Haccounts, Hvpcs. split.
  - intros (st & self' & Hst). unfold Phase1Mapper._map_basic in Hst.
    destruct (entries_get _ _ _ Hous) as (v1 & Hget1 & _ & ->).
    destruct (entries_get _ _ _ Haccounts) as (v2 & Hget2 & _ & ->).
    rewrite Hget1 in Hst. cbn [bind ok py_iter] in Hst.
    apply bind_ok in Hst as (zones & Hzones & Hst).
    rewrite Hget2 in Hst. cbn [bind ok py_iter] in Hst.
    apply bind_ok in Hst as (subtenants & Hsubtenants & Hst).
    apply bind_ok in Hst as (ps & Hps & _).
    rewrite (for_each_forallb _ _ _ _ zone_of_ou_needs_str_id Hzones).
    rewrite (for_each_forallb _ _ _ _ subtenant_needs_id Hsubtenants).
    rewrite (generate_proposals_needs_ids _ _ _ _ Hvpcs Hps). reflexivity.
  - intros Hvalid. apply andb_prop in Hvalid as [Hvalid Vvpcs].
    apply andb_prop in Hvalid as [Vous Vaccounts].
    destruct (map_basic_spec self scan decisions ous accounts vpcs
                Hous Haccounts Hvpcs Vous Vaccounts Vvpcs)
      as (zones & subtenants & _ & _ & Hrun).
    eexists _, _. exact Hrun.
Qed.

Lemma X4_witness :
  Scan.entries Demo.scan "organizational_units" = Some Demo.ous /\
  Scan.entries Demo.scan "accounts" = Some Demo.accounts /\
  Scan.entries Demo.scan "vpcs" = Some Demo.vpcs /\
  ((exists st self',
      Phase1Mapper._map_basic Demo.mapper Demo.scan (VDict []) = ok (st, self')) <->
   Scan.valid Demo.scan = true).
Proof.
  split; [reflexivity|]. split; [reflexivity|]. split; [reflexivity|].
  exact (X4_map_basic_accepts_exactly_the_valid_scans Demo.mapper Demo.scan (VDict [])
           Demo.ous Demo.accounts Demo.vpcs eq_refl eq_refl eq_refl).
Defined.

(** A unit without an ["id"] makes [_map_basic] raise [KeyError]. *)
Example unit_without_id_raises :
  Phase1Mapper._map_basic Demo.mapper
    (VDict [("organizational_units", VList [VDict [("name", VStr "Prod")]])]) (VDict []) =
  raise KeyError "'id'".
Proof. reflexivity. Qed.

(** ** Requests for the same proposal *)

Lemma dict_set_set (d : list (string * value)) (k : string) (v v' : value) :
  dict_set (dict_set d k v) k v' = dict_set d k v'.
Proof.
  induction d as [|[k0 v0] d IH]; simpl.
  - rewrite String.eqb_refl. reflexivity.
  - destruct (String.eqb k0 k) eqn:Hk; simpl; rewrite Hk; [reflexivity|].
    rewrite IH. reflexivity.
Qed.

(** Once the loop has decided a proposal, running it again for the same id
    over the updated list decides the same proposal, and the outcome is the
    one the second run has on the list as it was. *)
Lemma mark_first_again (proposal_id s1 s2 : string) (ps l1 : list value) :
  Phase2Server.mark_first proposal_id s1 ps = ok (Some l1) ->
  exists l2, Phase2Server.mark_first proposal_id s2 l1 = ok (Some l2) /\
             Phase2Server.mark_first proposal_id s2 ps = ok (Some l2).
Proof.
  revert l1. induction ps as [|p ps IH]; intros l1 Hl1; simpl in Hl1; [discriminate|].
  destruct p as [| | | | |d|]; try discriminate Hl1.
  cbn [py_get bind ok] in Hl1.
  destruct (py_eq match dict_lookup d "id" with Some v => v | None => VNone end
              (VStr proposal_id)) eqn:Hid.
  - cbn [py_setitem bind ok] in Hl1. injection Hl1 as <-.
    exists (VDict (dict_set d "status" (VStr s2)) :: ps).
    cbn [Phase2Server.mark_first py_get bind ok].
    rewrite dict_lookup_set_ne by discriminate. rewrite Hid.
    cbn [py_setitem bind ok]. rewrite dict_set_set. split; reflexivity.
  - bind_inv Hl1. destruct a as [l|]; [|discriminate Hl1].
    injection Hl1 as <-. destruct (IH l Ha) as (l2 & Hagain & Hfirst).
    exists (VDict d :: l2).
    cbn [Phase2Server.mark_first py_get bind ok]. rewrite Hid, Hagain, Hfirst.
    split; reflexivity.
Qed.

Lemma open_write_again (m m1 : fs) (p : path) (t1 t2 : string) :
  open_write m p t1 = ok m1 ->
  open_write m1 p t2 = ok (<[p := File t2]> m) /\
  open_write m p t2 = ok (<[p := File t2]> m).
Proof.
  intros Hw. pose proof Hw as Hw'. apply open_write_inv in Hw' as (-> & Hunder & Hdir).
  unfold open_write in Hw |- *. rewrite Hunder, Hdir in Hw |- *.
  rewrite under_file_insert by reflexivity. rewrite Hunder.
  destruct p as [|c q]; [discriminate Hdir|].
  unfold is_dir at 1. rewrite lookup_insert_eq. cbn [is_file_node orb].
  rewrite insert_insert_eq.
  destruct (is_file_node (m !! (c :: q)) || is_dir m (parent (c :: q)));
    [split; reflexivity|discriminate Hw].
Qed.

Lemma handle_decide `{Serialization} (r : Phase2Server.request)
    (self : Phase2Server.t) (m : fs) :
  Phase2Server.handle r self m =
  Phase2Server.decide_proposal (Phase2Server.verdict r) self m (Phase2Server.request_id r).
Proof. destruct r; reflexivity. Qed.

(** X5.  What a request does (its response, the state of the server and the
    file system afterwards) does not depend on an earlier request that named
    the same proposal.  So a repeated request is answered as the first time
    and changes nothing more, and of an accept and a reject of one proposal
    the later one stands. *)
Theorem X5_an_earlier_request_for_the_proposal_is_forgotten `{Serialization}
    (r1 r2 : Phase2Server.request) (self : Phase2Server.t) (m : fs) :
  Phase2Server.request_id r1 = Phase2Server.request_id r2 ->
  Phase2Server.handle r2
    (snd (fst (Phase2Server.handle r1 self m))) (snd (Phase2Server.handle r1 self m)) =
  Phase2Server.handle r2 self m.
Proof.
  intros Hid. rewrite !handle_decide. rewrite Hid.
  generalize (Phase2Server.verdict r1) (Phase2Server.verdict r2)
             (Phase2Server.request_id r2).
  intros s1 s2 proposal_id. destruct self as [file st].
  unfold Phase2Server.decide_proposal at 2 3.
  cbn [Phase2Server.state Phase2Server.state_file].
  destruct st as [| | | | |d|]; try reflexivity.
  cbn [py_get bind ok].
  destruct (py_iter match dict_lookup d "proposals" with
                    | Some v => v | None => VList [] end) as [e|items] eqn:Hitems;
    [reflexivity|].
  cbn [bind ok].
  destruct (Phase2Server.mark_first proposal_id s1 items) as [e|[l1|]] eqn:Hl1;
    [reflexivity| |reflexivity].
  destruct (mark_first_again proposal_id s1 s2 items l1 Hl1) as (l2 & Hagain & Hfirst).
  unfold Phase2Server._save_state. cbn [Phase2Server.state Phase2Server.state_file].
  assert (Hstep : forall m1,
    Phase2Server.decide_proposal s2
      {| Phase2Server.state_file := file;
         Phase2Server.state := Phase2Server.with_proposals (VDict d) l1 |} m1 proposal_id =
    match open_write m1 file
            (yaml_dump (Phase2Server.with_proposals (VDict d) l2)) with
    | inl e => (inl e, {| Phase2Server.state_file := file;
                          Phase2Server.state := Phase2Server.with_proposals (VDict d) l2 |},
                m1)
    | inr m2 => (ok Phase2Server.response_ok,
                 {| Phase2Server.state_file := file;
                    Phase2Server.state := Phase2Server.with_proposals (VDict d) l2 |}, m2)
    end).
  { intros m1. unfold Phase2Server.decide_proposal.
    cbn [Phase2Server.state Phase2Server.state_file Phase2Server.with_proposals
         py_get bind ok].
    rewrite dict_lookup_set_eq. cbn [py_iter bind ok]. rewrite Hagain.
    unfold ok. cbv beta iota. unfold Phase2Server._save_state.
    cbn [Phase2Server.state Phase2Server.state_file Phase2Server.with_proposals].
    rewrite dict_set_set.
    destruct (open_write m1 file _); reflexivity. }
  assert (Hdirect :
    Phase2Server.decide_proposal s2
      {| Phase2Server.state_file := file; Phase2Server.state := VDict d |} m proposal_id =
    match open_write m file
            (yaml_dump (Phase2Server.with_proposals (VDict d) l2)) with
    | inl e => (inl e, {| Phase2Server.state_file := file;
                          Phase2Server.state := Phase2Server.with_proposals (VDict d) l2 |},
                m)
    | inr m2 => (ok Phase2Server.response_ok,
                 {| Phase2Server.state_file := file;
                    Phase2Server.state := Phase2Server.with_proposals (VDict d) l2 |}, m2)
    end).
  { unfold Phase2Server.decide_proposal.
    cbn [Phase2Server.state Phase2Server.state_file py_get bind ok].
    rewrite Hitems. cbn [bind ok]. rewrite Hfirst.
    unfold ok. cbv beta iota. unfold Phase2Server._save_state.
    cbn [Phase2Server.state Phase2Server.state_file].
    destruct (open_write m file _); reflexivity. }
  rewrite Hdirect.
  destruct (open_write m file
              (yaml_dump (Phase2Server.with_proposals (VDict d) l1))) as [e|m1] eqn:Hw1;
    unfold ok; cbv beta iota; cbn [fst snd]; rewrite Hstep.
  - reflexivity.
  - destruct (open_write_again _ _ _ _
                (yaml_dump (Phase2Server.with_proposals (VDict d) l2)) Hw1) as [-> ->].
    reflexivity.
Qed.

Lemma X5_witness :
  Phase2Server.request_id (Phase2Server.Accept "p1") =
    Phase2Server.request_id (Phase2Server.Reject "p1") /\
  Phase2Server.handle (Phase2Server.Reject "p1")
    (snd (fst (Phase2Server.handle (Phase2Server.Accept "p1") Demo.server Demo.review_disk)))
    (snd (Phase2Server.handle (Phase2Server.Accept "p1") Demo.server Demo.review_disk)) =
  Phase2Server.handle (Phase2Server.Reject "p1") Demo.server Demo.review_disk.
Proof.
  split; [reflexivity|].
  exact (X5_an_earlier_request_for_the_proposal_is_forgotten
           (Phase2Server.Accept "p1") (Phase2Server.Reject "p1")
           Demo.server Demo.review_disk eq_refl).
Defined.

(** ** What no request changes *)

Lemma preserved_refl (self : Phase2Server.t) (m : fs) :
  Phase2Invariant.preserved self self m m.
Proof.
  repeat split; try reflexivity.
  intros i p' Hp'. exists p'. split; [exact Hp'|reflexivity].
Qed.

Lemma preserved_trans (s1 s2 s3 : Phase2Server.t) (m1 m2 m3 : fs) :
  Phase2Invariant.preserved s1 s2 m1 m2 -> Phase2Invariant.preserved s2 s3 m2 m3 ->
  Phase2Invariant.preserved s1 s3 m1 m3.
Proof.
  intros (Hf1 & Hn1 & Hp1 & Hm1) (Hf2 & Hn2 & Hp2 & Hm2).
  split; [congruence|]. split; [congruence|]. split.
  - intros i p'' Hi. destruct (Hp2 i p'' Hi) as (p' & Hi' & Hsame').
    destruct (Hp1 i p' Hi') as (p & Hi0 & Hsame).
    exists p. split; [exact Hi0|]. intros proposal_id.
    rewrite (Hsame' proposal_id). apply Hsame.
  - intros p Hp. rewrite Hm2 by congruence. apply Hm1. exact Hp.
Qed.

Lemma decided_preserved (status : string) (self : Phase2Server.t) (i : nat) (m : fs)
    (d : list (string * value)) :
  Phase2Server.state self = VDict d ->
  Phase2Invariant.preserved self (Phase2Server.decided status self i) m m.
Proof.
  intros Hd. split; [reflexivity|].
  rewrite (proposals_decided _ _ _ _ Hd). split; [apply length_alter|].
  split; [|reflexivity].
  intros j p' Hj. destruct (decide (i = j)) as [<-|Hne].
  - rewrite list_lookup_alter_eq in Hj.
    destruct (MappingState.proposals (Phase2Server.state self) !! i) as [p|];
      [|discriminate Hj].
    injection Hj as <-. exists p. split; [reflexivity|].
    intros proposal_id. apply has_proposal_id_set_status.
  - rewrite list_lookup_alter_ne in Hj by exact Hne.
    exists p'. split; [exact Hj|reflexivity].
Qed.

Lemma write_preserved (self self' : Phase2Server.t) (m m' : fs) (text : string) :
  Phase2Invariant.preserved self self' m m ->
  open_write m (Phase2Server.state_file self) text = ok m' ->
  Phase2Invariant.preserved self self' m m'.
Proof.
  intros (Hf & Hn & Hp & _) Hw. apply open_write_inv in Hw as (-> & _ & _).
  repeat split; try assumption.
  intros p Hne. apply lookup_insert_ne. congruence.
Qed.

Lemma handle_preserved `{Serialization} (r : Phase2Server.request)
    (self : Phase2Server.t) (m : fs) :
  Phase2Invariant.preserved self (snd (fst (Phase2Server.handle r self m)))
    m (snd (Phase2Server.handle r self m)).
Proof.
  rewrite handle_decide.
  destruct (decide_proposal_cases (Phase2Server.verdict r) self m
              (Phase2Server.request_id r)) as [[e ->]|Hdone]; [apply preserved_refl|].
  unfold Phase2Server.handled in Hdone.
  destruct (MappingState.index_of (Phase2Server.request_id r)
              (MappingState.proposals (Phase2Server.state self))) as [i|].
  - cbv zeta in Hdone. destruct Hdone as [[d Hd] ->].
    pose proof (decided_preserved (Phase2Server.verdict r) self i m d Hd) as Hkept.
    destruct (open_write m (Phase2Server.state_file self) _) as [e|m'] eqn:Hw;
      cbn [fst snd]; [exact Hkept|].
    exact (write_preserved _ _ _ _ _ Hkept Hw).
  - rewrite Hdone. apply preserved_refl.
Qed.

(** Proposals that answer to the same ids place by place give every id the
    same first proposal. *)
Lemma index_of_pointwise (proposal_id : string) (ps ps' : list value) :
  length ps' = length ps ->
  (forall i p', ps' !! i = Some p' ->
     exists p, ps !! i = Some p /\
               forall id, MappingState.has_proposal_id id p' =
                          MappingState.has_proposal_id id p) ->
  MappingState.index_of proposal_id ps' = MappingState.index_of proposal_id ps.
Proof.
  revert ps. induction ps' as [|p' ps' IH]; intros [|p ps] Hlen Hsame;
    try discriminate Hlen; [reflexivity|].
  cbn [MappingState.index_of].
  destruct (Hsame O p' eq_refl) as (p0 & Hp0 & Hid). injection Hp0 as <-.
  rewrite Hid. rewrite (IH ps); [reflexivity|simpl in Hlen; lia|].
  intros i q' Hq'. exact (Hsame (S i) q' Hq').
Qed.

(** X6.  Whatever requests the server handles, in whatever state it
    started: the state file stays the same path, no proposal is added,
    removed or moved, every proposal answers to the same id as before (so
    an id addresses the same proposal throughout), and no file other than
    the state file is touched. *)
Theorem X6_requests_keep_the_proposals_and_their_ids `{Serialization}
    (rs : list Phase2Server.request) (self : Phase2Server.t) (m : fs) :
  Phase2Invariant.preserved self (fst (Phase2Server.serve rs self m))
    m (snd (Phase2Server.serve rs self m)) /\
  forall proposal_id,
    MappingState.index_of proposal_id
      (MappingState.proposals (Phase2Server.state (fst (Phase2Server.serve rs self m)))) =
    MappingState.index_of proposal_id (MappingState.proposals (Phase2Server.state self)).
Proof.
  assert (Hkept : Phase2Invariant.preserved self (fst (Phase2Server.serve rs self m))
                    m (snd (Phase2Server.serve rs self m))).
  { revert self m. induction rs as [|r rs IH]; intros self m.
    - apply preserved_refl.
    - rewrite serve_cons. eapply preserved_trans; [apply handle_preserved|apply IH]. }
  split; [exact Hkept|].
  intros proposal_id. destruct Hkept as (_ & Hlen & Hsame & _).
  exact (index_of_pointwise _ _ _ Hlen Hsame).
Qed.

(** ** A state file that holds no mapping *)

(** X7.  [__init__] does not look at what the state file holds: when the
    file loads as something that is not a mapping (an empty file loads as
    [None]), the server is built all the same, and from then on the
    proposals route and every accept and reject request raise
    [AttributeError]; the requests change neither the server nor the file
    system. *)
Theorem X7_a_state_that_is_no_mapping `{Serialization}
    (m : fs) (file : path) (text : string) (v : value) :
  exists_ m file = true ->
  open_read m file = ok text ->
  yaml_safe_load text = ok v ->
  MappingState.is_record v = false ->
  let msg := "'" +:+ type_name v +:+ "' object has no attribute 'get'" in
  exists server,
    Phase2Server.__init__ m file = ok server /\
    Phase2Server.get_state server = v /\
    Phase2Server.get_proposals server = raise AttributeError msg /\
    forall r m', Phase2Server.handle r server m' = (raise AttributeError msg, server, m').
Proof.
  intros Hexists Hread Hload Hrec msg.
  exists {| Phase2Server.state_file := file; Phase2Server.state := v |}.
  split; [|split; [reflexivity|]].
  - unfold Phase2Server.__init__. rewrite Hexists, Hread. cbn [negb bind ok].
    rewrite Hload. reflexivity.
  - destruct v; try discriminate Hrec;
      (split; [reflexivity|intros [id|id] m'; reflexivity]).
Qed.

Lemma X7_witness :
  let text := Compact.encode VNone in
  let m : fs := {[ Demo.review_path := File text ]} in
  exists_ m Demo.review_path = true /\
  open_read m Demo.review_path = ok text /\
  yaml_safe_load text = ok VNone /\
  exists server,
    Phase2Server.__init__ m Demo.review_path = ok server /\
    Phase2Server.get_state server = VNone /\
    Phase2Server.get_proposals server =
      raise AttributeError "'NoneType' object has no attribute 'get'" /\
    forall r m',
      Phase2Server.handle r server m' =
      (raise AttributeError "'NoneType' object has no attribute 'get'", server, m').
Proof.
  cbv zeta.
  assert (H1 : exists_ ({[ Demo.review_path := File (Compact.encode VNone) ]} : fs)
                 Demo.review_path = true)
    by (vm_compute; reflexivity).
  assert (H2 : open_read ({[ Demo.review_path := File (Compact.encode VNone) ]} : fs)
                 Demo.review_path = ok (Compact.encode VNone))
    by (vm_compute; reflexivity).
  assert (H3 : yaml_safe_load (Compact.encode VNone) = ok VNone)
    by (vm_compute; reflexivity).
  split; [exact H1|]. split; [exact H2|]. split; [exact H3|].
  exact (X7_a_state_that_is_no_mapping _ Demo.review_path _ VNone H1 H2 H3 eq_refl).
Defined.

(** ** Where [save_state] can write, and what it leaves alone *)

Lemma os_mkdir_inv (m m1 : fs) (p : path) :
  os_mkdir m p = ok m1 -> m !! p = None /\ m1 = <[p := Dir]> m.
Proof.
  unfold os_mkdir. destruct (under_file m p) eqn:Hunder; [discriminate|].
  destruct (exists_ m p) eqn:Hex; [discriminate|].
  destruct (is_dir m (parent p)); [|discriminate]. intros [= <-].
  split; [|reflexivity].
  destruct p as [|c q]; [discriminate Hex|].
  unfold exists_ in Hex. rewrite Hunder in Hex. cbn [negb andb] in Hex.
  apply bool_decide_eq_false_1 in Hex.
  destruct (m !! (c :: q)) as [x|]; [|reflexivity].
  exfalso. apply Hex. eexists. reflexivity.
Qed.

Lemma is_dir_insert (m : fs) (p : path) : is_dir (<[p := Dir]> m) p = true.
Proof. destruct p; [reflexivity|]. unfold is_dir. rewrite lookup_insert_eq. reflexivity. Qed.

Lemma mkdir_exist_ok_inv (m m1 : fs) (p : path) :
  mkdir_exist_ok m p = ok m1 -> grown m m1 p /\ is_dir m1 p = true.
Proof.
  unfold mkdir_exist_ok. destruct (os_mkdir m p) as [e|m'] eqn:Hos.
  - destruct (exn_cls e); try discriminate;
      (destruct (is_dir m p) eqn:Hdir; [|discriminate]);
      intros [= <-]; (split; [apply grown_refl|exact Hdir]).
  - intros [= <-]. apply os_mkdir_inv in Hos as [Hnone ->].
    split; [apply grown_insert; exact Hnone|apply is_dir_insert].
Qed.

(** [Path.mkdir(parents=True, exist_ok=True)], when it returns, has only
    added directories on the way to the path, and the path is a directory. *)
Lemma mkdir_parents_inv (p : path) (m m1 : fs) :
  mkdir_parents m p = ok m1 -> grown m m1 p /\ is_dir m1 p = true.
Proof.
  revert m m1. induction p as [|c q IH]; intros m m1 Hm; cbn [mkdir_parents] in Hm.
  - split; [|reflexivity].
    destruct (os_mkdir m []) as [e|m'] eqn:Hos.
    + destruct (exn_cls e); try discriminate Hm;
        (destruct (is_dir m []); [|discriminate Hm]);
        injection Hm as <-; apply grown_refl.
    + injection Hm as <-. apply os_mkdir_inv in Hos as [Hnone ->].
      apply grown_insert. exact Hnone.
  - destruct (os_mkdir m (c :: q)) as [e|m'] eqn:Hos.
    + destruct (exn_cls e);
        try (destruct (is_dir m (c :: q)) eqn:Hdir; [|discriminate Hm];
             injection Hm as <-; split; [apply grown_refl|exact Hdir]).
      bind_inv Hm. destruct (IH _ _ Ha) as [Hgrown _].
      apply mkdir_exist_ok_inv in Hm as [Hstep Hdir].
      split; [exact (grown_step _ _ _ _ _ Hgrown Hstep)|exact Hdir].
    + injection Hm as <-. apply os_mkdir_inv in Hos as [Hnone ->].
      split; [apply grown_insert; exact Hnone|apply is_dir_insert].
Qed.

Lemma grown_files (m m1 : fs) (q p : path) (text : string) :
  grown m m1 q -> m1 !! p = Some (File text) <-> m !! p = Some (File text).
Proof.
  intros Hg. destruct (Hg p) as [->|(Hnone & Hdir & _)]; [reflexivity|].
  rewrite Hnone, Hdir. split; discriminate.
Qed.

Lemma grown_below (m m1 : fs) (c : string) (q : path) :
  grown m m1 q -> m1 !! (c :: q) = m !! (c :: q).
Proof.
  intros Hg. destruct (Hg (c :: q)) as [Heq|(_ & _ & Hsuf)]; [exact Heq|].
  apply suffix_length in Hsuf. simpl in Hsuf. lia.
Qed.

Lemma mkdir_parents_present (m : fs) (q : path) :
  under_file m q = false -> is_dir m q = true -> mkdir_parents m q = ok m.
Proof.
  intros Hunder Hdir. destruct q as [|c q]; cbn [mkdir_parents]; unfold os_mkdir;
    rewrite Hunder.
  - cbn [exists_ raise exn_cls is_dir]. reflexivity.
  - unfold exists_. rewrite Hunder. cbn [negb andb].
    unfold is_dir in Hdir. destruct (m !! (c :: q)) as [[|text]|] eqn:Hq;
      try discriminate Hdir.
    rewrite bool_decide_eq_true_2 by (eexists; reflexivity).
    cbn [raise exn_cls]. unfold is_dir. rewrite Hq. reflexivity.
Qed.

(** X8.  Once the mapper holds a state, [save_state] returns exactly when a
    file can be written at the path: no ancestor of the path is a regular
    file and the path is not a directory.  Returning or raising, it leaves
    every regular file other than the target with its content and creates
    no other file; when it raises, what is at the target is as before. *)
Theorem X8_save_state_returns_iff_writable `{Serialization}
    (self : Phase1Mapper.t) (st : value) (m : fs) (output : path) :
  Phase1Mapper._state self = Some st ->
  (fst (Phase1Mapper.save_state self m output) = ok tt <-> writable m output = true) /\
  (forall p text, p <> output ->
     snd (Phase1Mapper.save_state self m output) !! p = Some (File text) <->
     m !! p = Some (File text)) /\
  (fst (Phase1Mapper.save_state self m output) <> ok tt ->
   snd (Phase1Mapper.save_state self m output) !! output = m !! output).
Proof.
  intros Hst.
  assert (Hwrites : writable m output = true ->
                    fst (Phase1Mapper.save_state self m output) = ok tt).
  { intros Hw. destruct (save_state_writes self st m output Hst Hw) as (m1 & _ & _ & _ & ->).
    reflexivity. }
  revert Hwrites. unfold Phase1Mapper.save_state. rewrite Hst.
  destruct (mkdir_parents m (parent output)) as [e|m1] eqn:Hmk; cbn [fst snd].
  { intros Hwrites. split; [split; [discriminate|exact Hwrites]|].
    split; [reflexivity|reflexivity]. }
  pose proof Hmk as Hroot. apply mkdir_parents_inv in Hmk as [Hgrown Hdir].
  destruct (open_write m1 output (Phase1Mapper.header +:+ yaml_dump st)) as [e|m2] eqn:Hw;
    cbn [fst snd]; intros Hwrites.
  - split; [split; [discriminate|exact Hwrites]|].
    split; [intros p text _; exact (grown_files _ _ _ _ _ Hgrown)|].
    intros _. destruct output as [|c q].
    + cbn [parent tail] in Hroot.
      rewrite (mkdir_parents_present m [] eq_refl eq_refl) in Hroot.
      injection Hroot as <-. reflexivity.
    + exact (grown_below _ _ _ _ Hgrown).
  - apply open_write_inv in Hw as (-> & Hunder & Hnodir).
    destruct output as [|c q]; [discriminate Hnodir|]. cbn [parent tail] in Hgrown.
    split; [split; [intros _|reflexivity]|].
    + unfold writable. rewrite <- (grown_under_file _ _ _ (c :: q) Hgrown), Hunder.
      unfold is_dir in Hnodir |- *. rewrite <- (grown_below _ _ _ _ Hgrown).
      rewrite Hnodir. reflexivity.
    + split; [|intros Hne; contradiction Hne; reflexivity].
      intros p text Hp. rewrite lookup_insert_ne by congruence.
      exact (grown_files _ _ _ _ _ Hgrown).
Qed.

Lemma X8_witness :
  let self := Phase1Mapper.set_state Demo.mapper Demo.state in
  (fst (Phase1Mapper.save_state self Demo.disk Demo.state_path) = ok tt <->
   writable Demo.disk Demo.state_path = true) /\
  (forall p text, p <> Demo.state_path ->
     snd (Phase1Mapper.save_state self Demo.disk Demo.state_path) !! p = Some (File text) <->
     Demo.disk !! p = Some (File text)) /\
  (fst (Phase1Mapper.save_state self Demo.disk Demo.state_path) <> ok tt ->
   snd (Phase1Mapper.save_state self Demo.disk Demo.state_path) !! Demo.state_path =
   Demo.disk !! Demo.state_path).
Proof.
  exact (X8_save_state_returns_iff_writable
           (Phase1Mapper.set_state Demo.mapper Demo.state) Demo.state
           Demo.disk Demo.state_path eq_refl).
Defined.

(** A path whose parent is a regular file cannot be written: creating the
    parent directory raises. *)
Example save_under_a_file_raises :
  fst (Phase1Mapper.save_state (Phase1Mapper.set_state Demo.mapper Demo.state)
         Demo.disk ("state.yaml" :: Demo.scan_path)) =
  raise FileExistsError "File exists".
Proof. vm_compute. reflexivity. Qed.

(** X9.  Saving again into the path [save_state] has just written returns
    again and leaves the file system exactly as the first call left it. *)
Theorem X9_saving_twice_is_saving_once `{Serialization}
    (self : Phase1Mapper.t) (m m' : fs) (output : path) :
  Phase1Mapper.save_state self m output = (ok tt, m') ->
  Phase1Mapper.save_state self m' output = (ok tt, m').
Proof.
  unfold Phase1Mapper.save_state.
  destruct (Phase1Mapper._state self) as [st|]; [|discriminate].
  destruct (mkdir_parents m (parent output)) as [e|m1] eqn:Hmk; [discriminate|].
  apply mkdir_parents_inv in Hmk as [_ Hdir].
  destruct (open_write m1 output (Phase1Mapper.header +:+ yaml_dump st)) as [e|m2] eqn:Hw;
    [discriminate|].
  intros [= <-]. pose proof Hw as Hinv.
  apply open_write_inv in Hinv as (-> & Hunder & Hnodir).
  destruct output as [|c q]; [discriminate Hnodir|]. cbn [parent tail] in Hdir |- *.
  pose proof Hunder as Hq. cbn [under_file] in Hq. apply orb_false_elim in Hq as [_ Hq].
  rewrite mkdir_parents_present.
  - unfold ok at 1. cbv beta iota.
    destruct (open_write_again _ _ _ _ (Phase1Mapper.header +:+ yaml_dump st) Hw)
      as [-> _].
    reflexivity.
  - rewrite under_file_insert by (simpl; lia). exact Hq.
  - destruct q as [|c' q']; [reflexivity|]. unfold is_dir in Hdir |- *.
    rewrite lookup_insert_ne
      by (intros Heq; apply (f_equal length) in Heq; simpl in Heq; lia).
    exact Hdir.
Qed.

Lemma X9_witness :
  let self := Phase1Mapper.set_state Demo.mapper Demo.state in
  let m' := snd (Phase1Mapper.save_state self Demo.disk Demo.state_path) in
  Phase1Mapper.save_state self Demo.disk Demo.state_path = (ok tt, m') /\
  Phase1Mapper.save_state self m' Demo.state_path = (ok tt, m').
Proof.
  cbv zeta.
  assert (H1 : Phase1Mapper.save_state (Phase1Mapper.set_state Demo.mapper Demo.state)
                 Demo.disk Demo.state_path =
               (ok tt, snd (Phase1Mapper.save_state
                              (Phase1Mapper.set_state Demo.mapper Demo.state)
                              Demo.disk Demo.state_path)))
    by (vm_compute; reflexivity).
  split; [exact H1|].
  exact (X9_saving_twice_is_saving_once _ _ _ _ H1).
Defined.

(** ** The decisions file *)

Lemma map_basic_any_mapper (self self0 self' : Phase1Mapper.t)
    (scan decisions decisions0 st : value) :
  Phase1Mapper._map_basic self scan decisions = ok (st, self') ->
  Phase1Mapper._map_basic self0 scan decisions0 = ok (st, Phase1Mapper.set_state self0 st).
Proof.
  unfold Phase1Mapper._map_basic. intros Hst.
  apply bind_ok in Hst as (ous & -> & Hst). cbn [bind ok].
  apply bind_ok in Hst as (ou_items & -> & Hst). cbn [bind ok].
  apply bind_ok in Hst as (zones & -> & Hst). cbn [bind ok].
  apply bind_ok in Hst as (accounts & -> & Hst). cbn [bind ok].
  apply bind_ok in Hst as (account_items & -> & Hst). cbn [bind ok].
  apply bind_ok in Hst as (subtenants & -> & Hst). cbn [bind ok].
  apply bind_ok in Hst as (ps & -> & Hst). cbn [bind ok].
  injection Hst as <- _. reflexivity.
Qed.

(** X10.  The decisions file has no part in the mapping: when it can be
    read and parsed, [run] returns the very state it returns for the same
    scan file with no decisions file given. *)
Theorem X10_decisions_do_not_change_the_state `{Serialization}
    (self : Phase1Mapper.t) (m : fs) (decisions : value) :
  Phase1Mapper.load_decisions self m = ok decisions ->
  let plain := {| Phase1Mapper.scan_file := Phase1Mapper.scan_file self;
                  Phase1Mapper.decisions_file := None;
                  Phase1Mapper._state := Phase1Mapper._state self |} in
  forall st,
    (exists self', Phase1Mapper.run self m = ok (st, self')) <->
    (exists self', Phase1Mapper.run plain m = ok (st, self')).
Proof.
  intros Hdec plain st. unfold Phase1Mapper.run. rewrite Hdec.
  unfold Phase1Mapper.load_scan, Phase1Mapper.load_decisions.
  cbn [Phase1Mapper.scan_file Phase1Mapper.decisions_file plain].
  destruct (let* text := open_read m (Phase1Mapper.scan_file self) in json_load text)
    as [e|scan]; cbn [bind ok].
  - split; intros [self' Hrun]; discriminate Hrun.
  - split; intros [self' Hrun]; eexists;
      exact (map_basic_any_mapper _ _ _ _ _ _ _ Hrun).
Qed.

Lemma X10_witness :
  let decisions_path : path := ["decisions.yaml"; "work"] in
  let decisions := VDict [("tenant_grouping", VStr "by-unit")] in
  let m : fs := <[decisions_path := File (Compact.encode decisions)]> Demo.disk in
  let self := {| Phase1Mapper.scan_file := Demo.scan_path;
                 Phase1Mapper.decisions_file := Some decisions_path;
                 Phase1Mapper._state := None |} in
  Phase1Mapper.load_decisions self m = ok decisions /\
  ((exists self', Phase1Mapper.run self m = ok (Demo.state, self')) <->
   (exists self', Phase1Mapper.run Demo.mapper m = ok (Demo.state, self'))).
Proof.
  cbv zeta. split; [vm_compute; reflexivity|].
  refine (X10_decisions_do_not_change_the_state
            {| Phase1Mapper.scan_file := Demo.scan_path;
               Phase1Mapper.decisions_file := Some ["decisions.yaml"; "work"];
               Phase1Mapper._state := None |}
            (<[["decisions.yaml"; "work"] :=
                 File (Compact.encode (VDict [("tenant_grouping", VStr "by-unit")]))]>
               Demo.disk)
            (VDict [("tenant_grouping", VStr "by-unit")]) _ Demo.state).
  vm_compute. reflexivity.
Defined.

(** A decisions file that does not parse makes [run] raise all the same. *)
Example malformed_decisions_fail_the_run :
  Phase1Mapper.run
    {| Phase1Mapper.scan_file := Demo.scan_path;
       Phase1Mapper.decisions_file := Some ["decisions.yaml"; "work"];
       Phase1Mapper._state := None |}
    (<[["decisions.yaml"; "work"] := File "?"]> Demo.disk) =
  raise YAMLError "malformed document".
Proof. vm_compute. reflexivity. Qed.

(** ** What counts as Cypher *)

Lemma is_space_upper (c : ascii) : Str.is_space c = true -> Str.upper_char c = c.
Proof.
  destruct c as [[] [] [] [] [] [] [] []]; intros Hc; try reflexivity; discriminate Hc.
Qed.

Lemma upper_app (a b : string) : Str.upper (a +:+ b) = Str.upper a +:+ Str.upper b.
Proof.
  induction a as [|c a IH]; [reflexivity|].
  change (String (Str.upper_char c) (Str.upper (a +:+ b)) =
          String (Str.upper_char c) (Str.upper a +:+ Str.upper b)).
  rewrite IH. reflexivity.
Qed.

Lemma startswith_app (p s : string) : Str.startswith p (p +:+ s) = true.
Proof.
  induction p as [|c p IH]; [reflexivity|].
  change (Ascii.eqb c c && Str.startswith p (p +:+ s) = true).
  rewrite Ascii.eqb_refl, IH. reflexivity.
Qed.

(** A prefix without white space is found in the upper-cased text whether
    or not the white space at the end was stripped. *)
Lemma startswith_upper_rstrip (p s : string) :
  forallb (fun a => negb (Str.is_space a)) (list_ascii_of_string p) = true ->
  Str.startswith p (Str.upper (Str.rstrip s)) = Str.startswith p (Str.upper s).
Proof.
  revert p. induction s as [|c s IH]; intros p Hp; [reflexivity|].
  destruct p as [|a p]; [reflexivity|].
  cbn [list_ascii_of_string forallb] in Hp. apply andb_prop in Hp as [Ha Hp].
  specialize (IH p Hp). cbn [Str.rstrip].
  destruct (Str.rstrip s) as [|c' s'].
  - destruct (Str.is_space c) eqn:Hc.
    + change (false = Ascii.eqb a (Str.upper_char c) && Str.startswith p (Str.upper s)).
      rewrite (is_space_upper c Hc).
      destruct (Ascii.eqb_spec a c) as [->|_]; [|reflexivity].
      rewrite Hc in Ha. discriminate Ha.
    + change (Ascii.eqb a (Str.upper_char c) && Str.startswith p (Str.upper "") =
              Ascii.eqb a (Str.upper_char c) && Str.startswith p (Str.upper s)).
      rewrite IH. reflexivity.
  - change (Ascii.eqb a (Str.upper_char c) &&
              Str.startswith p (Str.upper (String c' s')) =
            Ascii.eqb a (Str.upper_char c) && Str.startswith p (Str.upper s)).
    rewrite IH. reflexivity.
Qed.

Lemma keywords_have_no_space (kw : string) :
  In kw AnalystQuery.cypher_keywords ->
  kw <> "" /\ forallb (fun a => negb (Str.is_space a)) (list_ascii_of_string kw) = true.
Proof.
  unfold AnalystQuery.cypher_keywords. cbn [In].
  intros [<-|[<-|[<-|[<-|[<-|[<-|[<-|[]]]]]]]]; (split; [discriminate|reflexivity]).
Qed.

Lemma is_cypher_keyword_prefix (kw word rest : string) :
  In kw AnalystQuery.cypher_keywords -> Str.upper word = kw ->
  AnalystQuery._is_cypher (word +:+ rest) = true.
Proof.
  intros Hkw Hword. destruct (keywords_have_no_space kw Hkw) as [Hne Hnospace].
  unfold AnalystQuery._is_cypher, Str.startswith_any.
  apply existsb_exists. exists kw. split; [exact Hkw|].
  unfold Str.strip.
  assert (Hl : Str.lstrip (word +:+ rest) = word +:+ rest).
  { destruct word as [|c w]; [contradiction Hne; symmetry; exact Hword|].
    subst kw. cbn [list_ascii_of_string forallb] in Hnospace.
    change (Str.upper (String c w)) with (String (Str.upper_char c) (Str.upper w))
      in Hnospace.
    cbn [list_ascii_of_string forallb] in Hnospace.
    apply andb_prop in Hnospace as [Hc _].
    change (Str.lstrip (String c (w +:+ rest)) = String c (w +:+ rest)).
    cbn [Str.lstrip]. destruct (Str.is_space c) eqn:Hsp; [|reflexivity].
    rewrite (is_space_upper c Hsp), Hsp in Hc. discriminate Hc. }
  rewrite Hl, (startswith_upper_rstrip _ _ Hnospace), upper_app, Hword.
  apply startswith_app.
Qed.

(** X11.  A text that begins with one of the seven keywords, in any letter
    case and whatever follows it (the keyword need not end a word), counts
    as Cypher: [execute] hands the whole text to [_execute_cypher] and no
    translation is tried. *)
Theorem X11_text_starting_with_a_keyword_is_run_as_cypher (db : AnalystQuery.neo4j)
    (self : AnalystQuery.t) (kw word rest : string) :
  In kw AnalystQuery.cypher_keywords ->
  Str.upper word = kw ->
  AnalystQuery._is_cypher (word +:+ rest) = true /\
  AnalystQuery.execute db self (word +:+ rest) =
    AnalystQuery._execute_cypher db self (word +:+ rest).
Proof.
  intros Hkw Hword. pose proof (is_cypher_keyword_prefix kw word rest Hkw Hword) as Hc.
  split; [exact Hc|]. unfold AnalystQuery.execute. rewrite Hc. reflexivity.
Qed.

Lemma X11_witness :
  In "WITH" AnalystQuery.cypher_keywords /\
  Str.upper "With" = "WITH" /\
  AnalystQuery._is_cypher "Without a VPC, which accounts are left?" = true /\
  AnalystQuery.execute Demo.db_up Demo.analyst "Without a VPC, which accounts are left?" =
    AnalystQuery._execute_cypher Demo.db_up Demo.analyst
      "Without a VPC, which accounts are left?".
Proof.
  assert (H1 : In "WITH" AnalystQuery.cypher_keywords) by (cbn; tauto).
  split; [exact H1|]. split; [reflexivity|].
  exact (X11_text_starting_with_a_keyword_is_run_as_cypher Demo.db_up Demo.analyst
           "WITH" "With" "out a VPC, which accounts are left?" H1 eq_refl).
Defined.

(** ** The queries the database receives *)

(** X12.  The only query texts that reach a database session are the
    text the user typed, when it counts as Cypher, and otherwise the
    template [_translate_basic] picks for the question.  A template is one
    of the seven of the table: it begins with [MATCH] and has no [CREATE],
    [MERGE], [DELETE], [SET], [REMOVE] or [DROP] in it, so a question in
    natural language never writes to the database. *)
Theorem X12_what_reaches_the_database (db : AnalystQuery.neo4j) (self : AnalystQuery.t)
    (question c : string) :
  In (AnalystQuery.Call_session_run c)
     (AnalystQuery.trace (AnalystQuery.execute db self question)) ->
  (AnalystQuery._is_cypher question = true /\ c = question) \/
  (AnalystQuery._is_cypher question = false /\
   AnalystQuery._translate_basic question = Some c /\
   In c (List.map snd AnalystQuery.patterns) /\
   Str.startswith "MATCH " c = true /\
   forallb (fun w => negb (Str.contains w c))
     ["CREATE"; "MERGE"; "DELETE"; "SET "; "REMOVE"; "DROP"] = true).
Proof.
  unfold AnalystQuery.execute.
  destruct (AnalystQuery._is_cypher question).
  - intros Hc. left. split; [reflexivity|exact (execute_cypher_session_run _ _ _ _ Hc)].
  - intros Hc. right. split; [reflexivity|].
    assert (Hbasic : AnalystQuery._translate_basic question = Some c).
    { cbn [AnalystQuery.prepend AnalystQuery.trace app In] in Hc.
      destruct Hc as [Hc|Hc]; [discriminate Hc|].
      unfold AnalystQuery._execute_natural_language in Hc.
      destruct (AnalystQuery.llm_enabled self).
      - cbn [AnalystQuery._translate_with_llm AnalystQuery.nonempty
             AnalystQuery.prepend AnalystQuery.trace app In] in Hc.
        destruct Hc as [Hc|Hc]; [discriminate Hc|].
        exact (fallback_session_run _ _ _ _ Hc).
      - exact (fallback_session_run _ _ _ _ Hc). }
    split; [exact Hbasic|].
    pose proof (first_match_In _ _ _ Hbasic) as Hin. split; [exact Hin|].
    cbn [AnalystQuery.patterns List.map snd In] in Hin.
    destruct Hin as [<-|[<-|[<-|[<-|[<-|[<-|[<-|[]]]]]]]];
      (split; vm_compute; reflexivity).
Qed.

Lemma X12_witness :
  In (AnalystQuery.Call_session_run
        "MATCH (s:Subnet) RETURN s.id as id, s.cidr as cidr, s.availability_zone as az LIMIT 50")
     (AnalystQuery.trace
        (AnalystQuery.execute Demo.db_up Demo.analyst "Which subnets are there?")) /\
  AnalystQuery._translate_basic "Which subnets are there?" =
    Some "MATCH (s:Subnet) RETURN s.id as id, s.cidr as cidr, s.availability_zone as az LIMIT 50".
Proof.
  assert (H1 : In (AnalystQuery.Call_session_run
                     "MATCH (s:Subnet) RETURN s.id as id, s.cidr as cidr, s.availability_zone as az LIMIT 50")
                  (AnalystQuery.trace
                     (AnalystQuery.execute Demo.db_up Demo.analyst
                        "Which subnets are there?")))
    by (vm_compute; tauto).
  split; [exact H1|].
  destruct (X12_what_reaches_the_database _ _ _ _ H1) as [[Hc _]|(_ & Hbasic & _)].
  - discriminate Hc.
  - exact Hbasic.
Defined.

(** ** Which question gets which template *)

Lemma string_app_assoc (a b c : string) : (a +:+ b) +:+ c = a +:+ (b +:+ c).
Proof.
  induction a as [|x a IH]; [reflexivity|].
  change (String x ((a +:+ b) +:+ c) = String x (a +:+ (b +:+ c))).
  rewrite IH. reflexivity.
Qed.

Lemma startswith_spec (p s : string) :
  Str.startswith p s = true <-> exists post, s = p +:+ post.
Proof.
  revert s. induction p as [|a p IH]; intros s.
  - split; [intros _; exists s; reflexivity|destruct s; reflexivity].
  - destruct s as [|b s]; cbn [Str.startswith].
    + split; [discriminate|intros [post Hpost]; discriminate Hpost].
    + rewrite andb_true_iff, IH. split.
      * intros [Hab [post ->]]. apply Ascii.eqb_eq in Hab as ->.
        exists post. reflexivity.
      * intros [post Hpost].
        change (String b s = String a (p +:+ post)) in Hpost.
        injection Hpost as -> ->. split; [apply Ascii.eqb_refl|].
        exists post. reflexivity.
Qed.

Lemma contains_spec (p s : string) :
  Str.contains p s = true <-> exists pre post, s = pre +:+ (p +:+ post).
Proof.
  induction s as [|b s IH].
  - cbn [Str.contains]. rewrite orb_false_r, startswith_spec. split.
    + intros [post Hpost]. exists "", post. exact Hpost.
    + intros (pre & post & Hs). destruct pre as [|x pre]; [|discriminate Hs].
      exists post. exact Hs.
  - cbn [Str.contains]. rewrite orb_true_iff, startswith_spec, IH. split.
    + intros [[post Hpost]|(pre & post & ->)].
      * exists "", post. exact Hpost.
      * exists (String b pre), post. reflexivity.
    + intros (pre & post & Hs). destruct pre as [|x pre].
      * left. exists post. exact Hs.
      * right. change (String b s = String x (pre +:+ (p +:+ post))) in Hs.
        injection Hs as _ ->. exists pre, post. reflexivity.
Qed.

(** A text that contains [a] followed by [b] contains [b]. *)
Lemma contains_tail (a b s : string) :
  Str.contains (a +:+ b) s = true -> Str.contains b s = true.
Proof.
  rewrite !contains_spec. intros (pre & post & ->).
  exists (pre +:+ a), post. rewrite !string_app_assoc. reflexivity.
Qed.

(** X13.  A question gets the production-accounts query exactly when it
    says "production" and does not say "accounts" (in any letter case).  The
    first row of the table already takes every question that says
    "accounts", so the keyword "prod accounts" of the second row never
    selects anything. *)
Theorem X13_which_questions_get_the_production_query (question : string) :
  AnalystQuery._translate_basic question =
    Some "MATCH (a:AWSAccount) WHERE a.name CONTAINS 'prod' OR a.name CONTAINS 'production' RETURN a.name as name, a.id as id"
  <->
  Str.contains "production" (Str.lower question) = true /\
  Str.contains "accounts" (Str.lower question) = false.
Proof.
  unfold AnalystQuery._translate_basic. generalize (Str.lower question). intros q.
  cbn [AnalystQuery.patterns AnalystQuery.first_match existsb].
  destruct (Str.contains "accounts" q) eqn:Haccounts; cbn [orb].
  { split; [discriminate|intros [_ Hno]; discriminate Hno]. }
  assert (Haws : Str.contains "aws accounts" q = false).
  { destruct (Str.contains "aws accounts" q) eqn:Hc; [|reflexivity].
    rewrite (contains_tail "aws " "accounts" q Hc) in Haccounts. discriminate. }
  assert (Hall : Str.contains "all accounts" q = false).
  { destruct (Str.contains "all accounts" q) eqn:Hc; [|reflexivity].
    rewrite (contains_tail "all " "accounts" q Hc) in Haccounts. discriminate. }
  assert (Hprod : Str.contains "prod accounts" q = false).
  { destruct (Str.contains "prod accounts" q) eqn:Hc; [|reflexivity].
    rewrite (contains_tail "prod " "accounts" q Hc) in Haccounts. discriminate. }
  rewrite Haws, Hall, Hprod. cbn [orb].
  destruct (Str.contains "production" q); cbn [orb].
  - split; [intros _; split; reflexivity|reflexivity].
  - split; [|intros [Hno _]; discriminate Hno]. intros Hq. exfalso.
    repeat match type of Hq with
           | (if ?b then _ else _) = _ => destruct b; [discriminate Hq|]
           end.
    discriminate Hq.
Qed.

(** The example of the command's own help text is answered with the query
    for all accounts. *)
Example show_all_production_accounts :
  AnalystQuery._translate_basic "Show all production accounts" =
  Some "MATCH (a:AWSAccount) RETURN a.name as name, a.id as id LIMIT 50".
Proof. vm_compute. reflexivity. Qed.

(** ** The driver is created once *)

(** X14.  Once the object holds a driver, answering a question makes no
    call of [GraphDatabase.driver]: the outcome is the same whatever that
    call would do, and the object still holds the same driver afterwards. *)
Theorem X14_a_held_driver_is_reused (db : AnalystQuery.neo4j) (self : AnalystQuery.t)
    (d : AnalystQuery.driver) (question : string) :
  AnalystQuery._driver self = Some d ->
  (forall create,
     AnalystQuery.execute
       {| AnalystQuery.GraphDatabase_driver := create;
          AnalystQuery.session_run := AnalystQuery.session_run db |} self question =
     AnalystQuery.execute db self question) /\
  AnalystQuery.final (AnalystQuery.execute db self question) = self.
Proof.
  intros Hd.
  assert (Hcypher : forall db' cypher,
            AnalystQuery.session_run db' = AnalystQuery.session_run db ->
            AnalystQuery._execute_cypher db' self cypher =
            AnalystQuery.Outcome
              [AnalystQuery.Call_execute_cypher cypher; AnalystQuery.Call_session_run cypher]
              self
              (match AnalystQuery.session_run db d cypher with
               | inr records =>
                   ok (VDict [("cypher", VStr cypher);
                              ("data", VList records);
                              ("explanation",
                               VStr ("Executed Cypher query, returned "
                                     +:+ Str.of_Z (Z.of_nat (length records))
                                     +:+ " results."))])
               | inl e =>
                   ok (VDict [("cypher", VStr cypher);
                              ("data", VList []);
                              ("error", VStr (str_exn e))])
               end)).
  { intros db' cypher Hrun. unfold AnalystQuery._execute_cypher, AnalystQuery._get_driver.
    rewrite Hd, Hrun. reflexivity. }
  assert (Hfallback : forall db',
            AnalystQuery.session_run db' = AnalystQuery.session_run db ->
            AnalystQuery.fallback db' self question = AnalystQuery.fallback db self question /\
            AnalystQuery.final (AnalystQuery.fallback db self question) = self).
  { intros db' Hrun. unfold AnalystQuery.fallback.
    destruct (AnalystQuery.nonempty (AnalystQuery._translate_basic question)) as [cy|].
    - rewrite (Hcypher db' cy Hrun), (Hcypher db cy eq_refl). split; reflexivity.
    - split; reflexivity. }
  assert (Hexec : forall db',
            AnalystQuery.session_run db' = AnalystQuery.session_run db ->
            AnalystQuery.execute db' self question = AnalystQuery.execute db self question /\
            AnalystQuery.final (AnalystQuery.execute db self question) = self).
  { intros db' Hrun. unfold AnalystQuery.execute.
    destruct (AnalystQuery._is_cypher question).
    - rewrite (Hcypher db' question Hrun), (Hcypher db question eq_refl).
      split; reflexivity.
    - unfold AnalystQuery._execute_natural_language.
      destruct (Hfallback db' Hrun) as [Hsame Hfinal].
      destruct (AnalystQuery.llm_enabled self);
        cbn [AnalystQuery._translate_with_llm AnalystQuery.nonempty
             AnalystQuery.prepend AnalystQuery.final];
        rewrite Hsame; split; (reflexivity || exact Hfinal). }
  split.
  - intros create. apply Hexec. reflexivity.
  - apply (Hexec db). reflexivity.
Qed.

Lemma X14_witness :
  let self := AnalystQuery.final
                (AnalystQuery.execute Demo.db_up Demo.analyst "MATCH (n) RETURN n") in
  AnalystQuery._driver self =
    Some (AnalystQuery.Driver "bolt://localhost:7687" "neo4j" (Some "secret")) /\
  (forall create,
     AnalystQuery.execute
       {| AnalystQuery.GraphDatabase_driver := create;
          AnalystQuery.session_run := AnalystQuery.session_run Demo.db_up |}
       self "Show all accounts" =
     AnalystQuery.execute Demo.db_up self "Show all accounts") /\
  AnalystQuery.final (AnalystQuery.execute Demo.db_up self "Show all accounts") = self.
Proof.
  cbv zeta. split; [reflexivity|].
  exact (X14_a_held_driver_is_reused Demo.db_up
           (AnalystQuery.final
              (AnalystQuery.execute Demo.db_up Demo.analyst "MATCH (n) RETURN n"))
           (AnalystQuery.Driver "bolt://localhost:7687" "neo4j" (Some "secret"))
           "Show all accounts" eq_refl).
Defined.

(** ** The command [analyst query] *)

Lemma for_rows_echo (f : value -> string) (rows : list value) :
  Cli.for_rows (fun row => Cli.echo (f row)) rows = (List.map f rows, None).
Proof.
  induction rows as [|row rows IH]; [reflexivity|].
  cbn [Cli.for_rows]. rewrite IH. reflexivity.
Qed.

Lemma chosen_nonempty (question c : string) :
  AnalystCli.chosen question = Some c -> truthy (VStr c) = true.
Proof.
  unfold AnalystCli.chosen. destruct (AnalystQuery._is_cypher question) eqn:Hq.
  - intros [= <-]. destruct question; [discriminate Hq|reflexivity].
  - destruct (AnalystQuery._translate_basic question) as [s|]; [|discriminate].
    cbn [AnalystQuery.nonempty truthy]. destruct (String.eqb s "") eqn:Hs; [discriminate|].
    intros [= <-]. rewrite Hs. reflexivity.
Qed.

(** What [execute] returns on an object that holds no driver yet, by the
    query text it runs. *)
Lemma execute_chosen (db : AnalystQuery.neo4j) (uri user : string)
    (password : option string) (cfg : option AnalystQuery.llm_provider)
    (question c : string) :
  AnalystCli.chosen question = Some c ->
  AnalystQuery.returned
    (AnalystQuery.execute db (AnalystQuery.__init__ uri user password cfg) question) =
  match AnalystQuery.GraphDatabase_driver db uri user password with
  | inl e => inl e
  | inr d =>
      let tail := if AnalystQuery._is_cypher question then []
                  else [("original_question", VStr question)] in
      match AnalystQuery.session_run db d c with
      | inr records =>
          ok (VDict ([("cypher", VStr c);
                      ("data", VList records);
                      ("explanation",
                       VStr ("Executed Cypher query, returned "
                             +:+ Str.of_Z (Z.of_nat (length records))
                             +:+ " results."))] ++ tail)%list)
      | inl e =>
          ok (VDict ([("cypher", VStr c);
                      ("data", VList []);
                      ("error", VStr (str_exn e))] ++ tail)%list)
      end
  end.
Proof.
  intros Hc. rewrite execute_returned. unfold AnalystCli.chosen in Hc.
  assert (Hrun : forall cy,
    AnalystQuery.returned
      (AnalystQuery._execute_cypher db (AnalystQuery.__init__ uri user password cfg) cy) =
    match AnalystQuery.GraphDatabase_driver db uri user password with
    | inl e => inl e
    | inr d =>
        ok match AnalystQuery.session_run db d cy with
           | inr records =>
               VDict [("cypher", VStr cy);
                      ("data", VList records);
                      ("explanation",
                       VStr ("Executed Cypher query, returned "
                             +:+ Str.of_Z (Z.of_nat (length records))
                             +:+ " results."))]
           | inl e =>
               VDict [("cypher", VStr cy);
                      ("data", VList []);
                      ("error", VStr (str_exn e))]
           end
    end).
  { intros cy.
    destruct (AnalystQuery.GraphDatabase_driver db uri user password) as [e|d] eqn:Hd.
    - apply (execute_cypher_raises _ _ (AnalystQuery.__init__ uri user password cfg)).
      unfold AnalystQuery._get_driver. cbn [AnalystQuery.__init__ AnalystQuery._driver
        AnalystQuery.neo4j_uri AnalystQuery.neo4j_user AnalystQuery.neo4j_password].
      rewrite Hd. reflexivity.
    - apply (execute_cypher_returned _ _
               (AnalystQuery.set_driver (AnalystQuery.__init__ uri user password cfg)
                  (Some d))).
      unfold AnalystQuery._get_driver. cbn [AnalystQuery.__init__ AnalystQuery._driver
        AnalystQuery.neo4j_uri AnalystQuery.neo4j_user AnalystQuery.neo4j_password].
      rewrite Hd. reflexivity. }
  destruct (AnalystQuery._is_cypher question).
  - injection Hc as <-. rewrite Hrun.
    destruct (AnalystQuery.GraphDatabase_driver db uri user password) as [e|d];
      [reflexivity|].
    cbv zeta. destruct (AnalystQuery.session_run db d question); reflexivity.
  - rewrite Hc. unfold AnalystQuery.with_question. cbn [AnalystQuery.returned].
    rewrite Hrun.
    destruct (AnalystQuery.GraphDatabase_driver db uri user password) as [e|d];
      [reflexivity|].
    cbv zeta. destruct (AnalystQuery.session_run db d c); reflexivity.
Qed.

Lemma execute_not_chosen (db : AnalystQuery.neo4j) (self : AnalystQuery.t)
    (question : string) :
  AnalystCli.chosen question = None ->
  AnalystQuery.returned (AnalystQuery.execute db self question) =
  ok (VDict [("cypher", VNone);
             ("data", VList []);
             ("error",
              VStr ("Could not translate question to Cypher. "
                    +:+ "LLM integration required for natural language queries."));
             ("original_question", VStr question)]).
Proof.
  intros Hc. rewrite execute_returned. unfold AnalystCli.chosen in Hc.
  destruct (AnalystQuery._is_cypher question); [discriminate Hc|].
  rewrite Hc. reflexivity.
Qed.

(** The output of the [text] branch on a result as [execute] builds it. *)
Lemma render_text_result (d : list (string * value)) (explanation : option string)
    (cypher : value) (records : list value) :
  dict_lookup d "explanation" = option_map VStr explanation ->
  dict_lookup d "cypher" = Some cypher ->
  dict_lookup d "data" = Some (VList records) ->
  AnalystCli.render_text (VDict d) =
  ((match explanation with
    | Some ex => if String.eqb ex "" then [] else [ex]
    | None => []
    end ++
    (if truthy cypher then [Cli.nl +:+ "Cypher query: " +:+ py_str cypher] else []) ++
    match records with
    | [] => []
    | _ =>
        (Cli.nl +:+ "Results: " +:+ Str.of_Z (Z.of_nat (length records)) +:+ " rows")
        :: List.map (fun row => "  " +:+ py_str row) (firstn 10 records) ++
           (if 10 <? Z.of_nat (length records)
            then ["  ... and " +:+ Str.of_Z (Z.of_nat (length records) - 10) +:+ " more"]
            else [])
    end)%list, None).
Proof.
  intros Hex Hcy Hdata. unfold AnalystCli.render_text, AnalystCli.when.
  cbn [py_get py_getitem Cli.eval ok]. rewrite Hex, Hcy, Hdata.
  destruct explanation as [ex|]; cbn [option_map truthy Cli.eval ok];
    try destruct (String.eqb ex ""); cbn [negb]; destruct (truthy cypher);
    destruct records as [|row rows];
    cbn [Cli.then_ Cli.skip Cli.echo Cli.eval ok fst snd app py_len py_iter
         Cli.py_slice_to];
    rewrite ?for_rows_echo;
    try destruct (10 <? Z.of_nat (length (row :: rows))); reflexivity.
Qed.

Lemma render_table_result (d : list (string * value)) (records : list value) :
  dict_lookup d "data" = Some (VList records) ->
  AnalystCli.render_table (VDict d) = (List.map Cli.echo_text records, None).
Proof.
  intros Hdata. unfold AnalystCli.render_table, AnalystCli.when.
  cbn [py_get py_getitem Cli.eval ok]. rewrite Hdata. cbn [truthy].
  destruct records as [|row rows]; [reflexivity|].
  cbn [py_iter Cli.eval ok]. apply for_rows_echo.
Qed.

(** X15.  When the query ran, [analyst query] in the text format prints,
    after the question: the explanation with the number of results, the
    query text, and, when there are results, their number followed by the
    first ten rows at most and by the count of the rows left out when there
    are more than ten.  The command ends with exit code 0. *)
Theorem X15_query_prints_at_most_ten_rows (json_dumps : value -> string)
    (db : AnalystQuery.neo4j) (verbose : bool) (cfg : option AnalystQuery.llm_provider)
    (question uri user password c : string) (d : AnalystQuery.driver)
    (records : list value) :
  AnalystCli.chosen question = Some c ->
  AnalystQuery.GraphDatabase_driver db uri user (Some password) = ok d ->
  AnalystQuery.session_run db d c = ok records ->
  let n := Z.of_nat (length records) in
  AnalystCli.query json_dumps db verbose cfg question uri user password AnalystCli.text =
  Cli.Output
    (["Query: " +:+ question +:+ Cli.nl;
      "Executed Cypher query, returned " +:+ Str.of_Z n +:+ " results.";
      Cli.nl +:+ "Cypher query: " +:+ c] ++
     match records with
     | [] => []
     | _ =>
         (Cli.nl +:+ "Results: " +:+ Str.of_Z n +:+ " rows")
         :: List.map (fun row => "  " +:+ py_str row) (firstn 10 records) ++
            (if 10 <? n then ["  ... and " +:+ Str.of_Z (n - 10) +:+ " more"] else [])
     end)%list [] 0.
Proof.
  intros Hc Hd Hrun n. subst n. unfold AnalystCli.query.
  rewrite (execute_chosen _ _ _ _ _ _ _ Hc), Hd. unfold ok in Hrun |- *.
  cbv beta iota zeta. rewrite Hrun. cbv beta iota. cbn [AnalystCli.render].
  rewrite (render_text_result _
             (Some ("Executed Cypher query, returned "
                    +:+ Str.of_Z (Z.of_nat (length records)) +:+ " results."))
             (VStr c) records);
    [|destruct (AnalystQuery._is_cypher question); reflexivity ..].
  rewrite (chosen_nonempty _ _ Hc). reflexivity.
Qed.

Lemma X15_witness :
  AnalystCli.chosen "Show all accounts" =
    Some "MATCH (a:AWSAccount) RETURN a.name as name, a.id as id LIMIT 50" /\
  AnalystCli.query Compact.encode Demo.db_up false None "Show all accounts"
    "bolt://localhost:7687" "neo4j" "secret" AnalystCli.text =
  Cli.Output
    ["Query: Show all accounts" +:+ Cli.nl;
     "Executed Cypher query, returned 1 results.";
     Cli.nl +:+ "Cypher query: MATCH (a:AWSAccount) RETURN a.name as name, a.id as id LIMIT 50";
     Cli.nl +:+ "Results: 1 rows";
     "  {'name': 'prod-account', 'id': '111'}"] [] 0.
Proof.
  split; [reflexivity|].
  exact (X15_query_prints_at_most_ten_rows Compact.encode Demo.db_up false None
           "Show all accounts" "bolt://localhost:7687" "neo4j" "secret"
           "MATCH (a:AWSAccount) RETURN a.name as name, a.id as id LIMIT 50"
           (AnalystQuery.Driver "bolt://localhost:7687" "neo4j" (Some "secret"))
           [VDict [("name", VStr "prod-account"); ("id", VStr "111")]]
           eq_refl eq_refl eq_refl).
Defined.

(** X16.  When the result [execute] returns carries an error text (the
    session raised, or no query was found for the question), [analyst
    query] does not show it: the text format prints the question and, if a
    query was run, its text; the table format prints the question alone;
    nothing goes to standard error and the exit code is 0. *)
Theorem X16_query_does_not_report_a_failed_query (json_dumps : value -> string)
    (db : AnalystQuery.neo4j) (verbose : bool) (cfg : option AnalystQuery.llm_provider)
    (question uri user password msg : string) (r : value) :
  AnalystQuery.returned
    (AnalystQuery.execute db (AnalystQuery.__init__ uri user (Some password) cfg)
       question) = ok r ->
  py_getitem r "error" = ok (VStr msg) ->
  AnalystCli.query json_dumps db verbose cfg question uri user password AnalystCli.text =
    Cli.Output
      (("Query: " +:+ question +:+ Cli.nl)
       :: match AnalystCli.chosen question with
          | Some c => [Cli.nl +:+ "Cypher query: " +:+ c]
          | None => []
          end) [] 0 /\
  AnalystCli.query json_dumps db verbose cfg question uri user password AnalystCli.table =
    Cli.Output ["Query: " +:+ question +:+ Cli.nl] [] 0.
Proof.
  intros Hr Herror. unfold AnalystCli.query. rewrite Hr. unfold ok.
  cbv beta iota. cbn [AnalystCli.render].
  destruct (AnalystCli.chosen question) as [c|] eqn:Hc.
  - rewrite (execute_chosen _ _ _ _ _ _ _ Hc) in Hr.
    destruct (AnalystQuery.GraphDatabase_driver db uri user (Some password)) as [e|d];
      [discriminate Hr|].
    cbv zeta in Hr.
    destruct (AnalystQuery.session_run db d c) as [e|records]; injection Hr as <-.
    + rewrite (render_text_result _ None (VStr c) []);
        [|destruct (AnalystQuery._is_cypher question); reflexivity ..].
      rewrite (render_table_result _ []);
        [|destruct (AnalystQuery._is_cypher question); reflexivity].
      rewrite (chosen_nonempty _ _ Hc). split; reflexivity.
    + exfalso. destruct (AnalystQuery._is_cypher question); discriminate Herror.
  - rewrite (execute_not_chosen _ _ _ Hc) in Hr. injection Hr as <-.
    split; reflexivity.
Qed.

Lemma X16_witness :
  let r := VDict [("cypher", VStr "MATCH (n) RETURN n");
                  ("data", VList []);
                  ("error", VStr "Query failed")] in
  AnalystQuery.returned
    (AnalystQuery.execute Demo.db_failing Demo.analyst "MATCH (n) RETURN n") = ok r /\
  py_getitem r "error" = ok (VStr "Query failed") /\
  AnalystCli.query Compact.encode Demo.db_failing false None "MATCH (n) RETURN n"
    "bolt://localhost:7687" "neo4j" "secret" AnalystCli.text =
    Cli.Output ["Query: MATCH (n) RETURN n" +:+ Cli.nl;
                Cli.nl +:+ "Cypher query: MATCH (n) RETURN n"] [] 0 /\
  AnalystCli.query Compact.encode Demo.db_failing false None "MATCH (n) RETURN n"
    "bolt://localhost:7687" "neo4j" "secret" AnalystCli.table =
    Cli.Output ["Query: MATCH (n) RETURN n" +:+ Cli.nl] [] 0.
Proof.
  cbv zeta. split; [reflexivity|]. split; [reflexivity|].
  exact (X16_query_does_not_report_a_failed_query Compact.encode Demo.db_failing false
           None "MATCH (n) RETURN n" "bolt://localhost:7687" "neo4j" "secret"
           "Query failed" _ eq_refl eq_refl).
Defined.

(** A question no template matches: the command prints the question and
    nothing else, and exits with code 0. *)
Example query_without_translation :
  AnalystCli.query Compact.encode Demo.db_up false None "Something random"
    "bolt://localhost:7687" "neo4j" "secret" AnalystCli.text =
  Cli.Output ["Query: Something random" +:+ Cli.nl] [] 0.
Proof. vm_compute. reflexivity. Qed.

(** X17.  When creating the driver raises, [analyst query] prints the
    question and nothing else on standard output, whatever the format,
    reports the exception on standard error (as a missing module when it is
    an [ImportError], as a failed query otherwise, with the traceback only
    in verbose mode) and exits with code 1. *)
Theorem X17_query_exits_with_1_when_the_driver_fails (json_dumps : value -> string)
    (db : AnalystQuery.neo4j) (verbose : bool) (cfg : option AnalystQuery.llm_provider)
    (question uri user password c : string) (e : exn) (fmt : AnalystCli.format) :
  AnalystCli.chosen question = Some c ->
  AnalystQuery.GraphDatabase_driver db uri user (Some password) = inl e ->
  let out := AnalystCli.query json_dumps db verbose cfg question uri user password fmt in
  Cli.stdout out = ["Query: " +:+ question +:+ Cli.nl] /\
  Cli.exit_code out = 1 /\
  Cli.stderr out =
    match exn_cls e with
    | ImportError => [Cli.Message ("Error: Analyst module not available: " +:+ str_exn e)]
    | _ => Cli.Message ("Error executing query: " +:+ str_exn e)
           :: if verbose then [Cli.Traceback e] else []
    end.
Proof.
  intros Hc Hd out. unfold out, AnalystCli.query.
  rewrite (execute_chosen _ _ _ _ _ _ _ Hc), Hd. unfold Cli.on_error.
  destruct (exn_cls e); repeat split.
Qed.

Lemma X17_witness :
  let out := AnalystCli.query Compact.encode Demo.db_unreachable true None
               "Show all accounts" "bolt://localhost:7687" "neo4j" "secret"
               AnalystCli.json in
  AnalystCli.chosen "Show all accounts" =
    Some "MATCH (a:AWSAccount) RETURN a.name as name, a.id as id LIMIT 50" /\
  Cli.stdout out = ["Query: Show all accounts" +:+ Cli.nl] /\
  Cli.exit_code out = 1 /\
  Cli.stderr out =
    [Cli.Message "Error executing query: URI scheme is not supported";
     Cli.Traceback (Exception DriverError "URI scheme is not supported")].
Proof.
  cbv zeta. split; [reflexivity|].
  exact (X17_query_exits_with_1_when_the_driver_fails Compact.encode Demo.db_unreachable
           true None "Show all accounts" "bolt://localhost:7687" "neo4j" "secret"
           "MATCH (a:AWSAccount) RETURN a.name as name, a.id as id LIMIT 50"
           (Exception DriverError "URI scheme is not supported") AnalystCli.json
           eq_refl eq_refl).
Defined.
